(** * localdoener: the shop query engine, reviews and favourites

  A shallow embedding of the parts of the repository that the
  specification's core is about:

  - [server/storage.ts]: [DatabaseStorage.getShops], [calculateDistance],
    [getShopBySlug], [deleteShop], [createOpeningHours],
    [updateOpeningHours], [getReviewsByShopId], [getReviewsByUserId],
    [createReview], [updateReview], [deleteReview], [getUserReviewForShop],
    [getUserFavorites], [addUserFavorite], [removeUserFavorite],
    [isShopFavorited], [getUserFavoriteShopIds];
  - [server/routes.ts]: [generateSlug], [GET /api/top], [GET /api/shops],
    [GET /api/shops/:slug], [POST /api/reviews],
    [DELETE /api/reviews/:reviewId] and [GET /api/admin/reviews];
  - [server/googlePlaces.ts]: [convertOpeningHours], [formatTime];
  - [server/pushService.ts]: [isQuietHours], [getUsersWithShopFavorited];
  - [client/src/lib/utils.ts]: [isShopOpen], [getShopStatusText],
    [calculateDistance];
  - [shared/schema.ts]: the tables these read and write.

  The PostgreSQL store is a record of tables, each a list of rows in
  storage order; a statement is a function from the store to its rows
  (and the new store).  Where SQL leaves an order open (no [ORDER BY],
  ties) the rows keep their storage order.  Of the schema's constraints
  the foreign keys of an insert are checked; the keys [shops.id] and
  [shops.slug] are hypotheses of the statements that need them, and
  [gen_random_uuid()] and the clock are arguments of the calls that use
  them.  A delete of a shop cascades as the foreign keys declare it.  A
  text parameter with a NUL character is rejected by the database; the
  review and favourites lists and the routes that catch a rejection have
  this case.  The rate limiters in front of the routes are not modelled.

  JavaScript values are modelled by what the code can observe of them, see
  [Module JS]: a string is the list of the bytes of its UTF-8 form; a
  number is an integer-valued double or [NaN] where it comes from
  [parseInt] or [Math.round], and an exact real or [NaN] in the distance
  formula; a method that can throw returns a [result], an exception being
  a value of it. *)

From Stdlib Require Import List ZArith String Ascii Bool Lia Permutation.
From Stdlib Require Import QArith Qreduction.
From Stdlib Require Import Reals Lra.
Import ListNotations.

Close Scope Q_scope.
Close Scope R_scope.
Local Open Scope string_scope.
Local Open Scope list_scope.
Local Open Scope Z_scope.

(** ** The JavaScript runtime, as far as the code uses it *)

Module JS.

(** Strings.  A JavaScript string is modelled by its UTF-8 encoding, one
    [ascii] per byte: a character of the Basic Latin block is one byte,
    every other character two to four bytes from 128 on.  Strings with a
    lone surrogate have no such encoding and are not modelled. *)

(** A JS number that came out of [parseInt] or [Math.round], or was
    computed from such numbers by [+] and [-]: [NaN], or an integer that
    is a double.  Up to 2^53 every integer is one, beyond that the
    integers of 53 significant bits (see [toDouble]), and [infinity], the
    first power of two that is no double, stands for [Infinity], its
    negative for [-Infinity]. *)
Inductive number : Type :=
| NaN
| Int (z : Z).

(** A JS number that came out of [parseFloat] or of the arithmetic of the
    distance formula.  The model is the exact-real reading of the double:
    no rounding, [NaN] kept.  It has no infinity: where JavaScript has one
    the model has [NaN].  The only numbers of this kind in the code are the
    arguments and intermediate values of the two [calculateDistance], and
    there an infinite argument gives the result [NaN] as a [NaN] argument
    does (a difference with an infinity is infinite or [NaN], and the sine
    and cosine of an infinite angle are [NaN]). *)
Inductive real : Type :=
| RNaN
| Fin (x : R).

Definition isNaN (n : number) : bool :=
  match n with NaN => true | Int _ => false end.

Definition infinity : Z := 2 ^ 1024.

Definition isInfinite (z : Z) : bool := infinity <=? Z.abs z.

(** The double nearest to an integer (round to nearest, ties to the even
    mantissa), an infinity from 2^1024 - 2^970 on. *)
Definition toDouble (z : Z) : Z :=
  let a := Z.abs z in
  if a <? 2 ^ 53 then z
  else
    let e := Z.log2 a - 52 in
    let q := Z.shiftr a e in
    let r := a - Z.shiftl q e in
    let half := 2 ^ (e - 1) in
    let q' := if (half <? r) || ((half =? r) && Z.odd q) then q + 1 else q in
    Z.sgn z * Z.min (Z.shiftl q' e) infinity.

(** [a + b] and [a - b] on numbers: the exact sum, rounded to a double; an
    infinity absorbs what is finite, and the sum of the two opposite
    infinities is [NaN]. *)
Definition num_add (a b : number) : number :=
  match a, b with
  | Int x, Int y =>
      if isInfinite x
      then if isInfinite y && negb (Z.sgn x =? Z.sgn y) then NaN else Int x
      else if isInfinite y then Int y
      else Int (toDouble (x + y))
  | _, _ => NaN
  end.

Definition num_sub (a b : number) : number :=
  match a, b with
  | Int x, Int y => num_add (Int x) (Int (- y))
  | _, _ => NaN
  end.

(** [a <= b], [a < b] and [a >= b]: false as soon as one side is [NaN]. *)
Definition num_le (a b : number) : bool :=
  match a, b with Int x, Int y => x <=? y | _, _ => false end.

Definition num_lt (a b : number) : bool :=
  match a, b with Int x, Int y => x <? y | _, _ => false end.

Definition num_ge (a b : number) : bool := num_le b a.

(** Truthiness of a string: every string but the empty one. *)
Definition truthy (s : string) : bool :=
  match s with EmptyString => false | String _ _ => true end.

(** Truthiness of an optional string ([undefined] and [null] are falsy). *)
Definition truthyOpt (s : option string) : bool :=
  match s with Some s => truthy s | None => false end.

(** Truthiness of an optional boolean. *)
Definition truthyBool (b : option bool) : bool :=
  match b with Some true => true | _ => false end.

(** The white space that [parseInt] and [parseFloat] skip
    (StrWhiteSpaceChar).  In one byte: TAB, LF, VT, FF, CR, SP. *)
Definition isWhiteSpace (c : ascii) : bool :=
  let n := Z.of_nat (nat_of_ascii c) in
  ((9 <=? n) && (n <=? 13)) || (n =? 32).

Definition byte (c : ascii) : Z := Z.of_nat (nat_of_ascii c).

(** In two bytes: U+00A0, the no-break space. *)
Definition isWhiteSpace2 (a b : ascii) : bool :=
  (byte a =? 194) && (byte b =? 160).

(** In three bytes: U+1680, U+2000 to U+200A, the line and paragraph
    separators U+2028 and U+2029, U+202F, U+205F, U+3000 and the byte
    order mark U+FEFF. *)
Definition isWhiteSpace3 (a b c : ascii) : bool :=
  ((byte a =? 225) && (byte b =? 154) && (byte c =? 128))
  || ((byte a =? 226) && (byte b =? 128)
      && (((128 <=? byte c) && (byte c <=? 138))
          || (byte c =? 168) || (byte c =? 169) || (byte c =? 175)))
  || ((byte a =? 226) && (byte b =? 129) && (byte c =? 159))
  || ((byte a =? 227) && (byte b =? 128) && (byte c =? 128))
  || ((byte a =? 239) && (byte b =? 187) && (byte c =? 191)).

Fixpoint trimStart (s : string) : string :=
  match s with
  | String a s1 =>
      if isWhiteSpace a then trimStart s1
      else
        match s1 with
        | String b s2 =>
            if isWhiteSpace2 a b then trimStart s2
            else
              match s2 with
              | String c s3 => if isWhiteSpace3 a b c then trimStart s3 else s
              | EmptyString => s
              end
        | EmptyString => s
        end
  | EmptyString => s
  end.

(** The value of a character as a digit of some radix up to 36. *)
Definition digitValue (c : ascii) : option Z :=
  let n := Z.of_nat (nat_of_ascii c) in
  if (48 <=? n) && (n <=? 57) then Some (n - 48)
  else if (97 <=? n) && (n <=? 122) then Some (n - 87)
  else if (65 <=? n) && (n <=? 90) then Some (n - 55)
  else None.

(** The longest prefix of [s] made of digits of the radix, as an integer;
    [acc] is the value read so far ([None]: no digit yet). *)
Fixpoint radixDigits (radix : Z) (s : string) (acc : option Z) : option Z :=
  match s with
  | String c s' =>
      match digitValue c with
      | Some d =>
          if d <? radix
          then radixDigits radix s'
                 (Some (match acc with Some a => a * radix + d | None => d end))
          else acc
      | None => acc
      end
  | EmptyString => acc
  end.

(** [parseInt(string)] with no radix argument (ECMA-262, 19.2.5): the
    integer the digits spell, as a double. *)
Definition parseInt (s : string) : number :=
  let inputString := trimStart s in
  let '(sign, rest) :=
    match inputString with
    | String "-"%char t => (-1, t)
    | String "+"%char t => (1, t)
    | _ => (1, inputString)
    end in
  let '(radix, digits) :=
    match rest with
    | String "0"%char (String "x"%char t) => (16, t)
    | String "0"%char (String "X"%char t) => (16, t)
    | _ => (10, rest)
    end in
  match radixDigits radix digits None with
  | Some n => Int (toDouble (sign * n))
  | None => NaN
  end.

(** [str.replace(c, '')] for a one-character pattern: the first
    occurrence is removed. *)
Fixpoint removeFirst (c : ascii) (s : string) : string :=
  match s with
  | String d s' => if Ascii.eqb d c then s' else String d (removeFirst c s')
  | EmptyString => EmptyString
  end.

(** The decimal digits at the head of [s]: the integer they spell after
    [acc], how many there are after [n], and what follows them. *)
Fixpoint readDigits (s : string) (acc n : Z) : Z * Z * string :=
  match s with
  | String c s' =>
      match digitValue c with
      | Some d => if d <? 10 then readDigits s' (acc * 10 + d) (n + 1) else (acc, n, s)
      | None => (acc, n, s)
      end
  | EmptyString => (acc, n, s)
  end.

(** The rational [m * 10^e]. *)
Definition decimal (m e : Z) : Q :=
  if 0 <=? e then (m * 10 ^ e) # 1 else m # Z.to_pos (10 ^ (- e)).

(** The exponent part at the head of [s] ([e] or [E], an optional sign and
    at least one digit), 0 when there is none. *)
Definition readExponent (s : string) : Z :=
  let signed t :=
    let '(neg, t') :=
      match t with
      | String "-"%char u => (true, u)
      | String "+"%char u => (false, u)
      | _ => (false, t)
      end in
    let '(ev, ne, _) := readDigits t' 0 0 in
    if ne =? 0 then 0 else if neg : bool then - ev else ev in
  match s with
  | String "e"%char t => signed t
  | String "E"%char t => signed t
  | _ => 0
  end.

(** A decimal literal of this magnitude is no finite double: from
    2^1024 - 2^970 on it rounds to an infinity. *)
Definition overflows (q : Q) : bool :=
  Qle_bool (inject_Z (2 ^ 1024 - 2 ^ 970)) q.

(** [parseFloat(string)] (ECMA-262, 19.2.4): the longest prefix that is a
    decimal literal, [NaN] when there is none.  Where JavaScript's result
    is an infinity (the literal [Infinity], or a decimal literal too large
    for a double) the model's is [NaN], see [real]. *)
Definition parseFloat (s : string) : real :=
  let inputString := trimStart s in
  let '(neg, rest) :=
    match inputString with
    | String "-"%char t => (true, t)
    | String "+"%char t => (false, t)
    | _ => (false, inputString)
    end in
  let '(ip, ni, rest1) := readDigits rest 0 0 in
  let '(m, nf, rest2) :=
    match rest1 with
    | String "."%char t => readDigits t ip 0
    | _ => (ip, 0, rest1)
    end in
  if ni + nf =? 0 then RNaN
  else
    let q := decimal m (readExponent rest2 - nf) in
    if overflows q then RNaN
    else Fin (Q2R (if neg : bool then Qopp q else q)).

(** Arithmetic of the distance formula: [NaN] as soon as an operand is. *)
Definition lift2 (op : R -> R -> R) (a b : real) : real :=
  match a, b with Fin x, Fin y => Fin (op x y) | _, _ => RNaN end.

Definition real_add : real -> real -> real := lift2 Rplus.
Definition real_sub : real -> real -> real := lift2 Rminus.
Definition real_mul : real -> real -> real := lift2 Rmult.
(** Division: every divisor in this code is a non-zero literal. *)
Definition real_div : real -> real -> real := lift2 Rdiv.

Declare Scope js_scope.
Delimit Scope js_scope with js.
Infix "+" := real_add : js_scope.
Infix "-" := real_sub : js_scope.
Infix "*" := real_mul : js_scope.
Infix "/" := real_div : js_scope.

(** A numeric literal, and a number of the first kind used in arithmetic
    of the second. *)
Definition lit (z : Z) : real := Fin (IZR z).

Definition toReal (n : number) : real :=
  match n with NaN => RNaN | Int z => Fin (IZR z) end.

Definition Math_PI : real := Fin PI.

Definition Math_sin (a : real) : real :=
  match a with Fin x => Fin (sin x) | RNaN => RNaN end.

Definition Math_cos (a : real) : real :=
  match a with Fin x => Fin (cos x) | RNaN => RNaN end.

(** [Math.sqrt]: [NaN] below zero. *)
Definition Math_sqrt (a : real) : real :=
  match a with
  | Fin x => if Rlt_dec x 0 then RNaN else Fin (sqrt x)
  | RNaN => RNaN
  end.

(** The angle of the point [(x, y)], in (-PI, PI]. *)
Definition atan2 (y x : R) : R :=
  if Rlt_dec 0 x then atan (y / x)
  else if Rlt_dec x 0
       then (if Rle_dec 0 y then atan (y / x) + PI else atan (y / x) - PI)%R
       else if Rlt_dec 0 y then (PI / 2)%R
            else if Rlt_dec y 0 then (- PI / 2)%R else 0%R.

Definition Math_atan2 : real -> real -> real := lift2 atan2.

(** [Math.round]: the integer nearest to [x], halves rounded up, that is
    [floor(x + 1/2)]. *)
Definition Math_round (a : real) : number :=
  match a with
  | Fin x => Int (Int_part (x + / 2))
  | RNaN => NaN
  end.

(** ToIntegerOrInfinity of an argument of [slice]. *)
Definition ToIntegerOrInfinity (n : number) : Z :=
  match n with NaN => 0 | Int z => z end.

(** [Array.prototype.slice(start, end)] (ECMA-262, 23.1.3.28). *)
Definition slice {A : Type} (start end_ : number) (arr : list A) : list A :=
  let len := Z.of_nat (List.length arr) in
  let relativeStart := ToIntegerOrInfinity start in
  let k := if relativeStart <? 0 then Z.max (len + relativeStart) 0
           else Z.min relativeStart len in
  let relativeEnd := ToIntegerOrInfinity end_ in
  let final := if relativeEnd <? 0 then Z.max (len + relativeEnd) 0
               else Z.min relativeEnd len in
  firstn (Z.to_nat (final - k)) (skipn (Z.to_nat k) arr).

(** A stable sort: [x] is put before the first element [y] of the sorted
    rest with [stays x y], so elements that compare equal keep their
    order. *)
Fixpoint insertSorted {A : Type} (stays : A -> A -> bool) (x : A) (l : list A) : list A :=
  match l with
  | [] => [x]
  | y :: t => if stays x y then x :: y :: t else y :: insertSorted stays x t
  end.

Definition stableSort {A : Type} (stays : A -> A -> bool) (l : list A) : list A :=
  fold_right (insertSorted stays) [] l.

(** [Array.prototype.sort(comparefn)]: stable, and [a] stays before a later
    [b] unless [comparefn(a, b) > 0]; a [NaN] from the comparator counts as
    0.  With a comparator that is no ordering (NaN keys) the standard leaves
    the order to the engine; the model keeps sorting by insertion. *)
Definition Array_sort {A : Type} (comparefn : A -> A -> number) (l : list A) : list A :=
  stableSort (fun a b => negb (num_lt (Int 0) (comparefn a b))) l.

End JS.

(** ** shared/schema.ts *)

Module Schema.

(** A [timestamp] column: milliseconds since the epoch. *)
Definition timestamp : Type := Z.

(** The tables, with the columns that the modelled functions read or write.
    A column without [notNull()] is an [option]; a [decimal] column is the
    string the driver returns for it. *)

(** Table [users]. *)
Record User : Type := mkUser {
  user_id : string;
  user_name : string
}.

(** Table [shops]. *)
Record Shop : Type := mkShop {
  shop_id : string;
  shop_name : string;
  shop_slug : string;
  shop_lat : string;
  shop_lng : string;
  shop_city : string;
  shop_priceLevel : option Z;
  shop_halal : option bool;
  shop_veg : option bool;
  shop_isPublished : option bool;
  shop_hasOffers : option bool;
  shop_hasDelivery : option bool
}.

(** Table [opening_hours]. *)
Record OpeningHours : Type := mkOpeningHours {
  oh_id : string;
  oh_shopId : string;
  oh_weekday : Z;
  oh_openTime : option string;
  oh_closeTime : option string;
  oh_note : option string
}.

(** Table [reviews]. *)
Record Review : Type := mkReview {
  review_id : string;
  review_shopId : string;
  review_userId : option string;
  review_rating : Z;
  review_text : string;
  review_userHash : option string;
  review_authorName : option string;
  review_isAnonymous : option bool;
  review_isEdited : option bool;
  review_editedAt : option timestamp;
  review_createdAt : option timestamp;
  review_updatedAt : option timestamp
}.

(** Table [photos]. *)
Record Photo : Type := mkPhoto {
  photo_id : string;
  photo_shopId : string;
  photo_url : string
}.

(** Table [user_favorites]. *)
Record UserFavorite : Type := mkUserFavorite {
  fav_id : string;
  fav_userId : string;
  fav_shopId : string;
  fav_createdAt : option timestamp
}.

(** The store: every table, rows in storage order. *)
Record DB : Type := mkDB {
  users : list User;
  shops : list Shop;
  openingHours : list OpeningHours;
  reviews : list Review;
  photos : list Photo;
  userFavorites : list UserFavorite
}.

(** [ShopWithDetails]: a shop with its related rows and aggregates.
    [swd_distance] is the optional [distance] property [getShops] adds. *)
Record ShopWithDetails : Type := mkShopWithDetails {
  swd_shop : Shop;
  swd_openingHours : list OpeningHours;
  swd_reviews : list Review;
  swd_photos : list Photo;
  swd_avgRating : Q;
  swd_reviewCount : Z;
  swd_distance : option JS.number
}.

(** [insertReviewSchema]: the three fields a review body must have, and
    their bounds.  [None] is a field that is missing or of the wrong type. *)
Record ReviewBody : Type := mkReviewBody {
  body_shopId : option string;
  body_rating : option Z;
  body_text : option string
}.

Record InsertReview : Type := mkInsertReview {
  ir_shopId : string;
  ir_rating : Z;
  ir_text : string
}.

Definition insertReviewSchema_safeParse (body : ReviewBody) : option InsertReview :=
  match body_shopId body, body_rating body, body_text body with
  | Some shopId, Some rating, Some text =>
      if (1 <=? rating) && (rating <=? 5)
         && (Z.of_nat (String.length text) <=? 2000)
      then Some (mkInsertReview shopId rating text)
      else None
  | _, _, _ => None
  end.

(** [UpdateReview]: both fields optional. *)
Record UpdateReview : Type := mkUpdateReview {
  ur_rating : option Z;
  ur_text : option string
}.

End Schema.

(** ** What the queries use of SQL *)

Module Sql.

(** [a = b] in a [WHERE] clause: not true when a side is [NULL]. *)
Definition eq (a b : option string) : bool :=
  match a, b with
  | Some x, Some y => String.eqb x y
  | _, _ => false
  end.

(** [column = true]. *)
Definition eqTrue (a : option bool) : bool :=
  match a with Some true => true | _ => false end.

(** [AVG] of an integer column over the rows of a group: [NULL] over no
    row, else the exact mean (PostgreSQL returns a [numeric]; its rounding
    to 16 digits and the double [Number()] makes of it are not modelled). *)
Definition AVG (xs : list Z) : option Q :=
  match xs with
  | [] => None
  | _ => Some (Qred (fold_right Z.add 0 xs # Pos.of_nat (List.length xs)))
  end.

(** [COUNT(column)]: the rows where the column is not [NULL]. *)
Definition COUNT {A : Type} (xs : list (option A)) : Z :=
  Z.of_nat (List.length (filter (fun x => match x with Some _ => true | None => false end) xs)).

Definition COALESCE (a : option Q) (d : Q) : Q :=
  match a with Some q => q | None => d end.

(** [ORDER BY]: the key orders below say whether a row may stay before
    another; rows that tie keep their storage order (SQL leaves the order of
    ties open; the model fixes it). *)
Definition orderBy {A : Type} (stays : A -> A -> bool) (rows : list A) : list A :=
  JS.stableSort stays rows.

(** [ASC]: [NULL]s last. *)
Definition asc (a b : option Z) : bool :=
  match a, b with
  | _, None => true
  | None, Some _ => false
  | Some x, Some y => x <=? y
  end.

(** [DESC]: [NULL]s first. *)
Definition desc (a b : option Z) : bool :=
  match a, b with
  | None, _ => true
  | Some _, None => false
  | Some x, Some y => y <=? x
  end.

Definition descQ (a b : option Q) : bool :=
  match a, b with
  | None, _ => true
  | Some _, None => false
  | Some x, Some y => Qle_bool y x
  end.

(** [shops LEFT JOIN reviews ON shops.id = reviews.shop_id]: a shop with no
    review gives one row with the review columns [NULL]. *)
Definition leftJoin (ss : list Schema.Shop) (rs : list Schema.Review)
  : list (Schema.Shop * option Schema.Review) :=
  flat_map
    (fun s =>
       match filter (fun r => String.eqb (Schema.shop_id s) (Schema.review_shopId r)) rs with
       | [] => [(s, None)]
       | matches => map (fun r => (s, Some r)) matches
       end)
    ss.

(** [GROUP BY shops.id]: the joined rows with the same shop id form one
    group, groups in the order of their first row. *)
Fixpoint groupByShopId (rows : list (Schema.Shop * option Schema.Review))
  : list (Schema.Shop * list (option Schema.Review)) :=
  match rows with
  | [] => []
  | (s, r) :: rest =>
      let groups := groupByShopId rest in
      let same (g : Schema.Shop * list (option Schema.Review)) :=
        String.eqb (Schema.shop_id s) (Schema.shop_id (fst g)) in
      (s, r :: flat_map (fun g => if same g then snd g else []) groups)
        :: filter (fun g => negb (same g)) groups
  end.

(** [a LEFT JOIN b ON on(a, b)]: a row of [a] without a match gives one
    row with the columns of [b] [NULL]. *)
Definition leftJoinOn {A B : Type} (on : A -> B -> bool) (l : list A) (r : list B)
  : list (A * option B) :=
  flat_map
    (fun a =>
       match filter (on a) r with
       | [] => [(a, None)]
       | matches => map (fun b => (a, Some b)) matches
       end)
    l.

(** [a INNER JOIN b ON on(a, b)]. *)
Definition innerJoinOn {A B : Type} (on : A -> B -> bool) (l : list A) (r : list B)
  : list (A * B) :=
  flat_map (fun a => map (pair a) (filter (on a) r)) l.

(** [LIMIT limit OFFSET offset], both natural numbers. *)
Definition limitOffset {A : Type} (limit offset : nat) (rows : list A) : list A :=
  firstn limit (skipn offset rows).

End Sql.

(** ** server/storage.ts *)

Module Storage.
Import JS Schema.

(** What a call can throw: [new Error(message)] of the code itself, or the
    error of a statement the database rejects (a foreign key that names no
    row). *)
Inductive Error : Type :=
| JsError (message : string)
| DbError (constraint : string).

(** The outcome of an [async] method: the value its promise resolves to, or
    what it rejects with. *)
Inductive result (A : Type) : Type :=
| Ok (a : A)
| Throw (e : Error).

Arguments Ok {A} a.
Arguments Throw {A} e.

(** The argument of [getShops]; an absent property is [None]. *)
Record Filters : Type := mkFilters {
  city : option string;
  lat : option real;
  lng : option real;
  radius : option number;
  openNow : option bool;
  halal : option bool;
  veg : option bool;
  hasOffers : option bool;
  hasDelivery : option bool;
  sortBy : option string;
  limit : option number;
  offset : option number
}.

(** [filters.sortBy === name]. *)
Definition sortByIs (filters : Filters) (name : string) : bool :=
  match sortBy filters with Some s => String.eqb s name | None => false end.

(** A row of [result]: the selected columns and, once it is computed, the
    [distance] property. *)
Record Item : Type := mkItem {
  item_shop : Shop;
  item_avgRating : Q;
  item_reviewCount : Z;
  item_distance : option number
}.

Definition degreesToRadians (degrees : real) : real :=
  (degrees * (Math_PI / lit 180))%js.

(** [calculateDistance]: Haversine, in meters. *)
Definition calculateDistance (lat1 lng1 lat2 lng2 : real) : number :=
  let R := lit 6371 in
  let dLat := degreesToRadians (lat2 - lat1)%js in
  let dLng := degreesToRadians (lng2 - lng1)%js in
  let a :=
    (Math_sin (dLat / lit 2) * Math_sin (dLat / lit 2) +
     Math_cos (degreesToRadians lat1) * Math_cos (degreesToRadians lat2) *
     Math_sin (dLng / lit 2) * Math_sin (dLng / lit 2))%js in
  let c := (lit 2 * Math_atan2 (Math_sqrt a) (Math_sqrt (lit 1 - a)))%js in
  let distance := (R * c)%js in
  Math_round (distance * lit 1000)%js.

(** The [WHERE] clause of the list query: published, and each requested
    filter; a filter that is falsy adds no condition. *)
Definition whereClause (filters : Filters) (s : Shop) : bool :=
  Sql.eqTrue (shop_isPublished s)
  && (if truthyOpt (city filters) then Sql.eq (Some (shop_city s)) (city filters) else true)
  && (if truthyBool (halal filters) then Sql.eqTrue (shop_halal s) else true)
  && (if truthyBool (veg filters) then Sql.eqTrue (shop_veg s) else true)
  && (if truthyBool (hasOffers filters) then Sql.eqTrue (shop_hasOffers s) else true)
  && (if truthyBool (hasDelivery filters) then Sql.eqTrue (shop_hasDelivery s) else true).

(** A group of the list query: a shop and its joined review rows. *)
Definition Group : Type := (Shop * list (option Review))%type.

(** The ratings of a group's reviews ([reviews.rating] is [NOT NULL], so it
    is [NULL] on the padded row of a shop without reviews only). *)
Definition groupRatings (g : Group) : list Z :=
  flat_map (fun r => match r with Some r => [review_rating r] | None => [] end) (snd g).

Definition groupReviewIds (g : Group) : list (option string) :=
  map (fun r => match r with Some r => Some (review_id r) | None => None end) (snd g).

(** [desc(AVG(reviews.rating))] and [asc(shops.priceLevel)] as row orders. *)
Definition byRating (g1 g2 : Group) : bool :=
  Sql.descQ (Sql.AVG (groupRatings g1)) (Sql.AVG (groupRatings g2)).

Definition byPrice (g1 g2 : Group) : bool :=
  Sql.asc (shop_priceLevel (fst g1)) (shop_priceLevel (fst g2)).

(** [ORDER BY price_level ASC, AVG(rating) DESC]. *)
Definition byPriceThenRating (g1 g2 : Group) : bool :=
  if negb (byPrice g2 g1) then true
  else if negb (byPrice g1 g2) then false
  else byRating g1 g2.

(** The [orderBy] the method adds to the query, if any. *)
Definition orderByClause (filters : Filters) : option (Group -> Group -> bool) :=
  if sortByIs filters "rating" then Some byRating
  else if sortByIs filters "price" then Some byPrice
  else if negb (sortByIs filters "distance") then Some byPriceThenRating
  else None.

(** The select list: the shop, [COALESCE(AVG(rating), 0)] and
    [COUNT(reviews.id)]. *)
Definition selectColumns (g : Group) : Item :=
  {| item_shop := fst g;
     item_avgRating := Sql.COALESCE (Sql.AVG (groupRatings g)) 0;
     item_reviewCount := Sql.COUNT (groupReviewIds g);
     item_distance := None |}.

(** [await baseQuery]: join, filter, group, order, select. *)
Definition baseQuery (db : DB) (filters : Filters) : list Item :=
  let groups :=
    Sql.groupByShopId
      (filter (fun row => whereClause filters (fst row))
              (Sql.leftJoin (shops db) (reviews db))) in
  let ordered :=
    match orderByClause filters with
    | Some stays => Sql.orderBy stays groups
    | None => groups
    end in
  map selectColumns ordered.

(** [result] when pagination starts: the rows of the query and, with a
    reference point, their distances, the radius filter and the distance
    sort. *)
Definition queryResult (db : DB) (filters : Filters) : list Item :=
  let result := baseQuery db filters in
  match lat filters, lng filters with
  | Some lat, Some lng =>
      let shopsWithDistance :=
        map (fun item =>
               let shopLat := parseFloat (shop_lat (item_shop item)) in
               let shopLng := parseFloat (shop_lng (item_shop item)) in
               let distance := calculateDistance lat lng shopLat shopLng in
               (item, distance))
            result in
      let filteredShops :=
        match radius filters with
        | Some radius => filter (fun item => num_le (snd item) radius) shopsWithDistance
        | None => shopsWithDistance
        end in
      let sorted :=
        if sortByIs filters "distance"
        then Array_sort (fun a b => num_sub (snd a) (snd b)) filteredShops
        else filteredShops in
      map (fun item =>
             {| item_shop := item_shop (fst item);
                item_avgRating := item_avgRating (fst item);
                item_reviewCount := item_reviewCount (fst item);
                item_distance := Some (snd item) |})
          sorted
  | _, _ => result
  end.

Definition byCreatedAtDesc (r1 r2 : Review) : bool :=
  Sql.desc (review_createdAt r1) (review_createdAt r2).

Definition byWeekdayAsc (h1 h2 : OpeningHours) : bool :=
  Sql.asc (Some (oh_weekday h1)) (Some (oh_weekday h2)).

Definition reviewsOfShop (db : DB) (shopId : string) : list Review :=
  filter (fun r => String.eqb (review_shopId r) shopId) (reviews db).

Definition hoursOfShop (db : DB) (shopId : string) : list OpeningHours :=
  filter (fun h => String.eqb (oh_shopId h) shopId) (openingHours db).

Definition photosOfShop (db : DB) (shopId : string) : list Photo :=
  filter (fun p => String.eqb (photo_shopId p) shopId) (photos db).

(** The body of the loop over the page: the related rows of one shop. *)
Definition withDetails (db : DB) (item : Item) : ShopWithDetails :=
  let id := shop_id (item_shop item) in
  {| swd_shop := item_shop item;
     swd_openingHours := hoursOfShop db id;
     swd_reviews := firstn 5 (Sql.orderBy byCreatedAtDesc (reviewsOfShop db id));
     swd_photos := photosOfShop db id;
     swd_avgRating := item_avgRating item;
     swd_reviewCount := item_reviewCount item;
     swd_distance := item_distance item |}.

(** [getShops(filters)]. *)
Definition getShops (db : DB) (filters : Filters) : list ShopWithDetails :=
  let limit := match limit filters with Some n => n | None => Int 50 end in
  let offset := match offset filters with Some n => n | None => Int 0 end in
  let result := queryResult db filters in
  let paginatedResult := slice offset (num_add offset limit) result in
  map (withDetails db) paginatedResult.

(** [Number(x)] of a [numeric] or [NULL] column value: [Number(null)] is 0. *)
Definition Number_ (x : option Q) : Q :=
  match x with Some q => q | None => 0%Q end.

(** [x || 0] on a number: 0 is the only falsy number that is no [NaN]. *)
Definition orZero (x : Q) : Q :=
  if Qeq_bool x 0 then 0%Q else x.

(** [getShopBySlug(slug)]. *)
Definition getShopBySlug (db : DB) (slug : string) : option ShopWithDetails :=
  match filter (fun s => String.eqb (shop_slug s) slug) (shops db) with
  | [] => None
  | shop :: _ =>
      let hoursData := Sql.orderBy byWeekdayAsc (hoursOfShop db (shop_id shop)) in
      let reviewsData := Sql.orderBy byCreatedAtDesc (reviewsOfShop db (shop_id shop)) in
      let photosData := photosOfShop db (shop_id shop) in
      let ratings_avgRating := Sql.AVG (map review_rating (reviewsOfShop db (shop_id shop))) in
      let ratings_reviewCount :=
        Sql.COUNT (map (fun r => Some (review_id r)) (reviewsOfShop db (shop_id shop))) in
      Some {| swd_shop := shop;
              swd_openingHours := hoursData;
              swd_reviews := reviewsData;
              swd_photos := photosData;
              swd_avgRating := orZero (Number_ ratings_avgRating);
              swd_reviewCount := ratings_reviewCount;
              swd_distance := None |}
  end.

(** The argument of [createReview]: an [InsertReview] with the identity
    properties, and whatever else the caller's object holds; the route puts
    an [authorName] there. *)
Record CreateReview : Type := mkCreateReview {
  cr_data : InsertReview;
  cr_authorName : option string;
  cr_userId : option string;
  cr_userHash : option string;
  cr_isAnonymous : option bool
}.

(** [x || null] on an optional string. *)
Definition orNull (x : option string) : option string :=
  if truthyOpt x then x else None.

Definition shopExists (db : DB) (shopId : string) : bool :=
  existsb (fun s => String.eqb (shop_id s) shopId) (shops db).

Definition userExists (db : DB) (userId : string) : bool :=
  existsb (fun u => String.eqb (user_id u) userId) (users db).

Definition withReviews (db : DB) (rs : list Review) : DB :=
  {| users := users db; shops := shops db; openingHours := openingHours db;
     reviews := rs; photos := photos db; userFavorites := userFavorites db |}.

Definition withUserFavorites (db : DB) (fs : list UserFavorite) : DB :=
  {| users := users db; shops := shops db; openingHours := openingHours db;
     reviews := reviews db; photos := photos db; userFavorites := fs |}.

(** [createReview(review)].  [uuid] is what [gen_random_uuid()] yields for
    the new row and [now] the time of the call.  The values object spreads
    [reviewData] first, so the [authorName] written after it wins. *)
Definition createReview (db : DB) (review : CreateReview) (uuid : string) (now : timestamp)
  : result Review * DB :=
  let userHash := cr_userHash review in
  let userId := cr_userId review in
  let isAnonymous :=
    match cr_isAnonymous review with
    | Some b => b
    | None => negb (truthyOpt userId)
    end in
  let reviewData := cr_data review in
  let newReview :=
    {| review_id := uuid;
       review_shopId := ir_shopId reviewData;
       review_userId := orNull userId;
       review_rating := ir_rating reviewData;
       review_text := ir_text reviewData;
       review_userHash := orNull userHash;
       review_authorName := if truthyOpt userId then None else Some "Anonymer Nutzer";
       review_isAnonymous := Some isAnonymous;
       review_isEdited := Some false;
       review_editedAt := None;
       review_createdAt := Some now;
       review_updatedAt := Some now |} in
  if negb (shopExists db (review_shopId newReview))
  then (Throw (DbError "reviews_shop_id_shops_id_fk"), db)
  else if match review_userId newReview with
          | Some u => negb (userExists db u)
          | None => false
          end
  then (Throw (DbError "reviews_user_id_users_id_fk"), db)
  else (Ok newReview, withReviews db (reviews db ++ [newReview])).

(** The [WHERE] clause of [updateReview] and [deleteReview]: this id and
    this owner.  A [NULL] [user_id] equals no owner. *)
Definition ownedBy (reviewId userId : string) (r : Review) : bool :=
  String.eqb (review_id r) reviewId && Sql.eq (review_userId r) (Some userId).

(** The [SET] clause of [updateReview]; an absent property of [updates]
    leaves its column as it is. *)
Definition setUpdates (updates : UpdateReview) (now : timestamp) (r : Review) : Review :=
  {| review_id := review_id r;
     review_shopId := review_shopId r;
     review_userId := review_userId r;
     review_rating := match ur_rating updates with Some x => x | None => review_rating r end;
     review_text := match ur_text updates with Some x => x | None => review_text r end;
     review_userHash := review_userHash r;
     review_authorName := review_authorName r;
     review_isAnonymous := review_isAnonymous r;
     review_isEdited := Some true;
     review_editedAt := Some now;
     review_createdAt := review_createdAt r;
     review_updatedAt := Some now |}.

Definition notFoundOrUnauthorized : Error :=
  JsError "Review not found or unauthorized".

(** [updateReview(reviewId, userId, updates)]. *)
Definition updateReview (db : DB) (reviewId userId : string) (updates : UpdateReview)
  (now : timestamp) : result Review * DB :=
  let returning :=
    map (setUpdates updates now) (filter (ownedBy reviewId userId) (reviews db)) in
  let db' :=
    withReviews db
      (map (fun r => if ownedBy reviewId userId r then setUpdates updates now r else r)
           (reviews db)) in
  match returning with
  | [] => (Throw notFoundOrUnauthorized, db')
  | updatedReview :: _ => (Ok updatedReview, db')
  end.

(** [deleteReview(reviewId, userId)]. *)
Definition deleteReview (db : DB) (reviewId userId : string) : result unit * DB :=
  let rowCount := List.length (filter (ownedBy reviewId userId) (reviews db)) in
  let db' := withReviews db (filter (fun r => negb (ownedBy reviewId userId r)) (reviews db)) in
  if Nat.eqb rowCount 0
  then (Throw notFoundOrUnauthorized, db')
  else (Ok tt, db').

(** [getUserReviewForShop(userId, shopId)]. *)
Definition getUserReviewForShop (db : DB) (userId shopId : string) : option Review :=
  match filter (fun r => Sql.eq (review_userId r) (Some userId)
                         && String.eqb (review_shopId r) shopId)
               (reviews db) with
  | [] => None
  | review :: _ => Some review
  end.

Definition isFavorite (userId shopId : string) (f : UserFavorite) : bool :=
  String.eqb (fav_userId f) userId && String.eqb (fav_shopId f) shopId.

(** [addUserFavorite(userId, shopId)]; [uuid] and [now] as in
    [createReview]. *)
Definition addUserFavorite (db : DB) (userId shopId : string) (uuid : string)
  (now : timestamp) : result UserFavorite * DB :=
  let existing := filter (isFavorite userId shopId) (userFavorites db) in
  match existing with
  | first :: _ => (Ok first, db)
  | [] =>
      let favorite :=
        {| fav_id := uuid; fav_userId := userId; fav_shopId := shopId;
           fav_createdAt := Some now |} in
      if negb (userExists db userId)
      then (Throw (DbError "user_favorites_user_id_users_id_fk"), db)
      else if negb (shopExists db shopId)
      then (Throw (DbError "user_favorites_shop_id_shops_id_fk"), db)
      else (Ok favorite, withUserFavorites db (userFavorites db ++ [favorite]))
  end.

(** [removeUserFavorite(userId, shopId)]. *)
Definition removeUserFavorite (db : DB) (userId shopId : string) : result unit * DB :=
  (Ok tt,
   withUserFavorites db (filter (fun f => negb (isFavorite userId shopId f)) (userFavorites db))).

(** [isShopFavorited(userId, shopId)]. *)
Definition isShopFavorited (db : DB) (userId shopId : string) : bool :=
  match filter (isFavorite userId shopId) (userFavorites db) with
  | [] => false
  | favorite :: _ => true
  end.

(** [getUserFavoriteShopIds(userId)]. *)
Definition getUserFavoriteShopIds (db : DB) (userId : string) : list string :=
  let favorites :=
    filter (fun f => String.eqb (fav_userId f) userId) (userFavorites db) in
  map fav_shopId favorites.

(** [deleteShop(id)]: the shop's row goes, and with it, by the
    [onDelete: 'cascade'] of their foreign keys, its opening hours, reviews,
    photos and favourites. *)
Definition deleteShop (db : DB) (id : string) : DB :=
  match filter (fun s => String.eqb (shop_id s) id) (shops db) with
  | [] => db
  | _ :: _ =>
      {| users := users db;
         shops := filter (fun s => negb (String.eqb (shop_id s) id)) (shops db);
         openingHours :=
           filter (fun h => negb (String.eqb (oh_shopId h) id)) (openingHours db);
         reviews := filter (fun r => negb (String.eqb (review_shopId r) id)) (reviews db);
         photos := filter (fun p => negb (String.eqb (photo_shopId p) id)) (photos db);
         userFavorites :=
           filter (fun f => negb (String.eqb (fav_shopId f) id)) (userFavorites db) |}
  end.

(** [InsertOpeningHours]. *)
Record InsertOpeningHours : Type := mkInsertOpeningHours {
  ioh_shopId : string;
  ioh_weekday : Z;
  ioh_openTime : option string;
  ioh_closeTime : option string;
  ioh_note : option string
}.

Definition withOpeningHours (db : DB) (hs : list OpeningHours) : DB :=
  {| users := users db; shops := shops db; openingHours := hs;
     reviews := reviews db; photos := photos db; userFavorites := userFavorites db |}.

(** The rows an insert of [hours] makes; [uuids k] is the id of row [k]. *)
Fixpoint newOpeningHours (uuids : nat -> string) (k : nat) (hours : list InsertOpeningHours)
  : list OpeningHours :=
  match hours with
  | [] => []
  | h :: rest =>
      {| oh_id := uuids k; oh_shopId := ioh_shopId h; oh_weekday := ioh_weekday h;
         oh_openTime := ioh_openTime h; oh_closeTime := ioh_closeTime h;
         oh_note := ioh_note h |}
        :: newOpeningHours uuids (S k) rest
  end.

(** [db.insert(openingHours).values(hours).returning()]: one statement, all
    rows or none. *)
Definition insertOpeningHours (db : DB) (hours : list InsertOpeningHours)
  (uuids : nat -> string) : result (list OpeningHours) * DB :=
  if forallb (fun h => shopExists db (ioh_shopId h)) hours
  then
    let rows := newOpeningHours uuids 0 hours in
    (Ok rows, withOpeningHours db (openingHours db ++ rows))
  else (Throw (DbError "opening_hours_shop_id_shops_id_fk"), db).

(** [createOpeningHours(hours)]. *)
Definition createOpeningHours (db : DB) (hours : list InsertOpeningHours)
  (uuids : nat -> string) : result (list OpeningHours) * DB :=
  match hours with
  | [] => (Ok [], db)
  | _ :: _ => insertOpeningHours db hours uuids
  end.

(** [updateOpeningHours(shopId, hours)]: two statements, no transaction
    around them. *)
Definition updateOpeningHours (db : DB) (shopId : string) (hours : list InsertOpeningHours)
  (uuids : nat -> string) : result (list OpeningHours) * DB :=
  let db1 :=
    withOpeningHours db
      (filter (fun h => negb (String.eqb (oh_shopId h) shopId)) (openingHours db)) in
  match hours with
  | [] => (Ok [], db1)
  | _ :: _ => insertOpeningHours db1 hours uuids
  end.

(** PostgreSQL holds no NUL character in a text value and rejects a
    statement that binds a text parameter with one (invalid byte sequence
    for encoding UTF8: 0x00); the promise of the storage method that sent
    the statement then rejects with the database's error, and nothing is
    read or written. *)
Fixpoint hasNul (s : string) : bool :=
  match s with
  | EmptyString => false
  | String c rest => (byte c =? 0) || hasNul rest
  end.

Definition invalidByteSequence : Error :=
  DbError "invalid byte sequence for encoding UTF8: 0x00".

(** [ReviewWithUser]: a review with the nested [user] and [shop] objects
    of the two left joins ([users.avatarUrl], a column the store's users do
    not carry, is left out). *)
Record ReviewUser : Type := mkReviewUser {
  ru_id : string;
  ru_name : string
}.

Record ReviewShop : Type := mkReviewShop {
  rs_id : string;
  rs_name : string;
  rs_slug : string
}.

Record ReviewWithUser : Type := mkReviewWithUser {
  rwu_review : Review;
  rwu_user : option ReviewUser;
  rwu_shop : option ReviewShop
}.

(** The nested objects of a joined row: drizzle makes the object of a
    left-joined table [null] when the join found no row for it. *)
Definition selectReviewUser (u : option User) : option ReviewUser :=
  match u with
  | Some u => Some {| ru_id := user_id u; ru_name := user_name u |}
  | None => None
  end.

Definition selectReviewShop (s : option Shop) : option ReviewShop :=
  match s with
  | Some s => Some {| rs_id := shop_id s; rs_name := shop_name s; rs_slug := shop_slug s |}
  | None => None
  end.

(** [reviews LEFT JOIN users LEFT JOIN shops], the source of both review
    lists. *)
Definition reviewsJoined (db : DB) : list (Review * option User * option Shop) :=
  Sql.leftJoinOn (fun (row : Review * option User) s =>
                    String.eqb (review_shopId (fst row)) (shop_id s))
    (Sql.leftJoinOn (fun r u => Sql.eq (review_userId r) (Some (user_id u)))
       (reviews db) (users db))
    (shops db).

(** The [TypeError] of reading a property of [null]. *)
Definition typeErrorOfNull : Error :=
  JsError "Cannot read properties of null (reading 'id')".

(** The callback of [reviewsData.map(item => ...)].  It reads
    [item.user.id], which throws when [item.user] is [null], that is for
    a review whose join found no user; every anonymous review is one. *)
Definition toReviewWithUser (item : Review * option User * option Shop)
  : result ReviewWithUser :=
  match selectReviewUser (snd (fst item)) with
  | None => Throw typeErrorOfNull
  | Some user =>
      Ok {| rwu_review := fst (fst item);
            rwu_user := if truthy (ru_id user) then Some user else None;
            rwu_shop := selectReviewShop (snd item) |}
  end.

(** [xs.map(f)], or a loop over [xs], with a body that can throw: the first
    exception ends it. *)
Fixpoint mapOrThrow {A B : Type} (f : A -> result B) (xs : list A) : result (list B) :=
  match xs with
  | [] => Ok []
  | x :: rest =>
      match f x with
      | Throw e => Throw e
      | Ok y =>
          match mapOrThrow f rest with
          | Throw e => Throw e
          | Ok ys => Ok (y :: ys)
          end
      end
  end.

(** [getReviewsByShopId(shopId, offset, limit)], for an offset and a limit
    that are natural numbers.  The query binds [shopId], and the method
    rejects when the database rejects it. *)
Definition getReviewsByShopId (db : DB) (shopId : string) (offset limit : nat)
  : result (list ReviewWithUser) :=
  if hasNul shopId then Throw invalidByteSequence else
  let reviewsData :=
    Sql.limitOffset limit offset
      (Sql.orderBy (fun a b => byCreatedAtDesc (fst (fst a)) (fst (fst b)))
         (filter (fun row => String.eqb (review_shopId (fst (fst row))) shopId)
                 (reviewsJoined db))) in
  mapOrThrow toReviewWithUser reviewsData.

(** [getReviewsByUserId(userId, offset, limit)]. *)
Definition getReviewsByUserId (db : DB) (userId : string) (offset limit : nat)
  : result (list ReviewWithUser) :=
  if hasNul userId then Throw invalidByteSequence else
  let reviewsData :=
    Sql.limitOffset limit offset
      (Sql.orderBy (fun a b => byCreatedAtDesc (fst (fst a)) (fst (fst b)))
         (filter (fun row => Sql.eq (review_userId (fst (fst row))) (Some userId))
                 (reviewsJoined db))) in
  mapOrThrow toReviewWithUser reviewsData.

(** The shop of an entry of the favourites list. *)
Record FavoriteShop : Type := mkFavoriteShop {
  fs_shop : Shop;
  fs_openingHours : list OpeningHours;
  fs_reviews : list ReviewWithUser;
  fs_photos : list Photo;
  fs_avgRating : Q;
  fs_reviewCount : Z;
  fs_isFavorited : bool
}.

(** [FavoriteWithShop]. *)
Record FavoriteWithShop : Type := mkFavoriteWithShop {
  fws_favorite : UserFavorite;
  fws_shop : FavoriteShop
}.

Definition byFavoriteCreatedAtDesc (a b : UserFavorite * Shop) : bool :=
  Sql.desc (fav_createdAt (fst a)) (fav_createdAt (fst b)).

(** [getUserFavorites(userId, offset, limit)], for an offset and a limit
    that are natural numbers.  The call of [getReviewsByShopId] in the loop
    can throw, and the method then rejects with what it threw, as it does
    when the database rejects [userId].  The aggregate query has no
    [GROUP BY] and so one row; its [avgRating] is a non-empty string, which
    [|| 0] lets through. *)
Definition getUserFavorites (db : DB) (userId : string) (offset limit : nat)
  : result (list FavoriteWithShop) :=
  if hasNul userId then Throw invalidByteSequence else
  let favoritesData :=
    Sql.limitOffset limit offset
      (Sql.orderBy byFavoriteCreatedAtDesc
         (filter (fun row : UserFavorite * Shop => String.eqb (fav_userId (fst row)) userId)
            (Sql.innerJoinOn (fun f s => String.eqb (fav_shopId f) (shop_id s))
               (userFavorites db) (shops db)))) in
  mapOrThrow
    (fun item : UserFavorite * Shop =>
       let id := shop_id (snd item) in
       match getReviewsByShopId db id 0 5 with
       | Throw e => Throw e
       | Ok reviewsData =>
           let ratingData_avgRating :=
             Sql.COALESCE (Sql.AVG (map review_rating (reviewsOfShop db id))) 0 in
           let ratingData_reviewCount :=
             Sql.COUNT (map (fun r => Some (review_id r)) (reviewsOfShop db id)) in
           Ok {| fws_favorite := fst item;
                 fws_shop :=
                   {| fs_shop := snd item;
                      fs_openingHours := hoursOfShop db id;
                      fs_reviews := reviewsData;
                      fs_photos := photosOfShop db id;
                      fs_avgRating := ratingData_avgRating;
                      fs_reviewCount := ratingData_reviewCount;
                      fs_isFavorited := true |} |}
       end)
    favoritesData.

(** The text parameters [getShops] binds: the city, when one is asked for
    (the ids in the queries for the shops of the page come out of the
    database). *)
Definition getShopsParameters (filters : Filters) : list string :=
  match city filters with
  | Some c => if truthy c then [c] else []
  | None => []
  end.

(** [await storage.getShops(filters)], as a caller meets it: rejected when
    the database rejects the query, resolved with [getShops] otherwise. *)
Definition awaitGetShops (db : DB) (filters : Filters) : result (list ShopWithDetails) :=
  if existsb hasNul (getShopsParameters filters) then Throw invalidByteSequence
  else Ok (getShops db filters).

(** [await storage.getShopBySlug(slug)], as a caller meets it. *)
Definition awaitGetShopBySlug (db : DB) (slug : string) : result (option ShopWithDetails) :=
  if hasNul slug then Throw invalidByteSequence else Ok (getShopBySlug db slug).

(** [await storage.deleteReview(reviewId, userId)], as a caller meets it. *)
Definition awaitDeleteReview (db : DB) (reviewId userId : string) : result unit * DB :=
  if existsb hasNul [reviewId; userId] then (Throw invalidByteSequence, db)
  else deleteReview db reviewId userId.

End Storage.

(** ** client/src/lib/utils.ts *)

Module Utils.
Import JS Schema.

(** What [isShopOpen] reads of [new Date()]: [getDay()], [getHours()] and
    [getMinutes()] in local time. *)
Record Instant : Type := mkInstant {
  getDay : Z;
  getHours : Z;
  getMinutes : Z
}.

(** [parseInt(time.replace(':', ''))]: a time string as an HHMM number. *)
Definition toHHMM (time : string) : number :=
  parseInt (removeFirst ":"%char time).

(** [isShopOpen(openingHours)], with the clock reading [now] made a
    parameter. *)
Definition isShopOpen (openingHours : list OpeningHours) (now : Instant) : bool :=
  match openingHours with
  | [] => false
  | _ =>
      let currentDay := getDay now in
      let currentTime := getHours now * 100 + getMinutes now in
      match find (fun hours => oh_weekday hours =? currentDay) openingHours with
      | None => false
      | Some todayHours =>
          if negb (truthyOpt (oh_openTime todayHours))
             || negb (truthyOpt (oh_closeTime todayHours))
          then false
          else
            match oh_openTime todayHours, oh_closeTime todayHours with
            | Some o, Some c =>
                let openTime := toHHMM o in
                let closeTime := toHHMM c in
                if isNaN openTime || isNaN closeTime then false
                else if num_lt closeTime openTime
                then num_ge (Int currentTime) openTime || num_le (Int currentTime) closeTime
                else num_ge (Int currentTime) openTime && num_le (Int currentTime) closeTime
            | _, _ => false
            end
      end
  end.

(** [toRadians(degrees)]. *)
Definition toRadians (degrees : real) : real :=
  (degrees * (Math_PI / lit 180))%js.

(** [calculateDistance] of the client: Haversine, in kilometers with two
    decimals. *)
Definition calculateDistance (lat1 lng1 lat2 lng2 : real) : real :=
  let R := lit 6371 in
  let dLat := toRadians (lat2 - lat1)%js in
  let dLng := toRadians (lng2 - lng1)%js in
  let a :=
    (Math_sin (dLat / lit 2) * Math_sin (dLat / lit 2) +
     Math_cos (toRadians lat1) * Math_cos (toRadians lat2) *
     Math_sin (dLng / lit 2) * Math_sin (dLng / lit 2))%js in
  let c := (lit 2 * Math_atan2 (Math_sqrt a) (Math_sqrt (lit 1 - a)))%js in
  let distance := (R * c)%js in
  (toReal (Math_round (distance * lit 100)) / lit 100)%js.

(** [a % b] of integers: the remainder has the sign of [a]. *)
Definition jsMod (a b : Z) : Z := Z.rem a b.

(** [`${arr[i]}`]: an index outside the array reads [undefined]. *)
Definition interpolateAt (arr : list string) (i : Z) : string :=
  if i <? 0 then "undefined" else nth (Z.to_nat i) arr "undefined".

Definition dayNames : list string :=
  ["Sonntag"; "Montag"; "Dienstag"; "Mittwoch"; "Donnerstag"; "Freitag"; "Samstag"].

(** The loop [for (let i = 0; i < 7; i++)] of [getShopStatusText] over the
    values of [i] still to come, and the [return] after it. *)
Fixpoint nextOpening (openingHours : list OpeningHours) (currentDay : Z) (todo : list Z)
  : string :=
  match todo with
  | [] => "Geschlossen"
  | i :: later =>
      let checkDay := jsMod (currentDay + i) 7 in
      let dayHours := find (fun hours => oh_weekday hours =? checkDay) openingHours in
      match dayHours with
      | Some h =>
          match oh_openTime h with
          | Some openTime =>
              if truthy openTime
              then
                if i =? 0 then "Öffnet heute um " ++ openTime
                else if i =? 1 then "Öffnet morgen um " ++ openTime
                else "Öffnet " ++ interpolateAt dayNames checkDay ++ " um " ++ openTime
              else nextOpening openingHours currentDay later
          | None => nextOpening openingHours currentDay later
          end
      | None => nextOpening openingHours currentDay later
      end
  end.

(** [getShopStatusText(openingHours)]; its own [new Date()] and the one of
    [isShopOpen] read the same instant [now]. *)
Definition getShopStatusText (openingHours : list OpeningHours) (now : Instant) : string :=
  match openingHours with
  | [] => "Öffnungszeiten unbekannt"
  | _ =>
      let currentDay := getDay now in
      let todayHours := find (fun hours => oh_weekday hours =? currentDay) openingHours in
      if isShopOpen openingHours now
      then
        match todayHours with
        | Some h =>
            match oh_closeTime h with
            | Some closeTime =>
                if truthy closeTime then "Bis " ++ closeTime ++ " geöffnet"
                else "Jetzt geöffnet"
            | None => "Jetzt geöffnet"
            end
        | None => "Jetzt geöffnet"
        end
      else nextOpening openingHours currentDay [0; 1; 2; 3; 4; 5; 6]
  end.

End Utils.

(** ** server/routes.ts *)

Module Routes.
Import JS Schema Storage.

(** What a handler sends: [res.status(status).json(body)], or an error
    object with its status. *)
Inductive Response (A : Type) : Type :=
| Json (status : Z) (body : A)
| ErrorJson (status : Z) (error : string).

Arguments Json {A} status body.
Arguments ErrorJson {A} status error.

Definition statusOf {A : Type} (r : Response A) : Z :=
  match r with Json status _ => status | ErrorJson status _ => status end.

(** [req.query] of [GET /api/shops]: each parameter the handler reads, as
    the string the URL gives it, [None] when it is not there. *)
Record ShopsQuery : Type := mkShopsQuery {
  q_city : option string;
  q_lat : option string;
  q_lng : option string;
  q_radius : option string;
  q_open_now : option string;
  q_halal : option string;
  q_veg : option string;
  q_has_offers : option string;
  q_has_delivery : option string;
  q_by : option string;
  q_limit : option string;
  q_offset : option string
}.

(** [x === 'true']. *)
Definition isTrue (x : option string) : bool :=
  match x with Some s => String.eqb s "true" | None => false end.

(** The [filters] object the handler builds.  The defaults of [limit] and
    [offset] are the numbers 50 and 0, which [parseInt] reads back from
    their decimal strings. *)
Definition shopsFilters (query : ShopsQuery) : Filters :=
  {| city := q_city query;
     lat := match q_lat query with
            | Some lat => if truthy lat then Some (parseFloat lat) else None
            | None => None
            end;
     lng := match q_lng query with
            | Some lng => if truthy lng then Some (parseFloat lng) else None
            | None => None
            end;
     radius := match q_radius query with
               | Some radius => if truthy radius then Some (parseInt radius) else None
               | None => None
               end;
     openNow := Some (isTrue (q_open_now query));
     halal := Some (isTrue (q_halal query));
     veg := Some (isTrue (q_veg query));
     hasOffers := Some (isTrue (q_has_offers query));
     hasDelivery := Some (isTrue (q_has_delivery query));
     sortBy := q_by query;
     limit := Some (parseInt (match q_limit query with Some s => s | None => "50" end));
     offset := Some (parseInt (match q_offset query with Some s => s | None => "0" end)) |}.

(** [GET /api/shops]: the list, or 500 from the [catch] when the call of
    [storage.getShops] is rejected. *)
Definition getApiShops (db : DB) (query : ShopsQuery) : Response (list ShopWithDetails) :=
  let filters := shopsFilters query in
  match awaitGetShops db filters with
  | Ok shops => Json 200 shops
  | Throw _ => ErrorJson 500 "Failed to fetch shops"
  end.

(** [GET /api/shops/:slug]. *)
Definition getApiShopBySlug (db : DB) (slug : string) : Response ShopWithDetails :=
  match awaitGetShopBySlug db slug with
  | Ok None => ErrorJson 404 "Shop not found"
  | Ok (Some shop) => Json 200 shop
  | Throw _ => ErrorJson 500 "Failed to fetch shop details"
  end.

(** [SessionUser], the user [getCurrentUser(req)] finds in the session. *)
Record SessionUser : Type := mkSessionUser {
  su_id : string;
  su_name : string
}.

(** A request to [POST /api/reviews]: the JSON body, the session's user and
    the value [createUserHash(req)] has for it (the SHA-256 of IP address
    and user agent, in hex). *)
Record ReviewRequest : Type := mkReviewRequest {
  req_body : ReviewBody;
  req_currentUser : option SessionUser;
  req_userHash : string
}.

(** [POST /api/reviews], after the rate limiter let the request pass. *)
Definition postApiReviews (db : DB) (req : ReviewRequest) (uuid : string) (now : timestamp)
  : Response Review * DB :=
  match insertReviewSchema_safeParse (req_body req) with
  | None => (ErrorJson 400 "Ungültige Bewertungsdaten", db)
  | Some data =>
      let currentUser := req_currentUser req in
      let existingReview :=
        match currentUser with
        | Some u => getUserReviewForShop db (su_id u) (ir_shopId data)
        | None => None
        end in
      match existingReview with
      | Some _ =>
          (ErrorJson 409
             "Du hast diesen Laden bereits bewertet. Du kannst deine Bewertung bearbeiten.",
           db)
      | None =>
          let reviewData :=
            {| cr_data := data;
               cr_userId := option_map su_id currentUser;
               cr_userHash := match currentUser with
                              | Some _ => None
                              | None => Some (req_userHash req)
                              end;
               cr_isAnonymous := Some (match currentUser with Some _ => false | None => true end);
               cr_authorName := option_map su_name currentUser |} in
          match createReview db reviewData uuid now with
          | (Ok review, db') => (Json 201 review, db')
          | (Throw _, db') => (ErrorJson 500 "Bewertung konnte nicht erstellt werden", db')
          end
      end
  end.

(** A string as [generateSlug] sees it: its UTF-16 code units, which are
    what the regular expressions (without the [u] flag) match. *)
Definition CodeUnits : Type := list Z.

(** [[a-z0-9]]. *)
Definition isSlugChar (c : Z) : bool :=
  ((97 <=? c) && (c <=? 122)) || ((48 <=? c) && (c <=? 57)).

Definition dash : Z := 45.

(** The callback of [replace(/[äöüß]/g, ...)] on one code unit: ae, oe, ue,
    ss for the four letters, the unit itself otherwise. *)
Definition replaceUmlaut (c : Z) : CodeUnits :=
  if c =? 228 then [97; 101]
  else if c =? 246 then [111; 101]
  else if c =? 252 then [117; 101]
  else if c =? 223 then [115; 115]
  else [c].

(** [replace(/[^a-z0-9]+/g, '-')]: each maximal run of other code units
    becomes one dash, written where the run ends. *)
Fixpoint replaceRuns (s : CodeUnits) : CodeUnits :=
  match s with
  | [] => []
  | c :: rest =>
      if isSlugChar c then c :: replaceRuns rest
      else
        match rest with
        | [] => [dash]
        | c' :: _ => if isSlugChar c' then dash :: replaceRuns rest else replaceRuns rest
        end
  end.

Fixpoint dropDashes (s : CodeUnits) : CodeUnits :=
  match s with
  | [] => []
  | c :: rest => if c =? dash then dropDashes rest else s
  end.

(** [replace(/^-+|-+$/g, '')]: the dashes at the start and those at the end
    go. *)
Definition trimDashes (s : CodeUnits) : CodeUnits :=
  rev (dropDashes (rev (dropDashes s))).

(** [generateSlug(name)].  [toLowerCase] is [String.prototype.toLowerCase]
    on code units, with its Unicode tables; it is an argument here. *)
Definition generateSlug (toLowerCase : CodeUnits -> CodeUnits) (name : CodeUnits)
  : CodeUnits :=
  trimDashes (replaceRuns (flat_map replaceUmlaut (toLowerCase name))).

(** [req.query] of [GET /api/top]. *)
Record TopQuery : Type := mkTopQuery {
  t_city : option string;
  t_limit : option string
}.

(** [GET /api/top]; the default [limit = 3] is a number, which [parseInt]
    reads back from its decimal string.  The [catch] answers 500 when the
    call of [storage.getShops] is rejected. *)
Definition getApiTop (db : DB) (query : TopQuery) : Response (list ShopWithDetails) :=
  match awaitGetShops db
          {| city := t_city query;
             lat := None; lng := None; radius := None; openNow := None; halal := None;
             veg := None; hasOffers := None; hasDelivery := None;
             sortBy := Some "rating";
             limit := Some (parseInt (match t_limit query with Some s => s | None => "3" end));
             offset := None |} with
  | Ok shops => Json 200 shops
  | Throw _ => ErrorJson 500 "Failed to fetch top shops"
  end.

(** [error.message === 'Review not found or unauthorized']: true of the
    error the storage method throws itself, false of an error of the
    database, whose messages are PostgreSQL's. *)
Definition isNotFoundOrUnauthorized (e : Error) : bool :=
  match e with
  | JsError message => String.eqb message "Review not found or unauthorized"
  | DbError _ => false
  end.

(** [DELETE /api/reviews/:reviewId], with its [requireAuth], which answers
    401 to a request without a session user. *)
Definition deleteApiReview (db : DB) (session : option SessionUser) (reviewId : string)
  : Response string * DB :=
  match session with
  | None => (ErrorJson 401 "Authentifizierung erforderlich", db)
  | Some currentUser =>
      match awaitDeleteReview db reviewId (su_id currentUser) with
      | (Ok _, db') => (Json 200 "Bewertung erfolgreich gelöscht", db')
      | (Throw error, db') =>
          if isNotFoundOrUnauthorized error
          then (ErrorJson 404 "Bewertung nicht gefunden oder nicht berechtigt", db')
          else (ErrorJson 500 "Bewertung konnte nicht gelöscht werden", db')
      end
  end.

(** [new Date(createdAt).getTime()]: the time itself, 0 for [null], and
    [NaN] for a time no [Date] holds (more than 8.64e15 ms from the
    epoch). *)
Definition getTime (createdAt : option timestamp) : number :=
  match createdAt with
  | Some t => if Z.abs t <=? 8640000000000000 then Int t else NaN
  | None => Int 0
  end.

(** [getShops({})]. *)
Definition noFilter : Filters :=
  {| city := None; lat := None; lng := None; radius := None; openNow := None;
     halal := None; veg := None; hasOffers := None; hasDelivery := None;
     sortBy := None; limit := None; offset := None |}.

(** [GET /api/admin/reviews], after [requireAdmin] let the request pass:
    the reviews of the listed shops, newest first, or 500 from the [catch]
    when a call of [getReviewsByShopId] throws. *)
Definition getApiAdminReviews (db : DB) : Response (list ReviewWithUser) :=
  let allShops := getShops db noFilter in
  match mapOrThrow (fun shop => getReviewsByShopId db (shop_id (swd_shop shop)) 0 1000)
          allShops with
  | Throw _ => ErrorJson 500 "Failed to fetch reviews"
  | Ok shopReviews =>
      let allReviews := List.concat shopReviews in
      let sorted :=
        Array_sort (fun a b => num_sub (getTime (review_createdAt (rwu_review b)))
                                       (getTime (review_createdAt (rwu_review a))))
          allReviews in
      Json 200 sorted
  end.

End Routes.

(** ** server/googlePlaces.ts *)

Module GooglePlaces.
Import JS Schema.

(** [{ day, time }] of a period. *)
Record DayTime : Type := mkDayTime {
  day : Z;
  time : string
}.

(** An entry of [opening_hours.periods]. *)
Record Period : Type := mkPeriod {
  open : DayTime;
  close : option DayTime
}.

(** [GooglePlace['opening_hours']], as far as the conversion reads it. *)
Record GoogleHours : Type := mkGoogleHours {
  periods : option (list Period)
}.

(** An entry of the converted list. *)
Record Hours : Type := mkHours {
  weekday : Z;
  openTime : option string;
  closeTime : option string;
  note : option string
}.

(** [formatTime(time)]: HHMM to HH:MM; [length] and [substring] count
    characters, which for the ASCII strings of the API are bytes. *)
Definition formatTime (time : string) : string :=
  if Nat.eqb (String.length time) 4
  then String.substring 0 2 time ++ ":" ++ String.substring 2 2 time
  else time.

(** [convertOpeningHours(googleHours)]. *)
Definition convertOpeningHours (googleHours : option GoogleHours) : list Hours :=
  match googleHours with
  | None => []
  | Some g =>
      match periods g with
      | None => []
      | Some ps =>
          map (fun period =>
                 {| weekday := day (open period);
                    openTime := Some (formatTime (time (open period)));
                    closeTime := match close period with
                                 | Some c => Some (formatTime (time c))
                                 | None => None
                                 end;
                    note := None |})
              ps
      end
  end.

(** [openingHours.map(hours => ({ ...hours, shopId }))] of the import
    route. *)
Definition withShopId (shopId : string) (hours : list Hours)
  : list Storage.InsertOpeningHours :=
  map (fun h =>
         {| Storage.ioh_shopId := shopId;
            Storage.ioh_weekday := weekday h;
            Storage.ioh_openTime := openTime h;
            Storage.ioh_closeTime := closeTime h;
            Storage.ioh_note := note h |})
      hours.

End GooglePlaces.

(** ** server/pushService.ts *)

Module PushService.
Import JS Schema Storage.

(** [settings.quietHours]: [start] and [end] as integers, [None] when the
    property is missing or [null]. *)
Record QuietHours : Type := mkQuietHours {
  qh_start : option Z;
  qh_end : option Z
}.

(** [x || d] for a number. *)
Definition orDefault (x : option Z) (d : Z) : Z :=
  match x with
  | Some v => if v =? 0 then d else v
  | None => d
  end.

(** [isQuietHours(settings)], with [now.getHours()] made a parameter. *)
Definition isQuietHours (quietHours : option QuietHours) (currentHour : Z) : bool :=
  match quietHours with
  | None => false
  | Some q =>
      let startHour := orDefault (qh_start q) 22 in
      let endHour := orDefault (qh_end q) 8 in
      if startHour <? endHour
      then (currentHour >=? startHour) && (currentHour <? endHour)
      else (currentHour >=? startHour) || (currentHour <? endHour)
  end.

(** [[...new Set(xs)]]: the first occurrence of each value, in order. *)
Fixpoint newSet (xs : list string) : list string :=
  match xs with
  | [] => []
  | x :: rest => x :: filter (fun y => negb (String.eqb x y)) (newSet rest)
  end.

(** [getUsersWithShopFavorited(shopId)]; its [catch] returns no user. *)
Definition getUsersWithShopFavorited (db : DB) (shopId : string) : list string :=
  match getUserFavorites db "" 0 1000 with
  | Ok favorites =>
      let userIds :=
        map (fun fav => fav_userId (fws_favorite fav))
            (filter (fun fav => String.eqb (shop_id (fs_shop (fws_shop fav))) shopId)
                    favorites) in
      newSet userIds
  | Throw _ => []
  end.

End PushService.

Import JS Schema.

(** ** The vocabulary of the statements *)

Module Spec.
Import Utils.

(** The entry [isShopOpen] looks at: the first one for the weekday. *)
Definition todayHours (hours : list OpeningHours) (now : Instant) : option OpeningHours :=
  find (fun h => oh_weekday h =? getDay now) hours.

(** The instant as the HHMM number the code compares. *)
Definition currentTime (now : Instant) : Z :=
  getHours now * 100 + getMinutes now.

(** The window the code tests, closing minute included. *)
Definition withinHours (a b t : Z) : Prop :=
  if b <? a then a <= t \/ t <= b else a <= t <= b.

(** The haversine of an angle, [sin^2 (x / 2)]. *)
Definition hav (x : real) : real :=
  (Math_sin (x / lit 2) * Math_sin (x / lit 2))%js.

(** The Haversine great-circle distance in kilometers, Earth radius
    6371 km, of two points given in degrees: the value both distance
    functions are said to round. *)
Definition haversineKm (lat1 lng1 lat2 lng2 : real) : real :=
  let rad x := (x * (Math_PI / lit 180))%js in
  let a :=
    (hav (rad (lat2 - lat1)) +
     Math_cos (rad lat1) * Math_cos (rad lat2) * hav (rad (lng2 - lng1)))%js in
  (lit 6371 * (lit 2 * Math_atan2 (Math_sqrt a) (Math_sqrt (lit 1 - a))))%js.

(** The [offset] and [limit] a call of [getShops] works with: the
    property, or its default. *)
Definition offsetOf (filters : Storage.Filters) : number :=
  match Storage.offset filters with Some n => n | None => Int 0 end.

Definition limitOf (filters : Storage.Filters) : number :=
  match Storage.limit filters with Some n => n | None => Int 50 end.

(** The same filter with another page. *)
Definition withPage (filters : Storage.Filters) (offset limit : number) : Storage.Filters :=
  {| Storage.city := Storage.city filters;
     Storage.lat := Storage.lat filters;
     Storage.lng := Storage.lng filters;
     Storage.radius := Storage.radius filters;
     Storage.openNow := Storage.openNow filters;
     Storage.halal := Storage.halal filters;
     Storage.veg := Storage.veg filters;
     Storage.hasOffers := Storage.hasOffers filters;
     Storage.hasDelivery := Storage.hasDelivery filters;
     Storage.sortBy := Storage.sortBy filters;
     Storage.limit := Some limit;
     Storage.offset := Some offset |}.

(** The list [getShops] has in [result] when it cuts the page, each row
    with the details the loop over the page would add to it.  (What this
    list holds is stated by [isCollection] below.) *)
Definition fullResult (db : DB) (filters : Storage.Filters) : list ShopWithDetails :=
  map (Storage.withDetails db) (Storage.queryResult db filters).

(** Page number [k] of size [limit]. *)
Definition page (db : DB) (filters : Storage.Filters) (limit k : nat) : list ShopWithDetails :=
  Storage.getShops db
    (withPage filters (Int (Z.of_nat (k * limit))) (Int (Z.of_nat limit))).

(** The request without its [radius] parameter. *)
Definition withoutRadius (query : Routes.ShopsQuery) : Routes.ShopsQuery :=
  {| Routes.q_city := Routes.q_city query;
     Routes.q_lat := Routes.q_lat query;
     Routes.q_lng := Routes.q_lng query;
     Routes.q_radius := None;
     Routes.q_open_now := Routes.q_open_now query;
     Routes.q_halal := Routes.q_halal query;
     Routes.q_veg := Routes.q_veg query;
     Routes.q_has_offers := Routes.q_has_offers query;
     Routes.q_has_delivery := Routes.q_has_delivery query;
     Routes.q_by := Routes.q_by query;
     Routes.q_limit := Routes.q_limit query;
     Routes.q_offset := Routes.q_offset query |}.

(** The strings [limit] and [offset] are parsed from. *)
Definition limitString (query : Routes.ShopsQuery) : string :=
  match Routes.q_limit query with Some s => s | None => "50" end.

Definition offsetString (query : Routes.ShopsQuery) : string :=
  match Routes.q_offset query with Some s => s | None => "0" end.

(** The ids of the shops a list response carries. *)
Definition shopIds (r : Routes.Response (list ShopWithDetails)) : list string :=
  match r with
  | Routes.Json _ body => map (fun d => shop_id (swd_shop d)) body
  | Routes.ErrorJson _ _ => []
  end.

(** The review columns a shop is joined with: its reviews, or one [NULL]
    row when it has none. *)
Definition joinedReviews (rs : list Review) (s : Shop) : list (option Review) :=
  match filter (fun r => String.eqb (shop_id s) (review_shopId r)) rs with
  | [] => [None]
  | matches => map Some matches
  end.

(** [ownerId] authored the review [reviewId]. *)
Definition ownsReview (db : DB) (reviewId ownerId : string) : Prop :=
  exists r, In r (reviews db) /\ review_id r = reviewId /\ review_userId r = Some ownerId.

(** The user has a review for the shop. *)
Definition hasReviewed (db : DB) (userId shopId : string) : Prop :=
  exists r, In r (reviews db) /\ review_userId r = Some userId /\ review_shopId r = shopId.

(** The favourites of a pair. *)
Definition favoritesOf (db : DB) (userId shopId : string) : list UserFavorite :=
  filter (Storage.isFavorite userId shopId) (userFavorites db).

(** The same [createReview] argument with another [authorName]. *)
Definition withAuthorName (review : Storage.CreateReview) (name : option string)
  : Storage.CreateReview :=
  {| Storage.cr_data := Storage.cr_data review;
     Storage.cr_authorName := name;
     Storage.cr_userId := Storage.cr_userId review;
     Storage.cr_userHash := Storage.cr_userHash review;
     Storage.cr_isAnonymous := Storage.cr_isAnonymous review |}.

(** The quantity [a] of the distance formula, on finite inputs. *)
Definition havA (lat1 lng1 lat2 lng2 : R) : R :=
  (sin ((lat2 - lat1) * (PI / 180) / 2) * sin ((lat2 - lat1) * (PI / 180) / 2) +
   cos (lat1 * (PI / 180)) * cos (lat2 * (PI / 180)) *
   sin ((lng2 - lng1) * (PI / 180) / 2) * sin ((lng2 - lng1) * (PI / 180) / 2))%R.

(** The server's meters, as a function of [a]. *)
Definition metersOfA (a : real) : number :=
  Math_round
    (lit 6371 * (lit 2 * Math_atan2 (Math_sqrt a) (Math_sqrt (lit 1 - a))) * lit 1000)%js.

(** The same filter with another [radius]. *)
Definition withRadius (filters : Storage.Filters) (radius : option number) : Storage.Filters :=
  {| Storage.city := Storage.city filters;
     Storage.lat := Storage.lat filters;
     Storage.lng := Storage.lng filters;
     Storage.radius := radius;
     Storage.openNow := Storage.openNow filters;
     Storage.halal := Storage.halal filters;
     Storage.veg := Storage.veg filters;
     Storage.hasOffers := Storage.hasOffers filters;
     Storage.hasDelivery := Storage.hasDelivery filters;
     Storage.sortBy := Storage.sortBy filters;
     Storage.limit := Storage.limit filters;
     Storage.offset := Storage.offset filters |}.

(** [xs] holds no [NaN] and is in non-decreasing order. *)
Fixpoint nonDecreasing (xs : list number) : Prop :=
  match xs with
  | [] => True
  | x :: rest =>
      isNaN x = false
      /\ match rest with [] => True | y :: _ => num_le x y = true end
      /\ nonDecreasing rest
  end.

(** The [distance] properties of a result, [NaN] where there is none. *)
Definition distancesOf (items : list Storage.Item) : list number :=
  map (fun item => match Storage.item_distance item with Some d => d | None => NaN end) items.

(** The distance [getShops] computes for a shop, seen from a point. *)
Definition distanceFrom (lat0 lng0 : real) (s : Shop) : number :=
  Storage.calculateDistance lat0 lng0 (parseFloat (shop_lat s)) (parseFloat (shop_lng s)).

(** The reviews a user has written for a shop. *)
Definition reviewsBy (db : DB) (userId shopId : string) : list Review :=
  filter (fun r => Sql.eq (review_userId r) (Some userId)
                   && String.eqb (review_shopId r) shopId)
         (reviews db).

(** The invariant of the review table: no user has two reviews for one
    shop. *)
Definition oneReviewPerUserAndShop (db : DB) : Prop :=
  forall userId shopId, (List.length (reviewsBy db userId shopId) <= 1)%nat.

(** Every foreign key of the store names a row: the shop of opening hours,
    reviews, photos and favourites, the user of favourites and of reviews
    that have one. *)
Definition foreignKeysHold (db : DB) : bool :=
  forallb (fun h => Storage.shopExists db (oh_shopId h)) (openingHours db)
  && forallb (fun r => Storage.shopExists db (review_shopId r)
                       && match review_userId r with
                          | Some u => Storage.userExists db u
                          | None => true
                          end)
             (reviews db)
  && forallb (fun p => Storage.shopExists db (photo_shopId p)) (photos db)
  && forallb (fun f => Storage.userExists db (fav_userId f)
                       && Storage.shopExists db (fav_shopId f))
             (userFavorites db).

(** The shop ids of the entries of a favourites list. *)
Definition favoriteShopIds (favorites : list Storage.FavoriteWithShop) : list string :=
  map (fun fav => shop_id (Storage.fs_shop (Storage.fws_shop fav))) favorites.

(** The user and the shop a review names, looked up by id, and the review
    with the two attached as the review lists attach them. *)
Definition userOfReview (db : DB) (r : Review) : option User :=
  find (fun u => Sql.eq (review_userId r) (Some (user_id u))) (users db).

Definition shopOfReview (db : DB) (r : Review) : option Shop :=
  find (fun s => String.eqb (review_shopId r) (shop_id s)) (shops db).

Definition reviewWithUser (db : DB) (r : Review) : Storage.ReviewWithUser :=
  {| Storage.rwu_review := r;
     Storage.rwu_user :=
       match userOfReview db r with
       | Some u =>
           if truthy (user_id u)
           then Some (Storage.mkReviewUser (user_id u) (user_name u))
           else None
       | None => None
       end;
     Storage.rwu_shop :=
       match shopOfReview db r with
       | Some s => Some (Storage.mkReviewShop (shop_id s) (shop_name s) (shop_slug s))
       | None => None
       end |}.

(** The review has an author among the stored users; an anonymous review
    has none. *)
Definition hasAuthor (db : DB) (r : Review) : bool :=
  match review_userId r with
  | Some userId => Storage.userExists db userId
  | None => false
  end.

(** What a review list answers for the reviews [page] found under the id
    [key]: the reviews with user and shop attached when each has an author,
    the [TypeError] when one has none, and the database's error for an id
    it does not take. *)
Definition reviewPage (db : DB) (key : string) (page : list Review)
  : Storage.result (list Storage.ReviewWithUser) :=
  if Storage.hasNul key then Storage.Throw Storage.invalidByteSequence
  else if forallb (hasAuthor db) page then Storage.Ok (map (reviewWithUser db) page)
  else Storage.Throw Storage.typeErrorOfNull.

(** The reviews of a shop and those of a user, newest first. *)
Definition newestFirst (rs : list Review) : list Review :=
  Sql.orderBy Storage.byCreatedAtDesc rs.

Definition reviewsOfUser (db : DB) (userId : string) : list Review :=
  filter (fun r => Sql.eq (review_userId r) (Some userId)) (reviews db).

(** Every element stands in [R] to every later one. *)
Fixpoint ordered {A : Type} (R : A -> A -> Prop) (l : list A) : Prop :=
  match l with
  | [] => True
  | x :: rest => Forall (R x) rest /\ ordered R rest
  end.

(** The order of [sortBy = rating] on what the list shows: a shop without
    reviews may stand before any shop, a reviewed shop only before reviewed
    shops of the same or a lower average. *)
Definition ratingBefore (d1 d2 : ShopWithDetails) : Prop :=
  swd_reviewCount d1 = 0
  \/ (swd_reviewCount d2 <> 0 /\ (swd_avgRating d2 <= swd_avgRating d1)%Q).

(** The order of [sortBy = price]: ascending, shops without a price level
    last. *)
Definition priceBefore (d1 d2 : ShopWithDetails) : Prop :=
  Sql.asc (shop_priceLevel (swd_shop d1)) (shop_priceLevel (swd_shop d2)) = true.

(** The default order: by price, and by rating among shops of the same
    price level. *)
Definition priceThenRatingBefore (d1 d2 : ShopWithDetails) : Prop :=
  priceBefore d1 d2 /\ (priceBefore d2 d1 -> ratingBefore d1 d2).

Definition bodyOf {A : Type} (r : Routes.Response (list A)) : list A :=
  match r with Routes.Json _ body => body | Routes.ErrorJson _ _ => [] end.

(** No two dashes side by side. *)
Fixpoint noDoubleDash (s : Routes.CodeUnits) : Prop :=
  match s with
  | [] => True
  | c :: rest =>
      match rest with
      | [] => True
      | c' :: _ => ~ (c = Routes.dash /\ c' = Routes.dash)
      end
      /\ noDoubleDash rest
  end.

(** The shape of a slug: letters a-z, digits and dashes only, no dash at
    either end, no two dashes in a row. *)
Definition isSlug (s : Routes.CodeUnits) : Prop :=
  Forall (fun c => Routes.isSlugChar c = true \/ c = Routes.dash) s
  /\ hd_error s <> Some Routes.dash
  /\ hd_error (rev s) <> Some Routes.dash
  /\ noDoubleDash s.

(** Every code unit is a letter a-z or a digit, or a dash that the end or
    a letter or digit follows. *)
Fixpoint dashesSeparate (s : Routes.CodeUnits) : Prop :=
  match s with
  | [] => True
  | c :: rest =>
      (Routes.isSlugChar c = true
       \/ (c = Routes.dash
           /\ match rest with
              | [] => True
              | c' :: _ => Routes.isSlugChar c' = true
              end))
      /\ dashesSeparate rest
  end.

(** A code unit the slug keeps something of: a letter a-z, a digit, or one
    of the four letters that are spelled out. *)
Definition survives (c : Z) : bool :=
  Routes.isSlugChar c || (c =? 228) || (c =? 246) || (c =? 252) || (c =? 223).

(** The rows the import stores for a shop from the periods Google gives. *)
Definition importedHours (shopId : string) (uuids : nat -> string)
  (ps : list GooglePlaces.Period) : list OpeningHours :=
  Storage.newOpeningHours uuids 0
    (GooglePlaces.withShopId shopId
       (GooglePlaces.convertOpeningHours
          (Some (GooglePlaces.mkGoogleHours (Some ps))))).

(** A number that is a double and no [NaN]. *)
Definition isDouble (n : number) : Prop :=
  match n with
  | NaN => False
  | Int z => Z.abs z <= infinity
  end.

(** The city of the request holds a NUL character, which the database
    does not take. *)
Definition cityHasNul (query : Routes.ShopsQuery) : bool :=
  match Routes.q_city query with
  | Some c => Storage.hasNul c
  | None => false
  end.

(** The review list of the shop can be made, [n] reviews long: the
    database takes the id, and the newest [n] reviews of the shop all have
    an author. *)
Definition listable (db : DB) (n : nat) (shopId : string) : bool :=
  negb (Storage.hasNul shopId)
  && forallb (hasAuthor db) (firstn n (newestFirst (Storage.reviewsOfShop db shopId))).

(** A result that is a value, and one that is an exception. *)
Definition returns {A : Type} (r : Storage.result A) : Prop :=
  exists a, r = Storage.Ok a.

Definition throws {A : Type} (r : Storage.result A) : Prop :=
  exists e, r = Storage.Throw e.

(** *** The collection a list request is about

    The fully filtered and sorted collection of the specification, in its
    words: the published shops that match the filters, within the radius
    when a reference point and a radius are given, each with its aggregate
    rating, review count and distance, in the order asked for. *)

Definition isTrue (flag : option bool) : bool :=
  match flag with Some true => true | _ => false end.










End Spec.

(** ** Sample data *)

Module Sample.

Definition mondayHours : list OpeningHours :=
  [ mkOpeningHours "h0" "s1" 0 (Some "12:00") (Some "22:00") None;
    mkOpeningHours "h1" "s1" 1 (Some "11:00") (Some "22:00") None;
    mkOpeningHours "h2" "s1" 2 None None None ].

Definition freiberg : DB :=
  {| users := [ mkUser "u1" "Ayla"; mkUser "u2" "Ben" ];
     shops :=
       [ mkShop "s1" "Doener Palast" "doener-palast" "50.9167000" "13.3417000"
           "Freiberg" (Some 1) (Some true) (Some false) (Some true) (Some false) (Some false);
         mkShop "s2" "Anatolia Grill" "anatolia-grill" "50.9200000" "13.3500000"
           "Freiberg" (Some 3) (Some false) (Some true) (Some true) (Some true) (Some true);
         mkShop "s3" "Geheimer Grill" "geheimer-grill" "50.9100000" "13.3300000"
           "Freiberg" (Some 2) (Some false) (Some false) (Some false) (Some false) (Some false) ];
     openingHours := mondayHours;
     reviews :=
       [ mkReview "r1" "s1" (Some "u1") 5 "Sehr gut" None None (Some false) (Some false)
           None (Some 1000) (Some 1000);
         mkReview "r2" "s1" None 5 "Top" (Some "c0ffee") (Some "Anonymer Nutzer") (Some true)
           (Some false) None (Some 2000) (Some 2000);
         mkReview "r3" "s2" (Some "u2") 4 "Gut" None None (Some false) (Some false)
           None (Some 3000) (Some 3000) ];
     photos := [ mkPhoto "p1" "s1" "/uploads/p1.jpg" ];
     userFavorites := [ mkUserFavorite "f1" "u1" "s1" (Some 1500) ] |}.

(** No filter at all: [getShops()]. *)
Definition noFilters : Storage.Filters :=
  {| Storage.city := None; Storage.lat := None; Storage.lng := None;
     Storage.radius := None; Storage.openNow := None; Storage.halal := None;
     Storage.veg := None; Storage.hasOffers := None; Storage.hasDelivery := None;
     Storage.sortBy := None; Storage.limit := None; Storage.offset := None |}.

(** [GET /api/shops] with no parameter, with [limit=abc], and around
    Freiberg with a radius, once with a proper and once with a garbled
    latitude. *)
Definition plainQuery : Routes.ShopsQuery :=
  Routes.mkShopsQuery None None None None None None None None None None None None.

Definition limitAbcQuery : Routes.ShopsQuery :=
  Routes.mkShopsQuery None None None None None None None None None None (Some "abc") None.

Definition radiusOnlyQuery : Routes.ShopsQuery :=
  Routes.mkShopsQuery None None None (Some "1000") None None None None None None None None.

Definition latAbcQuery : Routes.ShopsQuery :=
  Routes.mkShopsQuery None (Some "abc") (Some "13.3417") (Some "1000")
    None None None None None None None None.

Definition lngRadiusQuery : Routes.ShopsQuery :=
  Routes.mkShopsQuery None None (Some "13.3417") (Some "1000")
    None None None None None None None None.

(** Reviews of the first shop: by Ayla, who has reviewed it, and by a
    visitor without a session. *)
Definition palastBody : ReviewBody :=
  mkReviewBody (Some "s1") (Some 4) (Some "Wieder lecker").

Definition aylaRequest : Routes.ReviewRequest :=
  Routes.mkReviewRequest palastBody (Some (Routes.mkSessionUser "u1" "Ayla")) "c0ffee".

Definition anonymousRequest : Routes.ReviewRequest :=
  Routes.mkReviewRequest palastBody None "c0ffee".

(** Sorting by distance from the very spot of the second shop, among the
    shops that deliver: the second shop alone, 0 m away. *)
Definition atAnatolia : Storage.Filters :=
  {| Storage.city := None;
     Storage.lat := Some (parseFloat "50.9200000");
     Storage.lng := Some (parseFloat "13.3500000");
     Storage.radius := None; Storage.openNow := None; Storage.halal := None;
     Storage.veg := None; Storage.hasOffers := None; Storage.hasDelivery := Some true;
     Storage.sortBy := Some "distance"; Storage.limit := None; Storage.offset := None |}.

(** New opening hours for the first shop, ids for the rows they make, and
    hours that name a shop the store does not have. *)
Definition weekendHours : list Storage.InsertOpeningHours :=
  [ Storage.mkInsertOpeningHours "s1" 6 (Some "12:00") (Some "23:00") None;
    Storage.mkInsertOpeningHours "s1" 0 (Some "12:00") (Some "20:00") None ].

Definition hourIds (k : nat) : string :=
  match k with
  | O => "h10"
  | S O => "h11"
  | _ => "h12"
  end.

Definition strayHours : list Storage.InsertOpeningHours :=
  [ Storage.mkInsertOpeningHours "s9" 1 (Some "10:00") (Some "18:00") None ].

Definition byRatingFilters : Storage.Filters :=
  {| Storage.city := None; Storage.lat := None; Storage.lng := None;
     Storage.radius := None; Storage.openNow := None; Storage.halal := None;
     Storage.veg := None; Storage.hasOffers := None; Storage.hasDelivery := None;
     Storage.sortBy := Some "rating"; Storage.limit := None; Storage.offset := None |}.

(** [toLowerCase] on code units below 256 (Latin-1), where it adds 32 to
    A-Z and to the capital letters from 192 to 222, the multiplication sign
    215 apart; other code units are left as they are. *)
Definition lowerLatin1 (s : Routes.CodeUnits) : Routes.CodeUnits :=
  map (fun c =>
         if ((65 <=? c) && (c <=? 90)) || ((192 <=? c) && (c <=? 222) && negb (c =? 215))
         then c + 32 else c)
      s.

(** The code units of "Döner König!" and of "doener-koenig". *)
Definition doenerKoenig : Routes.CodeUnits :=
  [68; 246; 110; 101; 114; 32; 75; 246; 110; 105; 103; 33].

Definition doenerKoenigSlug : Routes.CodeUnits :=
  [100; 111; 101; 110; 101; 114; 45; 107; 111; 101; 110; 105; 103].

(** The single period by which Google reports a place that never closes,
    and quiet hours meant to end at midnight. *)
Definition alwaysOpen : list GooglePlaces.Period :=
  [ GooglePlaces.mkPeriod (GooglePlaces.mkDayTime 0 "0000") None ].

Definition untilMidnight : PushService.QuietHours :=
  PushService.mkQuietHours (Some 22) (Some 0).

(** Two shops on the equator, the far one stored first: half way round the
    globe at longitude 180, and at longitude 0; and the list by distance
    from the spot of the second. *)
Definition equator : DB :=
  {| users := [];
     shops :=
       [ mkShop "far" "Fern" "fern" "0" "180" "Quito" (Some 2) (Some false) (Some false)
           (Some true) (Some false) (Some false);
         mkShop "near" "Nah" "nah" "0" "0" "Quito" (Some 1) (Some false) (Some false)
           (Some true) (Some false) (Some false) ];
     openingHours := [];
     reviews := [];
     photos := [];
     userFavorites := [] |}.

Definition fromNear : Storage.Filters :=
  {| Storage.city := None;
     Storage.lat := Some (parseFloat "0");
     Storage.lng := Some (parseFloat "0");
     Storage.radius := None; Storage.openNow := None; Storage.halal := None;
     Storage.veg := None; Storage.hasOffers := None; Storage.hasDelivery := None;
     Storage.sortBy := Some "distance"; Storage.limit := None; Storage.offset := None |}.

(** The store without its anonymous review. *)
Definition signedFreiberg : DB :=
  Storage.withReviews freiberg
    [ mkReview "r1" "s1" (Some "u1") 5 "Sehr gut" None None (Some false) (Some false)
        None (Some 1000) (Some 1000);
      mkReview "r3" "s2" (Some "u2") 4 "Gut" None None (Some false) (Some false)
        None (Some 3000) (Some 3000) ].

(** [GET /api/shops?city=%00&limit=abc]: a city that is one NUL
    character. *)
Definition nulCityQuery : Routes.ShopsQuery :=
  Routes.mkShopsQuery (Some (String "000"%char EmptyString)) None None None None None None
    None None None (Some "abc") None.

End Sample.

Import Spec Sample.

(** * Properties *)

(** ** Opening hours *)

Section OpeningHoursFacts.
Import Utils.

Example toHHMM_plain : toHHMM "11:00" = Int 1100.
Proof. reflexivity. Qed.

Example toHHMM_seconds : toHHMM "09:30:00" = Int 930.
Proof. reflexivity. Qed.

Example toHHMM_garbage : toHHMM "geschlossen" = NaN.
Proof. reflexivity. Qed.

Lemma toHHMM_empty : toHHMM "" = NaN.
Proof. reflexivity. Qed.

Lemma withinHours_bool (a b t : Z) :
  (if num_lt (Int b) (Int a)
   then num_ge (Int t) (Int a) || num_le (Int t) (Int b)
   else num_ge (Int t) (Int a) && num_le (Int t) (Int b)) = true
  <-> withinHours a b t.
Proof.
  unfold withinHours, num_ge, num_le, num_lt.
  destruct (b <? a).
  - rewrite orb_true_iff, !Z.leb_le. tauto.
  - rewrite andb_true_iff, !Z.leb_le. tauto.
Qed.

Lemma isShopOpen_unfold (hours : list OpeningHours) (now : Instant) :
  isShopOpen hours now =
  match todayHours hours now with
  | Some today =>
      match oh_openTime today, oh_closeTime today with
      | Some o, Some c =>
          match toHHMM o, toHHMM c with
          | Int a, Int b =>
              if b <? a
              then (a <=? currentTime now) || (currentTime now <=? b)
              else (a <=? currentTime now) && (currentTime now <=? b)
          | _, _ => false
          end
      | _, _ => false
      end
  | None => false
  end.
Proof.
  unfold isShopOpen, todayHours, currentTime.
  destruct hours as [|h hs]; [reflexivity|].
  destruct (find _ (h :: hs)) as [today|]; [|reflexivity].
  destruct (oh_openTime today) as [o|]; simpl; [|reflexivity].
  destruct (oh_closeTime today) as [c|]; simpl; [|rewrite orb_true_r; reflexivity].
  destruct o as [|o1 o']; [reflexivity|].
  destruct c as [|c1 c']; simpl negb; simpl orb.
  - rewrite toHHMM_empty. destruct (toHHMM (String o1 o')); reflexivity.
  - destruct (toHHMM (String o1 o')) as [|a]; [reflexivity|].
    destruct (toHHMM (String c1 c')) as [|b]; reflexivity.
Qed.

(** C9, as the code has it: the shop is open exactly when the first entry
    for the instant's weekday has both times set and parsable and the
    instant's HHMM value lies between them, the closing minute included
    (after opening or up to closing, for an overnight range); it is closed
    when that entry is missing or has a null time. *)
Theorem isShopOpen_closed_interval (hours : list OpeningHours) (now : Instant) :
  (isShopOpen hours now = true <->
   exists today o c a b,
     todayHours hours now = Some today /\
     oh_openTime today = Some o /\ oh_closeTime today = Some c /\
     toHHMM o = Int a /\ toHHMM c = Int b /\
     withinHours a b (currentTime now))
  /\ (todayHours hours now = None -> isShopOpen hours now = false)
  /\ (forall today,
        todayHours hours now = Some today ->
        oh_openTime today = None \/ oh_closeTime today = None ->
        isShopOpen hours now = false).
Proof.
  rewrite isShopOpen_unfold.
  split; [|split].
  - split.
    + destruct (todayHours hours now) as [today|]; [|discriminate].
      destruct (oh_openTime today) as [o|] eqn:Ho; [|discriminate].
      destruct (oh_closeTime today) as [c|] eqn:Hc; [|discriminate].
      destruct (toHHMM o) as [|a] eqn:Ha; [discriminate|].
      destruct (toHHMM c) as [|b] eqn:Hb; [discriminate|].
      intros H. exists today, o, c, a, b.
      repeat split; try assumption.
      apply withinHours_bool. exact H.
    + intros (today & o & c & a & b & Ht & Ho & Hc & Ha & Hb & Hw).
      rewrite Ht, Ho, Hc, Ha, Hb.
      apply withinHours_bool in Hw. exact Hw.
  - intros ->. reflexivity.
  - intros today -> [H|H]; rewrite H; [reflexivity|].
    destruct (oh_openTime today); reflexivity.
Qed.

(** C9 as the spec words it fails: at 22:00 on a Monday with hours 11:00 to
    22:00 the code still reports the shop open. *)
Lemma isShopOpen_open_at_closing_time :
  isShopOpen mondayHours (mkInstant 1 22 0) = true.
Proof. vm_compute. reflexivity. Qed.

Lemma isShopOpen_closed_interval_witness :
  isShopOpen mondayHours (mkInstant 2 12 0) = false.
Proof.
  refine (proj2 (proj2 (isShopOpen_closed_interval mondayHours (mkInstant 2 12 0)))
            (mkOpeningHours "h2" "s1" 2 None None None) _ _).
  - reflexivity.
  - left. reflexivity.
Defined.

End OpeningHoursFacts.

(** ** Numbers as doubles *)

Section NumberFacts.

Lemma infinity_pos : 2 ^ 53 < infinity.
Proof. unfold infinity. apply Z.pow_lt_mono_r; lia. Qed.

Lemma toDouble_small (z : Z) : Z.abs z < 2 ^ 53 -> toDouble z = z.
Proof.
  intros H. unfold toDouble. cbv zeta. apply Z.ltb_lt in H. rewrite H. reflexivity.
Qed.

Lemma isInfinite_small (z : Z) : Z.abs z < 2 ^ 53 -> isInfinite z = false.
Proof.
  intros H. unfold isInfinite. apply Z.leb_gt. pose proof infinity_pos. lia.
Qed.

(** Beyond 2^53 the double is the sign times a mantissa shifted into
    place, which is positive and at most [infinity]. *)
Lemma toDouble_big (z : Z) :
  2 ^ 53 <= Z.abs z ->
  exists m, toDouble z = Z.sgn z * m /\ 0 < m <= infinity.
Proof.
  intros H. unfold toDouble. cbv zeta.
  assert (E : (Z.abs z <? 2 ^ 53) = false) by (apply Z.ltb_ge; exact H).
  rewrite E.
  set (a := Z.abs z) in *.
  assert (Ha : 0 < a) by (assert (0 < 2 ^ 53) by (apply Z.pow_pos_nonneg; lia); lia).
  assert (Hlog : 53 <= Z.log2 a) by (apply Z.log2_le_pow2; [exact Ha|exact H]).
  set (e := Z.log2 a - 52).
  assert (He : 0 <= e) by (unfold e; lia).
  assert (Hpow : 0 < 2 ^ e) by (apply Z.pow_pos_nonneg; lia).
  assert (Hq : 1 <= Z.shiftr a e).
  { rewrite Z.shiftr_div_pow2 by exact He.
    apply Z.div_le_lower_bound; [exact Hpow|].
    rewrite Z.mul_1_r.
    apply Z.le_trans with (2 ^ Z.log2 a).
    - apply Z.pow_le_mono_r; [lia|unfold e; lia].
    - apply (Z.log2_spec a Ha). }
  match goal with
  | |- exists m, Z.sgn z * Z.min (Z.shiftl ?q' e) infinity = _ /\ _ =>
      assert (Hq' : 1 <= q')
  end.
  { match goal with |- 1 <= (if ?c then _ else _) => destruct c end; lia. }
  eexists. split; [reflexivity|].
  rewrite Z.shiftl_mul_pow2 by exact He.
  pose proof infinity_pos.
  assert (0 < 2 ^ 53) by (apply Z.pow_pos_nonneg; lia).
  split; [|apply Z.le_min_r].
  apply Z.min_glb_lt; [|lia].
  apply Z.mul_pos_pos; [lia|exact Hpow].
Qed.

Lemma toDouble_sgn (z : Z) : Z.sgn (toDouble z) = Z.sgn z.
Proof.
  destruct (Z_lt_le_dec (Z.abs z) (2 ^ 53)) as [H|H].
  - rewrite (toDouble_small z H). reflexivity.
  - destruct (toDouble_big z H) as (m & -> & Hm1 & _).
    rewrite Z.sgn_mul, (Z.sgn_pos m Hm1). lia.
Qed.

(** A double is at most an infinity. *)
Lemma toDouble_range (z : Z) : Z.abs (toDouble z) <= infinity.
Proof.
  destruct (Z_lt_le_dec (Z.abs z) (2 ^ 53)) as [H|H].
  - rewrite (toDouble_small z H). pose proof infinity_pos. lia.
  - destruct (toDouble_big z H) as (m & -> & Hm).
    rewrite Z.abs_mul. assert (Z.abs (Z.sgn z) <= 1) by lia.
    rewrite (Z.abs_eq m) by lia. nia.
Qed.

Lemma num_add_small (x y : Z) :
  Z.abs x < 2 ^ 53 -> Z.abs y < 2 ^ 53 -> Z.abs (x + y) < 2 ^ 53 ->
  num_add (Int x) (Int y) = Int (x + y).
Proof.
  intros Hx Hy Hxy. unfold num_add.
  rewrite (isInfinite_small x Hx), (isInfinite_small y Hy), (toDouble_small _ Hxy).
  reflexivity.
Qed.

(** The sign of a difference, which is all a comparator of [sort] is
    looked at for, is that of the exact difference. *)
Lemma num_sub_positive (x y : Z) :
  Z.abs x <= infinity -> Z.abs y <= infinity ->
  num_lt (Int 0) (num_sub (Int x) (Int y)) = (y <? x).
Proof.
  intros Hx Hy. pose proof infinity_pos as Hinf.
  assert (H53 : 0 < 2 ^ 53) by (apply Z.pow_pos_nonneg; lia).
  unfold num_sub, num_add, isInfinite.
  destruct (Z.leb_spec infinity (Z.abs x)) as [Ix|Ix];
    destruct (Z.leb_spec infinity (Z.abs (- y))) as [Iy|Iy]; cbn [andb].
  - destruct (Z.eqb_spec (Z.sgn x) (Z.sgn (- y))) as [Es|Es]; cbn [negb num_lt].
    + destruct (Z.ltb_spec 0 x), (Z.ltb_spec y x); try reflexivity; exfalso; lia.
    + destruct (Z.ltb_spec y x); try reflexivity; exfalso; lia.
  - cbn [num_lt].
    destruct (Z.ltb_spec 0 x), (Z.ltb_spec y x); try reflexivity; exfalso; lia.
  - cbn [num_lt].
    destruct (Z.ltb_spec 0 (- y)), (Z.ltb_spec y x); try reflexivity; exfalso; lia.
  - cbn [num_lt]. pose proof (toDouble_sgn (x + - y)) as Hs.
    destruct (Z.ltb_spec 0 (toDouble (x + - y))), (Z.ltb_spec y x);
      try reflexivity; exfalso; lia.
Qed.

End NumberFacts.

(** ** Distance *)

Section DistanceFacts.

Lemma real_mul_assoc (a b c : real) : (a * b * c)%js = (a * (b * c))%js.
Proof.
  destruct a as [|x], b as [|y], c as [|z]; try reflexivity.
  unfold real_mul, lift2. f_equal. ring.
Qed.

(** The kilometers the server rounds are the Haversine value. *)
Lemma server_distance_km (lat1 lng1 lat2 lng2 : real) :
  let dLat := Storage.degreesToRadians (lat2 - lat1)%js in
  let dLng := Storage.degreesToRadians (lng2 - lng1)%js in
  let a :=
    (Math_sin (dLat / lit 2) * Math_sin (dLat / lit 2) +
     Math_cos (Storage.degreesToRadians lat1) * Math_cos (Storage.degreesToRadians lat2) *
     Math_sin (dLng / lit 2) * Math_sin (dLng / lit 2))%js in
  (lit 6371 * (lit 2 * Math_atan2 (Math_sqrt a) (Math_sqrt (lit 1 - a))))%js
  = haversineKm lat1 lng1 lat2 lng2.
Proof.
  cbv zeta. unfold haversineKm, hav, Storage.degreesToRadians.
  rewrite (real_mul_assoc (Math_cos _ * Math_cos _)%js (Math_sin _) (Math_sin _)).
  reflexivity.
Qed.

Lemma server_rounds_haversine (lat1 lng1 lat2 lng2 : real) :
  Storage.calculateDistance lat1 lng1 lat2 lng2
  = Math_round (haversineKm lat1 lng1 lat2 lng2 * lit 1000)%js.
Proof.
  unfold Storage.calculateDistance. cbv zeta.
  rewrite (server_distance_km lat1 lng1 lat2 lng2). reflexivity.
Qed.

Lemma client_rounds_haversine (lat1 lng1 lat2 lng2 : real) :
  Utils.calculateDistance lat1 lng1 lat2 lng2
  = (toReal (Math_round (haversineKm lat1 lng1 lat2 lng2 * lit 100)) / lit 100)%js.
Proof.
  unfold Utils.calculateDistance, Utils.toRadians. cbv zeta.
  change (fun degrees : real => (degrees * (Math_PI / lit 180))%js)
    with Storage.degreesToRadians.
  rewrite <- (server_distance_km lat1 lng1 lat2 lng2). reflexivity.
Qed.

(** C8: the server's meters and the client's kilometers round one and the
    same Haversine value [d_km] (Earth radius 6371 km):
    server = round(d_km * 1000), client = round(d_km * 100) / 100. *)
Theorem distances_round_same_haversine (lat1 lng1 lat2 lng2 : real) :
  Storage.calculateDistance lat1 lng1 lat2 lng2
  = Math_round (haversineKm lat1 lng1 lat2 lng2 * lit 1000)%js
  /\ Utils.calculateDistance lat1 lng1 lat2 lng2
     = (toReal (Math_round (haversineKm lat1 lng1 lat2 lng2 * lit 100)) / lit 100)%js.
Proof.
  split.
  - apply server_rounds_haversine.
  - apply client_rounds_haversine.
Qed.

Lemma round_within_half (x : R) :
  (- / 2 <= IZR (Int_part (x + / 2)) - x <= / 2)%R.
Proof.
  destruct (base_Int_part (x + / 2)) as [H1 H2]. lra.
Qed.

(** What the two roundings can differ by: both values are [NaN], or the
    server's meters are within 5.5 m of the client's kilometers. *)
Theorem distances_agree_within_rounding (lat1 lng1 lat2 lng2 : real) :
  match Storage.calculateDistance lat1 lng1 lat2 lng2,
        Utils.calculateDistance lat1 lng1 lat2 lng2 with
  | Int m, Fin km => (Rabs (IZR m - 1000 * km) <= 11 / 2)%R
  | NaN, RNaN => True
  | _, _ => False
  end.
Proof.
  rewrite server_rounds_haversine, client_rounds_haversine.
  destruct (haversineKm lat1 lng1 lat2 lng2) as [|d]; [exact I|].
  cbn [real_mul real_div lift2 lit Math_round toReal].
  pose proof (round_within_half (d * 1000)) as Hm.
  pose proof (round_within_half (d * 100)) as Hk.
  apply Rabs_le. lra.
Qed.

Lemma calculateDistance_Fin (lat1 lng1 lat2 lng2 : R) :
  Storage.calculateDistance (Fin lat1) (Fin lng1) (Fin lat2) (Fin lng2)
  = metersOfA (Fin (havA lat1 lng1 lat2 lng2)).
Proof. reflexivity. Qed.

Lemma havA_sym (lat1 lng1 lat2 lng2 : R) :
  havA lat1 lng1 lat2 lng2 = havA lat2 lng2 lat1 lng1.
Proof.
  unfold havA.
  replace ((lat1 - lat2) * (PI / 180) / 2)%R
    with (- ((lat2 - lat1) * (PI / 180) / 2))%R by field.
  replace ((lng1 - lng2) * (PI / 180) / 2)%R
    with (- ((lng2 - lng1) * (PI / 180) / 2))%R by field.
  rewrite !sin_neg. ring.
Qed.

Lemma havA_same (lat lng : R) : havA lat lng lat lng = 0%R.
Proof.
  unfold havA.
  replace ((lat - lat) * (PI / 180) / 2)%R with 0%R by field.
  replace ((lng - lng) * (PI / 180) / 2)%R with 0%R by field.
  rewrite sin_0. ring.
Qed.

Lemma metersOfA_zero : metersOfA (Fin 0) = Int 0.
Proof.
  unfold metersOfA, Math_sqrt, Math_atan2, Math_round, real_mul, real_sub, lift2, lit.
  destruct (Rlt_dec 0 0) as [H|_]; [lra|].
  destruct (Rlt_dec (1 - 0) 0) as [H|_]; [lra|].
  f_equal. symmetry. apply Int_part_spec.
  unfold atan2.
  replace (1 - 0)%R with 1%R by ring.
  rewrite sqrt_0, sqrt_1.
  destruct (Rlt_dec 0 1) as [_|H]; [|lra].
  replace (0 / 1)%R with 0%R by field.
  rewrite atan_0. simpl. lra.
Qed.

Lemma zero_meters_to_itself (lat lng : R) :
  metersOfA (Fin (havA lat lng lat lng)) = Int 0.
Proof.
  rewrite havA_same. apply metersOfA_zero.
Qed.

(** The spec's "distance zero": a finite point is 0 m from itself. *)
Theorem calculateDistance_same_point (lat lng : R) :
  Storage.calculateDistance (Fin lat) (Fin lng) (Fin lat) (Fin lng) = Int 0.
Proof.
  rewrite calculateDistance_Fin. apply zero_meters_to_itself.
Qed.

(** The spec's "distance symmetry", [NaN] included. *)
Theorem calculateDistance_symmetric (lat1 lng1 lat2 lng2 : real) :
  Storage.calculateDistance lat1 lng1 lat2 lng2
  = Storage.calculateDistance lat2 lng2 lat1 lng1.
Proof.
  destruct lat1 as [|a], lng1 as [|b], lat2 as [|c], lng2 as [|d]; try reflexivity.
  rewrite !calculateDistance_Fin, havA_sym. reflexivity.
Qed.

Lemma atan2_range (y x : R) : (- (2 * PI) <= atan2 y x <= 2 * PI)%R.
Proof.
  pose proof PI_RGT_0 as Hpi. pose proof (atan_bound (y / x)) as Hat.
  unfold atan2.
  destruct (Rlt_dec 0 x); [lra|].
  destruct (Rlt_dec x 0).
  - destruct (Rle_dec 0 y); lra.
  - destruct (Rlt_dec 0 y); [lra|]. destruct (Rlt_dec y 0); lra.
Qed.

(** A distance is [NaN] or an integer far below 2^53: no point of the
    globe is farther than half its circumference. *)
Lemma calculateDistance_range (lat1 lng1 lat2 lng2 : real) :
  match Storage.calculateDistance lat1 lng1 lat2 lng2 with
  | NaN => True
  | Int z => Z.abs z < 2 ^ 53
  end.
Proof.
  destruct lat1 as [|a], lng1 as [|b], lat2 as [|c], lng2 as [|d]; try exact I.
  rewrite calculateDistance_Fin.
  unfold metersOfA, Math_sqrt, Math_atan2, real_sub, real_mul, lift2, lit.
  destruct (Rlt_dec (havA a b c d) 0); [exact I|].
  destruct (Rlt_dec (1 - havA a b c d) 0); [exact I|].
  cbn [Math_round].
  set (v := (6371 * (2 * atan2 (sqrt (havA a b c d)) (sqrt (1 - havA a b c d))) * 1000)%R).
  pose proof (atan2_range (sqrt (havA a b c d)) (sqrt (1 - havA a b c d))) as Hc.
  pose proof PI_4 as Hpi4. pose proof PI_RGT_0 as Hpi0.
  destruct (base_Int_part (v + / 2)) as [H1 H2].
  assert (Hv : (- 110000000 <= v <= 110000000)%R) by (unfold v; nra).
  assert (Hz : -200000000 < Int_part (v + / 2) < 200000000).
  { split; apply lt_IZR; lra. }
  assert (E : 2 ^ 53 = 9007199254740992) by reflexivity.
  rewrite E. lia.
Qed.

Lemma calculateDistance_isDouble (lat1 lng1 lat2 lng2 : real) :
  isNaN (Storage.calculateDistance lat1 lng1 lat2 lng2) = false ->
  isDouble (Storage.calculateDistance lat1 lng1 lat2 lng2).
Proof.
  pose proof (calculateDistance_range lat1 lng1 lat2 lng2) as H.
  destruct (Storage.calculateDistance lat1 lng1 lat2 lng2) as [|z]; [discriminate|].
  intros _. cbn [isDouble]. pose proof infinity_pos. lia.
Qed.

Lemma parseFloat_zero : parseFloat "0" = Fin 0.
Proof.
  transitivity (Fin (Q2R (0 # 1))); [reflexivity|].
  f_equal. unfold Q2R. cbn. lra.
Qed.

Lemma parseFloat_180 : parseFloat "180" = Fin 180.
Proof.
  transitivity (Fin (Q2R (180 # 1))); [reflexivity|].
  f_equal. unfold Q2R. cbn. lra.
Qed.

(** Half way round the globe along the equator: 6371 km times PI, more
    than a meter. *)
Lemma far_side_of_the_globe :
  exists k, 0 < k
            /\ Storage.calculateDistance (Fin 0) (Fin 0) (Fin 0) (Fin 180) = Int k.
Proof.
  rewrite calculateDistance_Fin.
  assert (Ha : havA 0 0 0 180 = 1%R).
  { unfold havA.
    replace ((0 - 0) * (PI / 180) / 2)%R with 0%R by field.
    replace (0 * (PI / 180))%R with 0%R by field.
    replace ((180 - 0) * (PI / 180) / 2)%R with (PI / 2)%R by field.
    rewrite sin_0, cos_0, sin_PI2. ring. }
  rewrite Ha.
  unfold metersOfA, Math_sqrt, Math_atan2, real_sub, real_mul, lift2, lit.
  destruct (Rlt_dec 1 0) as [H|_]; [lra|].
  destruct (Rlt_dec (1 - 1) 0) as [H|_]; [lra|].
  cbn [Math_round]. eexists. split; [|reflexivity].
  replace (1 - 1)%R with 0%R by ring.
  rewrite sqrt_1, sqrt_0. unfold atan2.
  destruct (Rlt_dec 0 0) as [H|_]; [lra|].
  destruct (Rlt_dec 0 0) as [H|_]; [lra|].
  destruct (Rlt_dec 0 1) as [_|H]; [|lra].
  pose proof PI_RGT_0 as Hpi. pose proof PI2_3_2 as Hpi2.
  match goal with |- 0 < Int_part ?r => destruct (base_Int_part r) as [H1 H2] end.
  apply lt_IZR. lra.
Qed.

End DistanceFacts.

(** ** Lists, [slice] and the stable sort *)

Section ListFacts.
Context {A : Type}.


(** [slice] on a start and a length that are natural numbers whose sum is
    exact. *)
Lemma slice_nat (o l : nat) (xs : list A) :
  Z.of_nat o + Z.of_nat l < 2 ^ 53 ->
  slice (Int (Z.of_nat o)) (num_add (Int (Z.of_nat o)) (Int (Z.of_nat l))) xs
  = firstn l (skipn o xs).
Proof.
  intros Hsum. rewrite num_add_small by lia.
  unfold slice, ToIntegerOrInfinity.
  assert (Ho : (Z.of_nat o <? 0) = false) by (apply Z.ltb_ge; lia).
  assert (Hol : (Z.of_nat o + Z.of_nat l <? 0) = false) by (apply Z.ltb_ge; lia).
  rewrite Ho, Hol.
  destruct (Nat.le_gt_cases (List.length xs) o) as [Hlen|Hlen].
  - rewrite (skipn_all2 xs Hlen), firstn_nil.
    replace (Z.to_nat (Z.min (Z.of_nat o) (Z.of_nat (List.length xs))))
      with (List.length xs) by lia.
    rewrite skipn_all, firstn_nil. reflexivity.
  - replace (Z.to_nat (Z.min (Z.of_nat o) (Z.of_nat (List.length xs)))) with o by lia.
    destruct (Nat.le_gt_cases l (List.length xs - o)) as [Hl|Hl].
    + f_equal. lia.
    + rewrite (firstn_all2 (n := l)) by (rewrite length_skipn; lia).
      apply firstn_all2. rewrite length_skipn. lia.
Qed.

Lemma In_firstn (n : nat) (xs : list A) (x : A) :
  In x (firstn n xs) -> In x xs.
Proof.
  intros H. rewrite <- (firstn_skipn n xs). apply in_or_app. left. exact H.
Qed.

Lemma In_skipn (n : nat) (xs : list A) (x : A) :
  In x (skipn n xs) -> In x xs.
Proof.
  intros H. rewrite <- (firstn_skipn n xs). apply in_or_app. right. exact H.
Qed.

Lemma slice_map {B : Type} (f : A -> B) (a b : number) (xs : list A) :
  map f (slice a b xs) = slice a b (map f xs).
Proof.
  unfold slice. rewrite length_map, skipn_map, firstn_map. reflexivity.
Qed.

Lemma slice_incl (a b : number) (xs : list A) (x : A) :
  In x (slice a b xs) -> In x xs.
Proof.
  unfold slice. intros H.
  apply In_firstn in H. apply In_skipn in H. exact H.
Qed.

(** An [end] that is [NaN] selects nothing, whatever the start. *)
Lemma slice_NaN_end (a : number) (xs : list A) : slice a NaN xs = [].
Proof.
  unfold slice. simpl ToIntegerOrInfinity.
  change (0 <? 0) with false. cbv iota.
  set (len := Z.of_nat (List.length xs)).
  set (k := if ToIntegerOrInfinity a <? 0
            then Z.max (len + ToIntegerOrInfinity a) 0
            else Z.min (ToIntegerOrInfinity a) len).
  assert (Hk : 0 <= k) by (subst k len; destruct (ToIntegerOrInfinity a <? 0) eqn:E; lia).
  replace (Z.to_nat (Z.min 0 len - k)) with 0%nat by lia.
  reflexivity.
Qed.

Lemma flat_map_none {B : Type} (f : A -> list B) (l : list A) :
  (forall x, In x l -> f x = []) -> flat_map f l = [].
Proof.
  induction l as [|x l IH]; intros H; [reflexivity|].
  simpl. rewrite (H x (or_introl eq_refl)).
  apply IH. intros y Hy. apply H. right. exact Hy.
Qed.

Lemma filter_none (f : A -> bool) (l : list A) :
  (forall x, In x l -> f x = false) -> filter f l = [].
Proof.
  induction l as [|x l IH]; intros H; [reflexivity|].
  simpl. rewrite (H x (or_introl eq_refl)).
  apply IH. intros y Hy. apply H. right. exact Hy.
Qed.

Lemma insertSorted_In (stays : A -> A -> bool) (x y : A) (l : list A) :
  In y (insertSorted stays x l) <-> y = x \/ In y l.
Proof.
  induction l as [|z l IH]; simpl.
  - intuition.
  - destruct (stays x z); simpl; [intuition|].
    rewrite IH. intuition.
Qed.

Lemma stableSort_In (stays : A -> A -> bool) (y : A) (l : list A) :
  In y (stableSort stays l) <-> In y l.
Proof.
  induction l as [|x l IH]; simpl; [tauto|].
  rewrite insertSorted_In, IH. intuition.
Qed.


Lemma insertSorted_length (stays : A -> A -> bool) (x : A) (l : list A) :
  List.length (insertSorted stays x l) = S (List.length l).
Proof.
  induction l as [|y l IH]; simpl; [reflexivity|].
  destruct (stays x y); simpl; [reflexivity|]. rewrite IH. reflexivity.
Qed.

Lemma stableSort_length (stays : A -> A -> bool) (l : list A) :
  List.length (stableSort stays l) = List.length l.
Proof.
  induction l as [|x l IH]; simpl; [reflexivity|].
  rewrite insertSorted_length, IH. reflexivity.
Qed.

End ListFacts.

(** ** Pagination *)

Section PaginationFacts.
Import Storage.


(** Pagination is the last step: the page is cut out of the full result. *)
Lemma getShops_is_slice (db : DB) (filters : Filters) :
  getShops db filters
  = slice (offsetOf filters) (num_add (offsetOf filters) (limitOf filters))
      (fullResult db filters).
Proof.
  unfold getShops, fullResult, offsetOf, limitOf. apply slice_map.
Qed.

Lemma getShops_slice (db : DB) (filters : Filters) (o l : nat) :
  Z.of_nat o + Z.of_nat l < 2 ^ 53 ->
  offsetOf filters = Int (Z.of_nat o) ->
  limitOf filters = Int (Z.of_nat l) ->
  getShops db filters = firstn l (skipn o (fullResult db filters)).
Proof.
  intros Hsum Ho Hl. rewrite getShops_is_slice, Ho, Hl. apply slice_nat. exact Hsum.
Qed.

End PaginationFacts.

(** ** Malformed numbers in [GET /api/shops] *)

Section MalformedFilterFacts.
Import Storage Routes.

Lemma calculateDistance_NaN_lat1 (lng1 lat2 lng2 : real) :
  calculateDistance RNaN lng1 lat2 lng2 = NaN.
Proof. destruct lng1, lat2, lng2; reflexivity. Qed.

Lemma calculateDistance_NaN_lng1 (lat1 lat2 lng2 : real) :
  calculateDistance lat1 RNaN lat2 lng2 = NaN.
Proof. destruct lat1, lat2, lng2; reflexivity. Qed.

Lemma num_le_NaN_r (d : number) : num_le d NaN = false.
Proof. destruct d; reflexivity. Qed.

(** With a reference point and a radius, nothing is left as soon as every
    distance or the radius is [NaN]. *)
Lemma queryResult_NaN (db : DB) (filters : Filters) (lat0 lng0 : real) (r : number) :
  lat filters = Some lat0 -> lng filters = Some lng0 -> radius filters = Some r ->
  lat0 = RNaN \/ lng0 = RNaN \/ r = NaN ->
  queryResult db filters = [].
Proof.
  intros Hlat Hlng Hr Hnan. unfold queryResult.
  rewrite Hlat, Hlng, Hr.
  rewrite filter_none.
  - destruct (sortByIs filters "distance"); reflexivity.
  - intros x Hx. apply in_map_iff in Hx. destruct Hx as (item & <- & _).
    cbv zeta. simpl snd.
    destruct Hnan as [-> | [-> | ->]].
    + rewrite calculateDistance_NaN_lat1. reflexivity.
    + rewrite calculateDistance_NaN_lng1. reflexivity.
    + apply num_le_NaN_r.
Qed.

Lemma getShops_empty_result (db : DB) (filters : Filters) :
  queryResult db filters = [] -> getShops db filters = [].
Proof.
  intros H. unfold getShops. rewrite H. unfold slice. simpl.
  rewrite skipn_nil, firstn_nil. reflexivity.
Qed.

Lemma getShops_NaN_page (db : DB) (filters : Filters) :
  limitOf filters = NaN \/ offsetOf filters = NaN -> getShops db filters = [].
Proof.
  intros H. unfold getShops.
  fold (offsetOf filters). fold (limitOf filters).
  replace (num_add (offsetOf filters) (limitOf filters)) with NaN.
  - rewrite slice_NaN_end. reflexivity.
  - destruct H as [-> | ->]; [destruct (offsetOf filters)|]; reflexivity.
Qed.

Lemma hasNul_truthy (c : string) : hasNul c = true -> truthy c = true.
Proof. destruct c; [discriminate|reflexivity]. Qed.

(** Whether the list query is rejected is a matter of the city alone. *)
Lemma awaitGetShops_city (db : DB) (query : ShopsQuery) :
  awaitGetShops db (shopsFilters query)
  = if cityHasNul query then Throw invalidByteSequence
    else Ok (getShops db (shopsFilters query)).
Proof.
  unfold awaitGetShops, getShopsParameters, cityHasNul, shopsFilters. cbn [city].
  destruct (q_city query) as [c|]; [|reflexivity].
  destruct (hasNul c) eqn:E.
  - rewrite (hasNul_truthy c E). cbn [existsb]. rewrite E. reflexivity.
  - destruct (truthy c); cbn [existsb]; [rewrite E|]; reflexivity.
Qed.

Lemma getApiShops_accepted (db : DB) (query : ShopsQuery) :
  cityHasNul query = false ->
  getApiShops db query = Json 200 (getShops db (shopsFilters query)).
Proof.
  intros H. unfold getApiShops. cbv zeta. rewrite awaitGetShops_city, H. reflexivity.
Qed.

(** C3, as the code has it: no value of a numeric parameter makes the list
    query fail (the handler's [catch] answers 500 for a city with a NUL
    character, which the database rejects, and the answer is 200 for every
    other request, whatever [lat], [lng], [radius], [limit] and [offset]
    are), and a radius without both [lat] and [lng] changes nothing.  An
    unparsable value is not dropped, though: it reaches the query as [NaN],
    where an unparsable [limit] or [offset] selects an empty page and, with
    a reference point and a radius given, an unparsable [lat], [lng] or
    [radius] filters every shop out. *)
Theorem getApiShops_malformed_numbers (db : DB) (query : ShopsQuery) :
  statusOf (getApiShops db query) = (if cityHasNul query then 500 else 200)
  /\ (truthyOpt (q_lat query) = false \/ truthyOpt (q_lng query) = false ->
      getApiShops db query = getApiShops db (withoutRadius query))
  /\ (cityHasNul query = false ->
      parseInt (limitString query) = NaN \/ parseInt (offsetString query) = NaN ->
      getApiShops db query = Json 200 [])
  /\ (cityHasNul query = false ->
      forall lat lng radius : string,
        q_lat query = Some lat -> q_lng query = Some lng -> q_radius query = Some radius ->
        truthy lat = true -> truthy lng = true -> truthy radius = true ->
        parseFloat lat = RNaN \/ parseFloat lng = RNaN \/ parseInt radius = NaN ->
        getApiShops db query = Json 200 []).
Proof.
  split; [|split; [|split]].
  - unfold getApiShops. cbv zeta. rewrite awaitGetShops_city.
    destruct (cityHasNul query); reflexivity.
  - intros H. unfold getApiShops. cbv zeta. rewrite !awaitGetShops_city.
    change (cityHasNul (withoutRadius query)) with (cityHasNul query).
    destruct (cityHasNul query); [reflexivity|]. f_equal.
    unfold getShops, queryResult, shopsFilters, withoutRadius, truthyOpt in *.
    simpl.
    destruct (q_lat query) as [la|]; [destruct (truthy la) eqn:Ela|].
    + destruct (q_lng query) as [ln|]; [destruct (truthy ln) eqn:Eln|].
      * destruct H; discriminate.
      * reflexivity.
      * reflexivity.
    + reflexivity.
    + reflexivity.
  - intros Hcity H. rewrite (getApiShops_accepted db query Hcity). f_equal.
    apply getShops_NaN_page.
    unfold limitOf, offsetOf, shopsFilters. simpl. exact H.
  - intros Hcity la ln r Hla Hln Hr Tla Tln Tr H.
    rewrite (getApiShops_accepted db query Hcity). f_equal.
    apply getShops_empty_result.
    apply (queryResult_NaN db _ (parseFloat la) (parseFloat ln) (parseInt r)).
    + unfold shopsFilters. simpl. rewrite Hla, Tla. reflexivity.
    + unfold shopsFilters. simpl. rewrite Hln, Tln. reflexivity.
    + unfold shopsFilters. simpl. rewrite Hr, Tr. reflexivity.
    + exact H.
Qed.

(** C3 as the spec words it fails: [limit=abc] is not read as an absent
    limit (the page is empty instead of the default window), and [lat=abc]
    with a radius is not read as an absent latitude (no shop is left, where
    the same request without [lat] lists both). *)
Lemma malformed_number_is_not_absent :
  shopIds (getApiShops freiberg limitAbcQuery) = []
  /\ shopIds (getApiShops freiberg plainQuery) = ["s1"; "s2"]
  /\ shopIds (getApiShops freiberg latAbcQuery) = []
  /\ shopIds (getApiShops freiberg lngRadiusQuery) = ["s1"; "s2"].
Proof.
  split; [|split; [|split]].
  - vm_compute. reflexivity.
  - vm_compute. reflexivity.
  - rewrite (getApiShops_accepted freiberg latAbcQuery eq_refl).
    rewrite getShops_empty_result; [reflexivity|].
    apply (queryResult_NaN freiberg _ RNaN (parseFloat "13.3417") (Int 1000));
      try reflexivity.
    left. reflexivity.
  - rewrite (getApiShops_accepted freiberg lngRadiusQuery eq_refl).
    lazy. reflexivity.
Qed.

Lemma getApiShops_malformed_numbers_witness :
  getApiShops freiberg radiusOnlyQuery = getApiShops freiberg (withoutRadius radiusOnlyQuery)
  /\ getApiShops freiberg limitAbcQuery = Json 200 []
  /\ getApiShops freiberg latAbcQuery = Json 200 []
  /\ statusOf (getApiShops freiberg nulCityQuery) = 500.
Proof.
  split; [|split; [|split]].
  - apply (proj1 (proj2 (getApiShops_malformed_numbers freiberg radiusOnlyQuery))).
    left. reflexivity.
  - apply (proj1 (proj2 (proj2 (getApiShops_malformed_numbers freiberg limitAbcQuery))));
      [reflexivity|].
    left. reflexivity.
  - apply (proj2 (proj2 (proj2 (getApiShops_malformed_numbers freiberg latAbcQuery)))
             eq_refl "abc" "13.3417" "1000"); try reflexivity.
    left. reflexivity.
  - exact (proj1 (getApiShops_malformed_numbers freiberg nulCityQuery)).
Defined.

(** White space before a number is skipped also where it is no ASCII:
    [limit=%C2%A01], a no-break space and a 1, is the limit 1. *)
Lemma parseInt_skips_no_break_space :
  parseInt (String "194"%char (String "160"%char "1")) = Int 1
  /\ parseFloat (String "194"%char (String "160"%char "1e999")) = RNaN.
Proof. split; reflexivity. Qed.

End MalformedFilterFacts.

(** ** The list query *)

Section QueryFacts.
Import Storage.

Lemma leftJoin_cons (s : Shop) (ss : list Shop) (rs : list Review) :
  Sql.leftJoin (s :: ss) rs = map (pair s) (joinedReviews rs s) ++ Sql.leftJoin ss rs.
Proof.
  unfold Sql.leftJoin, joinedReviews. cbn [flat_map]. f_equal.
  destruct (filter _ rs) as [|r m]; [reflexivity|].
  symmetry. apply map_map.
Qed.

Lemma joinedReviews_nonempty (rs : list Review) (s : Shop) : joinedReviews rs s <> [].
Proof.
  unfold joinedReviews. destruct (filter _ rs); discriminate.
Qed.

Lemma leftJoin_shop (ss : list Shop) (rs : list Review) (row : Shop * option Review) :
  In row (Sql.leftJoin ss rs) -> In (fst row) ss.
Proof.
  induction ss as [|s ss IH]; [intros []|].
  rewrite leftJoin_cons. intros H. apply in_app_or in H. destruct H as [H|H].
  - apply in_map_iff in H. destruct H as (o & <- & _). left. reflexivity.
  - right. apply IH. exact H.
Qed.

(** The shop of a group is the shop of one of the rows. *)
Lemma groupByShopId_shop (rows : list (Shop * option Review)) (g : Group) :
  In g (Sql.groupByShopId rows) -> exists r, In (fst g, r) rows.
Proof.
  revert g. induction rows as [|[s r] rows IH]; intros g; [intros []|].
  simpl. intros [<- | H].
  - exists r. left. reflexivity.
  - apply filter_In in H. destruct H as [H _].
    destruct (IH g H) as (r' & Hr'). exists r'. right. exact Hr'.
Qed.

(** Rows of one shop, followed by rows of other shops, make one group. *)
Lemma groupByShopId_block (s : Shop) (opts : list (option Review))
  (rest : list (Shop * option Review)) :
  opts <> [] ->
  (forall row, In row rest -> shop_id (fst row) <> shop_id s) ->
  Sql.groupByShopId (map (pair s) opts ++ rest) = (s, opts) :: Sql.groupByShopId rest.
Proof.
  intros Hne Hrest.
  assert (Hflat : flat_map
            (fun g : Shop * list (option Review) => if String.eqb (shop_id s) (shop_id (fst g)) then snd g else [])
            (Sql.groupByShopId rest) = []).
  { apply flat_map_none. intros g Hg.
    destruct (groupByShopId_shop rest g Hg) as (r & Hr).
    destruct (String.eqb_spec (shop_id s) (shop_id (fst g))) as [E|E]; [|reflexivity].
    exfalso. apply (Hrest _ Hr). simpl. symmetry. exact E. }
  assert (Hfilter : filter
            (fun g : Shop * list (option Review) => negb (String.eqb (shop_id s) (shop_id (fst g))))
            (Sql.groupByShopId rest) = Sql.groupByShopId rest).
  { apply forallb_filter_id. apply forallb_forall. intros g Hg.
    destruct (groupByShopId_shop rest g Hg) as (r & Hr).
    destruct (String.eqb_spec (shop_id s) (shop_id (fst g))) as [E|E]; [|reflexivity].
    exfalso. apply (Hrest _ Hr). simpl. symmetry. exact E. }
  induction opts as [|o opts IH]; [contradiction|].
  destruct opts as [|o' opts].
  - cbn [map app Sql.groupByShopId]. cbv zeta. rewrite Hflat, Hfilter. reflexivity.
  - change (map (pair s) (o :: o' :: opts) ++ rest)
      with ((s, o) :: (map (pair s) (o' :: opts) ++ rest)).
    cbn [Sql.groupByShopId].
    rewrite IH by discriminate.
    cbn [flat_map filter fst snd]. rewrite String.eqb_refl. cbn [negb].
    rewrite Hflat, Hfilter, app_nil_r. reflexivity.
Qed.

Lemma filter_rows_of_shop (w : Shop -> bool) (s : Shop) (opts : list (option Review)) :
  filter (fun row : Shop * option Review => w (fst row)) (map (pair s) opts)
  = if w s then map (pair s) opts else [].
Proof.
  induction opts as [|o opts IH]; simpl.
  - destruct (w s); reflexivity.
  - rewrite IH. destruct (w s); reflexivity.
Qed.

(** With [shops.id] a key, the groups of the query are the shops that pass
    the [WHERE] clause, in table order, each with its own reviews. *)
Lemma groups_of_query (w : Shop -> bool) (ss : list Shop) (rs : list Review) :
  NoDup (map shop_id ss) ->
  Sql.groupByShopId (filter (fun row => w (fst row)) (Sql.leftJoin ss rs))
  = map (fun s => (s, joinedReviews rs s)) (filter w ss).
Proof.
  induction ss as [|s ss IH]; intros Hnd; [reflexivity|].
  inversion Hnd as [|x xs Hnotin Hnd']; subst.
  rewrite leftJoin_cons, filter_app, filter_rows_of_shop.
  cbn [filter]. destruct (w s).
  - rewrite groupByShopId_block.
    + cbn [map]. f_equal. apply IH. exact Hnd'.
    + apply joinedReviews_nonempty.
    + intros row Hrow E. apply Hnotin.
      apply filter_In in Hrow. destruct Hrow as [Hrow _].
      apply leftJoin_shop in Hrow.
      rewrite <- E. apply in_map. exact Hrow.
  - apply IH. exact Hnd'.
Qed.

Lemma orderByClause_In (filters : Filters) (groups : list Group) (g : Group) :
  In g match orderByClause filters with
       | Some stays => Sql.orderBy stays groups
       | None => groups
       end
  <-> In g groups.
Proof.
  destruct (orderByClause filters); [apply stableSort_In|reflexivity].
Qed.

(** Every row of the query is a shop of the table that passes the [WHERE]
    clause. *)
Lemma baseQuery_where (db : DB) (filters : Filters) (item : Item) :
  In item (baseQuery db filters) ->
  In (item_shop item) (shops db) /\ whereClause filters (item_shop item) = true.
Proof.
  unfold baseQuery. intros H.
  apply in_map_iff in H. destruct H as (g & <- & Hg).
  apply orderByClause_In in Hg.
  apply groupByShopId_shop in Hg. destruct Hg as (r & Hr).
  apply filter_In in Hr. destruct Hr as [Hr Hw].
  apply leftJoin_shop in Hr. split; assumption.
Qed.

Lemma groupRatings_joined (rs : list Review) (s : Shop) :
  groupRatings (s, joinedReviews rs s)
  = map review_rating (filter (fun r => String.eqb (shop_id s) (review_shopId r)) rs).
Proof.
  unfold groupRatings, joinedReviews. cbn [snd].
  destruct (filter _ rs) as [|r m]; [reflexivity|].
  generalize (r :: m). intros l.
  induction l as [|x l IH]; [reflexivity|].
  cbn [map flat_map app]. rewrite IH. reflexivity.
Qed.

Lemma reviewsOfShop_join (db : DB) (s : Shop) :
  filter (fun r => String.eqb (shop_id s) (review_shopId r)) (reviews db)
  = reviewsOfShop db (shop_id s).
Proof.
  unfold reviewsOfShop. apply filter_ext. intros r. apply String.eqb_sym.
Qed.

(** With [shops.id] a key, the average of a row is the average over the
    shop's reviews, 0 when there is none. *)
Lemma baseQuery_avgRating (db : DB) (filters : Filters) (item : Item) :
  NoDup (map shop_id (shops db)) ->
  In item (baseQuery db filters) ->
  item_avgRating item
  = Sql.COALESCE
      (Sql.AVG (map review_rating (reviewsOfShop db (shop_id (item_shop item))))) 0.
Proof.
  unfold baseQuery. intros Hnd H.
  apply in_map_iff in H. destruct H as (g & <- & Hg).
  apply orderByClause_In in Hg.
  rewrite (groups_of_query (whereClause filters) (shops db) (reviews db) Hnd) in Hg.
  apply in_map_iff in Hg. destruct Hg as (s & <- & _).
  unfold selectColumns. cbn [item_avgRating item_shop fst].
  rewrite groupRatings_joined, reviewsOfShop_join. reflexivity.
Qed.

(** The distance steps keep the columns of the rows they let through. *)
Lemma queryResult_In (db : DB) (filters : Filters) (item : Item) :
  In item (queryResult db filters) ->
  exists item0,
    In item0 (baseQuery db filters)
    /\ item_shop item = item_shop item0
    /\ item_avgRating item = item_avgRating item0
    /\ item_reviewCount item = item_reviewCount item0.
Proof.
  unfold queryResult.
  destruct (lat filters) as [lat0|]; [destruct (lng filters) as [lng0|]|].
  - intros H. apply in_map_iff in H. destruct H as ([item0 d] & <- & Hp).
    exists item0. repeat split.
    assert (Hf : In (item0, d)
                   match radius filters with
                   | Some radius =>
                       filter (fun item : Item * number => num_le (snd item) radius)
                         (map (fun item =>
                                 (item,
                                  calculateDistance lat0 lng0
                                    (parseFloat (shop_lat (item_shop item)))
                                    (parseFloat (shop_lng (item_shop item)))))
                              (baseQuery db filters))
                   | None =>
                       map (fun item =>
                              (item,
                               calculateDistance lat0 lng0
                                 (parseFloat (shop_lat (item_shop item)))
                                 (parseFloat (shop_lng (item_shop item)))))
                           (baseQuery db filters)
                   end).
    { destruct (sortByIs filters "distance"); [|exact Hp].
      unfold Array_sort in Hp. apply stableSort_In in Hp. exact Hp. }
    assert (Hm : In (item0, d)
                   (map (fun item =>
                           (item,
                            calculateDistance lat0 lng0
                              (parseFloat (shop_lat (item_shop item)))
                              (parseFloat (shop_lng (item_shop item)))))
                        (baseQuery db filters))).
    { destruct (radius filters); [|exact Hf].
      apply filter_In in Hf. apply Hf. }
    apply in_map_iff in Hm. destruct Hm as (i & E & Hi).
    inversion E; subst. exact Hi.
  - intros H. exists item. repeat split. exact H.
  - intros H. exists item. repeat split. exact H.
Qed.

Lemma getShops_In (db : DB) (filters : Filters) (d : ShopWithDetails) :
  In d (getShops db filters) ->
  exists item, In item (queryResult db filters) /\ d = withDetails db item.
Proof.
  unfold getShops. intros H.
  apply in_map_iff in H. destruct H as (item & <- & Hi).
  apply slice_incl in Hi. exists item. split; [exact Hi|reflexivity].
Qed.

End QueryFacts.

(** ** Published shops and the two aggregations *)

Section PublicationFacts.
Import Storage Routes.

(** The list query lets no unpublished shop through, whatever the filter. *)
Theorem getShops_only_published (db : DB) (filters : Filters) :
  Forall (fun d => shop_isPublished (swd_shop d) = Some true) (getShops db filters).
Proof.
  apply Forall_forall. intros d Hd.
  apply getShops_In in Hd. destruct Hd as (item & Hi & ->).
  apply queryResult_In in Hi. destruct Hi as (item0 & H0 & Hs & _).
  apply baseQuery_where in H0. destruct H0 as [_ Hw].
  cbn [withDetails swd_shop]. rewrite Hs.
  unfold whereClause in Hw.
  repeat (apply andb_prop in Hw; destruct Hw as [Hw _]).
  destruct (shop_isPublished (item_shop item0)) as [[|]|]; try discriminate.
  reflexivity.
Qed.

(** C2 fails on the detail lookup: the sample store's third shop is not
    published and the list leaves it out, yet [GET /api/shops/:slug] answers
    200 with it. *)
Theorem getShopBySlug_returns_unpublished :
  shopIds (getApiShops freiberg plainQuery) = ["s1"; "s2"]
  /\ exists d,
       getApiShopBySlug freiberg "geheimer-grill" = Json 200 d
       /\ shop_id (swd_shop d) = "s3"
       /\ shop_isPublished (swd_shop d) = Some false.
Proof.
  split.
  - vm_compute. reflexivity.
  - eexists. split; [vm_compute; reflexivity|]. split; reflexivity.
Qed.

Lemma NoDup_map_injective {A B : Type} (f : A -> B) (l : list A) (a b : A) :
  NoDup (map f l) -> In a l -> In b l -> f a = f b -> a = b.
Proof.
  induction l as [|x l IH]; intros Hnd Ha Hb E; [destruct Ha|].
  inversion Hnd as [|y ys Hnotin Hnd']; subst.
  destruct Ha as [<- | Ha], Hb as [<- | Hb].
  - reflexivity.
  - exfalso. apply Hnotin. rewrite E. apply in_map. exact Hb.
  - exfalso. apply Hnotin. rewrite <- E. apply in_map. exact Ha.
  - apply IH; assumption.
Qed.

(** With [shops.slug] unique, the lookup by a shop's slug finds that shop. *)
Lemma lookup_by_own_slug (db : DB) (s : Shop) :
  NoDup (map shop_slug (shops db)) ->
  In s (shops db) ->
  exists rest,
    filter (fun x => String.eqb (shop_slug x) (shop_slug s)) (shops db) = s :: rest.
Proof.
  intros Hnd Hs.
  destruct (filter (fun x => String.eqb (shop_slug x) (shop_slug s)) (shops db))
    as [|x rest] eqn:E.
  - exfalso.
    assert (H : In s (filter (fun x => String.eqb (shop_slug x) (shop_slug s)) (shops db))).
    { apply filter_In. split; [exact Hs|apply String.eqb_refl]. }
    rewrite E in H. destruct H.
  - exists rest. f_equal.
    assert (H : In x (filter (fun x => String.eqb (shop_slug x) (shop_slug s)) (shops db))).
    { rewrite E. left. reflexivity. }
    apply filter_In in H. destruct H as [Hx Hslug].
    apply String.eqb_eq in Hslug.
    apply (NoDup_map_injective shop_slug (shops db)); assumption.
Qed.

(** [Number(avg) || 0] of the detail query is [COALESCE(avg, 0)] of the list
    query. *)
Lemma orZero_Number_AVG (xs : list Z) :
  orZero (Number_ (Sql.AVG xs)) = Sql.COALESCE (Sql.AVG xs) 0.
Proof.
  unfold Sql.AVG. destruct xs as [|x xs]; [reflexivity|].
  cbn [Number_ Sql.COALESCE]. unfold orZero.
  set (q := (fold_right Z.add 0%Z (x :: xs) # Pos.of_nat (List.length (x :: xs)))%Q).
  destruct (Qeq_bool (Qred q) 0) eqn:E; [|reflexivity].
  apply Qeq_bool_eq in E.
  rewrite Qred_correct in E.
  rewrite (Qred_complete q 0 E). reflexivity.
Qed.

(** C4: for every shop the list query returns, the detail query by its slug
    returns the same shop with the very same [avgRating], and both are 0
    when the shop has no review (as is the detail query's for any shop);
    [shops.id] and [shops.slug] are keys, as the schema declares them. *)
Theorem avgRating_list_equals_detail (db : DB) (filters : Filters) :
  NoDup (map shop_id (shops db)) ->
  NoDup (map shop_slug (shops db)) ->
  Forall
    (fun d =>
       exists d',
         getShopBySlug db (shop_slug (swd_shop d)) = Some d'
         /\ swd_shop d' = swd_shop d
         /\ swd_avgRating d' = swd_avgRating d
         /\ (reviewsOfShop db (shop_id (swd_shop d)) = [] ->
             swd_avgRating d = 0%Q /\ swd_avgRating d' = 0%Q))
    (getShops db filters)
  /\ (forall slug d',
        getShopBySlug db slug = Some d' ->
        reviewsOfShop db (shop_id (swd_shop d')) = [] ->
        swd_avgRating d' = 0%Q).
Proof.
  intros Hid Hslug. split.
  - apply Forall_forall. intros d Hd.
    apply getShops_In in Hd. destruct Hd as (item & Hi & ->).
    apply queryResult_In in Hi. destruct Hi as (item0 & H0 & Hs & Havg & _).
    pose proof (baseQuery_avgRating db filters item0 Hid H0) as Hagg.
    apply baseQuery_where in H0. destruct H0 as [Hin _].
    cbn [withDetails swd_shop swd_avgRating].
    rewrite Hs, Havg, Hagg.
    destruct (lookup_by_own_slug db (item_shop item0) Hslug Hin) as (rest & Hf).
    unfold getShopBySlug. rewrite Hf.
    eexists. split; [reflexivity|].
    cbn [swd_shop swd_avgRating].
    split; [reflexivity|]. split; [apply orZero_Number_AVG|].
    intros ->. split; reflexivity.
  - intros slug d' Hd' Hnone.
    unfold getShopBySlug in Hd'.
    destruct (filter _ (shops db)) as [|shop rest]; [discriminate|].
    inversion Hd'; subst d'. cbn [swd_shop swd_avgRating] in *.
    rewrite Hnone. reflexivity.
Qed.

Lemma freiberg_ids_unique : NoDup (map shop_id (shops freiberg)).
Proof.
  repeat constructor; simpl; intuition discriminate.
Defined.

Lemma freiberg_slugs_unique : NoDup (map shop_slug (shops freiberg)).
Proof.
  repeat constructor; simpl; intuition discriminate.
Defined.

Lemma avgRating_list_equals_detail_witness :
  Forall
    (fun d =>
       exists d',
         getShopBySlug freiberg (shop_slug (swd_shop d)) = Some d'
         /\ swd_shop d' = swd_shop d
         /\ swd_avgRating d' = swd_avgRating d
         /\ (reviewsOfShop freiberg (shop_id (swd_shop d)) = [] ->
             swd_avgRating d = 0%Q /\ swd_avgRating d' = 0%Q))
    (getShops freiberg noFilters).
Proof.
  exact (proj1 (avgRating_list_equals_detail freiberg noFilters
                  freiberg_ids_unique freiberg_slugs_unique)).
Defined.

End PublicationFacts.

(** ** Reviews *)

Section ReviewFacts.
Import Storage Routes.

Lemma withReviews_same (db : DB) : withReviews db (reviews db) = db.
Proof. destruct db; reflexivity. Qed.

Lemma withUserFavorites_same (db : DB) : withUserFavorites db (userFavorites db) = db.
Proof. destruct db; reflexivity. Qed.

Lemma filter_all {A : Type} (f : A -> bool) (l : list A) :
  (forall x, In x l -> f x = true) -> filter f l = l.
Proof.
  intros H. apply forallb_filter_id. apply forallb_forall. exact H.
Qed.

Lemma filter_nil_none {A : Type} (f : A -> bool) (l : list A) (x : A) :
  filter f l = [] -> In x l -> f x = false.
Proof.
  intros E Hx. destruct (f x) eqn:Hf; [|reflexivity].
  assert (H : In x (filter f l)) by (apply filter_In; split; assumption).
  rewrite E in H. destruct H.
Qed.

Lemma getUserReviewForShop_found (db : DB) (userId shopId : string) :
  hasReviewed db userId shopId ->
  exists r, getUserReviewForShop db userId shopId = Some r.
Proof.
  intros (r & Hin & Hu & Hs). unfold getUserReviewForShop.
  destruct (filter _ (reviews db)) as [|r0 rest] eqn:E.
  - exfalso. apply (filter_nil_none _ _ r E) in Hin.
    rewrite Hu, Hs in Hin. cbn [Sql.eq] in Hin.
    rewrite !String.eqb_refl in Hin. discriminate.
  - exists r0. reflexivity.
Qed.

(** C5: a valid review from a signed-in user who has already reviewed the
    shop is answered 409 and stores nothing; a valid review without a
    session is never checked for duplicates: for an existing shop it is
    answered 201 and stored, whatever reviews the store holds. *)
Theorem postApiReviews_duplicate_check (db : DB) (req : ReviewRequest)
  (data : InsertReview) (uuid : string) (now : timestamp) :
  insertReviewSchema_safeParse (req_body req) = Some data ->
  (forall u,
      req_currentUser req = Some u ->
      hasReviewed db (su_id u) (ir_shopId data) ->
      exists msg, postApiReviews db req uuid now = (ErrorJson 409 msg, db))
  /\ (req_currentUser req = None ->
      shopExists db (ir_shopId data) = true ->
      exists review,
        postApiReviews db req uuid now
        = (Json 201 review, withReviews db (reviews db ++ [review]))
        /\ review_userId review = None
        /\ review_userHash review = orNull (Some (req_userHash req))).
Proof.
  intros Hvalid. unfold postApiReviews. rewrite Hvalid. split.
  - intros u Hu Hdup. rewrite Hu.
    destruct (getUserReviewForShop_found db _ _ Hdup) as (r & ->).
    eexists. reflexivity.
  - intros Hanon Hshop. rewrite Hanon.
    unfold createReview. cbn [cr_data cr_userId cr_userHash cr_isAnonymous option_map].
    cbn [review_shopId review_userId orNull truthyOpt].
    rewrite Hshop. cbn [negb].
    eexists. split; [reflexivity|]. split; reflexivity.
Qed.

Lemma postApiReviews_duplicate_check_witness :
  (exists msg, postApiReviews freiberg aylaRequest "r4" 4000 = (ErrorJson 409 msg, freiberg))
  /\ (exists review,
        postApiReviews freiberg anonymousRequest "r4" 4000
        = (Json 201 review, withReviews freiberg (reviews freiberg ++ [review]))
        /\ review_userId review = None
        /\ review_userHash review = orNull (Some (req_userHash anonymousRequest))).
Proof.
  split.
  - apply (proj1 (postApiReviews_duplicate_check freiberg aylaRequest
                    (mkInsertReview "s1" 4 "Wieder lecker") "r4" 4000 eq_refl)
             (mkSessionUser "u1" "Ayla") eq_refl).
    exists (mkReview "r1" "s1" (Some "u1") 5 "Sehr gut" None None (Some false) (Some false)
              None (Some 1000) (Some 1000)).
    split; [left; reflexivity|]. split; reflexivity.
  - apply (proj2 (postApiReviews_duplicate_check freiberg anonymousRequest
                    (mkInsertReview "s1" 4 "Wieder lecker") "r4" 4000 eq_refl));
      reflexivity.
Defined.

Lemma ownedBy_iff (reviewId userId : string) (r : Review) :
  ownedBy reviewId userId r = true
  <-> review_id r = reviewId /\ review_userId r = Some userId.
Proof.
  unfold ownedBy, Sql.eq. rewrite andb_true_iff, String.eqb_eq.
  destruct (review_userId r) as [u|].
  - rewrite String.eqb_eq. split; intros [H1 H2]; split; congruence.
  - split; intros [_ H]; discriminate.
Qed.

Lemma ownsReview_filter (db : DB) (reviewId ownerId : string) :
  ownsReview db reviewId ownerId
  <-> filter (ownedBy reviewId ownerId) (reviews db) <> [].
Proof.
  unfold ownsReview. split.
  - intros (r & Hin & Hid & Hu) E.
    apply (filter_nil_none _ _ r E) in Hin.
    assert (H : ownedBy reviewId ownerId r = true) by (apply ownedBy_iff; split; assumption).
    congruence.
  - intros H. destruct (filter _ (reviews db)) as [|r rest] eqn:E; [contradiction|].
    assert (Hr : In r (filter (ownedBy reviewId ownerId) (reviews db)))
      by (rewrite E; left; reflexivity).
    apply filter_In in Hr. destruct Hr as [Hin Ho].
    apply ownedBy_iff in Ho. exists r. tauto.
Qed.

(** A statement whose [WHERE] clause matches no row leaves the table as it
    is. *)
Lemma update_no_match (db : DB) (reviewId userId : string) (f : Review -> Review) :
  filter (ownedBy reviewId userId) (reviews db) = [] ->
  withReviews db (map (fun r => if ownedBy reviewId userId r then f r else r) (reviews db))
  = db.
Proof.
  intros E.
  transitivity (withReviews db (reviews db)); [|apply withReviews_same].
  f_equal.
  transitivity (map (fun r : Review => r) (reviews db)); [|apply map_id].
  apply map_ext_in. intros r Hr.
  rewrite (filter_nil_none _ _ r E Hr). reflexivity.
Qed.

Lemma delete_no_match (db : DB) (reviewId userId : string) :
  filter (ownedBy reviewId userId) (reviews db) = [] ->
  withReviews db (filter (fun r => negb (ownedBy reviewId userId r)) (reviews db)) = db.
Proof.
  intros E.
  transitivity (withReviews db (reviews db)); [|apply withReviews_same].
  f_equal.
  apply filter_all. intros r Hr.
  rewrite (filter_nil_none _ _ r E Hr). reflexivity.
Qed.

(** C6: [updateReview] and [deleteReview] succeed exactly when a review
    with the id exists and its [userId] is the caller's; in every other
    case (no such review, another user's review, an anonymous review) both
    throw the one error 'Review not found or unauthorized' and leave the
    table as it is, so the cases cannot be told apart. *)
Theorem review_mutation_needs_owner (db : DB) (reviewId ownerId : string)
  (updates : UpdateReview) (now : timestamp) :
  ((exists r, fst (updateReview db reviewId ownerId updates now) = Ok r)
   <-> ownsReview db reviewId ownerId)
  /\ (fst (deleteReview db reviewId ownerId) = Ok tt <-> ownsReview db reviewId ownerId)
  /\ (~ ownsReview db reviewId ownerId ->
      updateReview db reviewId ownerId updates now = (Throw notFoundOrUnauthorized, db)
      /\ deleteReview db reviewId ownerId = (Throw notFoundOrUnauthorized, db)).
Proof.
  rewrite (ownsReview_filter db reviewId ownerId).
  unfold updateReview, deleteReview.
  destruct (filter (ownedBy reviewId ownerId) (reviews db)) as [|r0 rest] eqn:E.
  - split; [|split].
    + cbn [map fst]. split; [intros (r & H); discriminate|intros H; contradiction].
    + cbn [List.length Nat.eqb fst]. split; [discriminate|intros H; contradiction].
    + intros _. cbn [map List.length Nat.eqb].
      rewrite update_no_match, delete_no_match by exact E. split; reflexivity.
  - split; [|split].
    + cbn [map fst]. split; [intros _; discriminate|intros _; eexists; reflexivity].
    + cbn [List.length Nat.eqb fst]. split; [intros _; discriminate|reflexivity].
    + intros H. exfalso. apply H. discriminate.
Qed.

Lemma not_owner_in_freiberg (reviewId ownerId : string) :
  (forall r, In r (reviews freiberg) -> review_id r = reviewId ->
             review_userId r <> Some ownerId) ->
  ~ ownsReview freiberg reviewId ownerId.
Proof.
  intros H (r & Hin & Hid & Hu). exact (H r Hin Hid Hu).
Defined.

(** Ben on Ayla's review, Ben on the anonymous review and Ben on a review
    that does not exist: one and the same outcome. *)
Lemma review_mutation_needs_owner_witness :
  updateReview freiberg "r1" "u2" (mkUpdateReview (Some 1) None) 5000
  = (Throw notFoundOrUnauthorized, freiberg)
  /\ updateReview freiberg "r2" "u2" (mkUpdateReview (Some 1) None) 5000
     = (Throw notFoundOrUnauthorized, freiberg)
  /\ updateReview freiberg "r9" "u2" (mkUpdateReview (Some 1) None) 5000
     = (Throw notFoundOrUnauthorized, freiberg)
  /\ deleteReview freiberg "r1" "u2" = (Throw notFoundOrUnauthorized, freiberg).
Proof.
  split; [|split; [|split]].
  - apply (proj2 (proj2 (review_mutation_needs_owner freiberg "r1" "u2"
                           (mkUpdateReview (Some 1) None) 5000))).
    apply not_owner_in_freiberg. simpl.
    intros r [<- | [<- | [<- | []]]]; discriminate.
  - apply (proj2 (proj2 (review_mutation_needs_owner freiberg "r2" "u2"
                           (mkUpdateReview (Some 1) None) 5000))).
    apply not_owner_in_freiberg. simpl.
    intros r [<- | [<- | [<- | []]]]; discriminate.
  - apply (proj2 (proj2 (review_mutation_needs_owner freiberg "r9" "u2"
                           (mkUpdateReview (Some 1) None) 5000))).
    apply not_owner_in_freiberg. simpl.
    intros r [<- | [<- | [<- | []]]]; discriminate.
  - apply (proj2 (proj2 (review_mutation_needs_owner freiberg "r1" "u2"
                           (mkUpdateReview (Some 1) None) 5000))).
    apply not_owner_in_freiberg. simpl.
    intros r [<- | [<- | [<- | []]]]; discriminate.
Defined.

(** C10: what [createReview] stores as [authorName] depends on the identity
    alone: null with a user id, 'Anonymer Nutzer' without; the [authorName]
    the caller passes changes nothing at all.  The call stores the review
    whenever the shop, and the user if there is one, exist. *)
Theorem createReview_authorName_by_identity (db : DB) (review : CreateReview)
  (uuid : string) (now : timestamp) :
  (forall name,
      createReview db (withAuthorName review name) uuid now
      = createReview db review uuid now)
  /\ (forall stored db',
        createReview db review uuid now = (Ok stored, db') ->
        review_authorName stored
        = if truthyOpt (cr_userId review) then None else Some "Anonymer Nutzer")
  /\ (shopExists db (ir_shopId (cr_data review)) = true ->
      match orNull (cr_userId review) with
      | Some u => userExists db u = true
      | None => True
      end ->
      exists stored,
        createReview db review uuid now
        = (Ok stored, withReviews db (reviews db ++ [stored]))).
Proof.
  split; [reflexivity|]. split.
  - intros stored db'. unfold createReview.
    cbn [review_shopId review_userId].
    destruct (negb (shopExists db (ir_shopId (cr_data review)))); [discriminate|].
    destruct (match orNull (cr_userId review) with
              | Some u => negb (userExists db u)
              | None => false
              end); [discriminate|].
    intros H. inversion H. reflexivity.
  - intros Hshop Huser. unfold createReview.
    cbn [review_shopId review_userId].
    rewrite Hshop. cbn [negb].
    destruct (orNull (cr_userId review)) as [u|].
    + rewrite Huser. cbn [negb]. eexists. reflexivity.
    + eexists. reflexivity.
Qed.

(** Ayla's review of the second shop, as the route would hand it over: the
    stored name is null, not "Ayla". *)
Lemma createReview_authorName_by_identity_witness :
  exists stored,
    createReview freiberg
      (mkCreateReview (mkInsertReview "s2" 3 "Geht so") (Some "Ayla") (Some "u1") None
         (Some false))
      "r4" 4000
    = (Ok stored, withReviews freiberg (reviews freiberg ++ [stored]))
    /\ review_authorName stored = None.
Proof.
  destruct (proj2 (proj2 (createReview_authorName_by_identity freiberg
                            (mkCreateReview (mkInsertReview "s2" 3 "Geht so") (Some "Ayla")
                               (Some "u1") None (Some false))
                            "r4" 4000)) eq_refl eq_refl) as (stored & H).
  exists stored. split; [exact H|].
  exact (proj1 (proj2 (createReview_authorName_by_identity freiberg
                         (mkCreateReview (mkInsertReview "s2" 3 "Geht so") (Some "Ayla")
                            (Some "u1") None (Some false))
                         "r4" 4000)) stored _ H).
Defined.

(** What [updateReview] returns: the owner's review, marked as edited at
    the time of the call, or the one error. *)
Theorem updateReview_marks_edited (db : DB) (reviewId ownerId : string)
  (updates : UpdateReview) (now : timestamp) :
  match fst (updateReview db reviewId ownerId updates now) with
  | Ok r =>
      review_id r = reviewId /\ review_userId r = Some ownerId
      /\ review_isEdited r = Some true /\ review_editedAt r = Some now
  | Throw e => e = notFoundOrUnauthorized
  end.
Proof.
  unfold updateReview.
  destruct (filter (ownedBy reviewId ownerId) (reviews db)) as [|r0 rest] eqn:E;
    cbn [map fst]; [reflexivity|].
  assert (H0 : In r0 (filter (ownedBy reviewId ownerId) (reviews db)))
    by (rewrite E; left; reflexivity).
  apply filter_In in H0. destruct H0 as [_ Ho].
  apply ownedBy_iff in Ho. destruct Ho as [Hid Hu].
  cbn [setUpdates review_id review_userId review_isEdited review_editedAt].
  repeat split; assumption.
Qed.

(** What the route stores as [authorName]: never the session user's name. *)
Theorem postApiReviews_discards_user_name (db : DB) (req : ReviewRequest)
  (uuid : string) (now : timestamp) :
  match fst (postApiReviews db req uuid now) with
  | Json _ review =>
      review_authorName review
      = match req_currentUser req with
        | Some u => if truthy (su_id u) then None else Some "Anonymer Nutzer"
        | None => Some "Anonymer Nutzer"
        end
  | ErrorJson _ _ => True
  end.
Proof.
  unfold postApiReviews.
  destruct (insertReviewSchema_safeParse (req_body req)) as [data|]; [|exact I].
  destruct (match req_currentUser req with
            | Some u => getUserReviewForShop db (su_id u) (ir_shopId data)
            | None => None
            end); [exact I|].
  unfold createReview.
  cbn [cr_data cr_userId cr_userHash cr_isAnonymous review_shopId review_userId].
  destruct (negb (shopExists db (ir_shopId data))); [exact I|].
  destruct (match orNull (option_map su_id (req_currentUser req)) with
            | Some u => negb (userExists db u)
            | None => false
            end); [exact I|].
  cbn [fst review_authorName].
  destruct (req_currentUser req) as [u|]; reflexivity.
Qed.

Lemma reviewsBy_append (db : DB) (r : Review) (userId shopId : string) :
  reviewsBy (withReviews db (reviews db ++ [r])) userId shopId
  = reviewsBy db userId shopId
    ++ (if Sql.eq (review_userId r) (Some userId) && String.eqb (review_shopId r) shopId
        then [r] else []).
Proof.
  unfold reviewsBy. cbn [reviews withReviews].
  rewrite filter_app. reflexivity.
Qed.

(** [POST /api/reviews] keeps the invariant of one review per user and
    shop, one request after the other. *)
Theorem postApiReviews_keeps_one_review (db : DB) (req : ReviewRequest)
  (uuid : string) (now : timestamp) :
  oneReviewPerUserAndShop db ->
  oneReviewPerUserAndShop (snd (postApiReviews db req uuid now)).
Proof.
  intros Hinv. unfold postApiReviews.
  destruct (insertReviewSchema_safeParse (req_body req)) as [data|]; [|exact Hinv].
  destruct (match req_currentUser req with
            | Some u => getUserReviewForShop db (su_id u) (ir_shopId data)
            | None => None
            end) eqn:Hdup; [exact Hinv|].
  unfold createReview.
  cbn [cr_data cr_userId cr_userHash cr_isAnonymous review_shopId review_userId].
  destruct (negb (shopExists db (ir_shopId data))); [exact Hinv|].
  destruct (match orNull (option_map su_id (req_currentUser req)) with
            | Some u => negb (userExists db u)
            | None => false
            end); [exact Hinv|].
  cbn [snd]. intros userId shopId.
  rewrite reviewsBy_append. cbn [review_userId review_shopId].
  destruct (Sql.eq (orNull (option_map su_id (req_currentUser req))) (Some userId)
            && String.eqb (ir_shopId data) shopId) eqn:Hnew.
  - apply andb_prop in Hnew. destruct Hnew as [Hu Hs].
    apply String.eqb_eq in Hs. subst shopId.
    destruct (req_currentUser req) as [u|];
      unfold orNull, truthyOpt in Hu; cbn [option_map] in Hu; [|discriminate].
    revert Hu. destruct (truthy (su_id u)); cbn [Sql.eq]; intros Hu; [|discriminate].
    apply String.eqb_eq in Hu. subst userId.
    unfold getUserReviewForShop in Hdup. unfold reviewsBy.
    destruct (filter _ (reviews db)); [|discriminate].
    cbn [List.length app]. lia.
  - rewrite app_nil_r. apply Hinv.
Qed.

Lemma freiberg_one_review : oneReviewPerUserAndShop freiberg.
Proof.
  intros userId shopId. unfold reviewsBy. cbn [reviews freiberg filter].
  cbn [review_userId review_shopId Sql.eq andb].
  destruct (String.eqb "u1" userId) eqn:E1, (String.eqb "u2" userId) eqn:E2;
    destruct (String.eqb "s1" shopId) eqn:S1, (String.eqb "s2" shopId) eqn:S2;
    cbn [andb List.length]; try lia.
  all: apply String.eqb_eq in E1; apply String.eqb_eq in E2; congruence.
Defined.

Lemma postApiReviews_keeps_one_review_witness :
  oneReviewPerUserAndShop (snd (postApiReviews freiberg anonymousRequest "r4" 4000)).
Proof.
  exact (postApiReviews_keeps_one_review freiberg anonymousRequest "r4" 4000
           freiberg_one_review).
Defined.

End ReviewFacts.

(** ** Favourites *)

Section FavoriteFacts.
Import Storage.

Lemma isFavorite_new (userId shopId uuid : string) (now : option timestamp) :
  isFavorite userId shopId (mkUserFavorite uuid userId shopId now) = true.
Proof.
  unfold isFavorite. cbn [fav_userId fav_shopId].
  rewrite !String.eqb_refl. reflexivity.
Qed.

(** C7: [addUserFavorite] on a pair that has a favourite returns the first
    such record and changes nothing; a second call after a successful first
    one returns the same record and changes nothing, so a pair with at most
    one favourite has exactly one after the two calls (the first call
    succeeds whenever user and shop exist); and [removeUserFavorite] always
    succeeds, leaving the store as it is when the pair has no favourite. *)
Theorem addUserFavorite_idempotent (db : DB) (userId shopId : string)
  (uuid uuid' : string) (now now' : timestamp) :
  (forall existing rest,
      favoritesOf db userId shopId = existing :: rest ->
      addUserFavorite db userId shopId uuid now = (Ok existing, db))
  /\ (forall favorite db1,
        addUserFavorite db userId shopId uuid now = (Ok favorite, db1) ->
        addUserFavorite db1 userId shopId uuid' now' = (Ok favorite, db1)
        /\ List.length (favoritesOf db1 userId shopId)
           = Nat.max 1 (List.length (favoritesOf db userId shopId)))
  /\ (userExists db userId = true -> shopExists db shopId = true ->
      exists favorite db1,
        addUserFavorite db userId shopId uuid now = (Ok favorite, db1))
  /\ fst (removeUserFavorite db userId shopId) = Ok tt
  /\ (favoritesOf db userId shopId = [] ->
      removeUserFavorite db userId shopId = (Ok tt, db)).
Proof.
  unfold favoritesOf. split; [|split; [|split; [|split]]].
  - intros existing rest E. unfold addUserFavorite. rewrite E. reflexivity.
  - intros favorite db1. unfold addUserFavorite at 1.
    destruct (filter (isFavorite userId shopId) (userFavorites db))
      as [|first rest] eqn:E.
    + destruct (negb (userExists db userId)); [discriminate|].
      destruct (negb (shopExists db shopId)); [discriminate|].
      intros H. inversion H; subst favorite db1. clear H.
      unfold addUserFavorite. cbn [userFavorites withUserFavorites].
      rewrite filter_app, E. cbn [filter app].
      rewrite isFavorite_new. split; reflexivity.
    + intros H. inversion H; subst favorite db1. clear H.
      unfold addUserFavorite. rewrite E. split; [reflexivity|].
      cbn [List.length]. lia.
  - intros Hu Hs. unfold addUserFavorite.
    destruct (filter (isFavorite userId shopId) (userFavorites db)) as [|first rest].
    + rewrite Hu, Hs. cbn [negb]. eexists. eexists. reflexivity.
    + eexists. eexists. reflexivity.
  - reflexivity.
  - intros E. unfold removeUserFavorite. f_equal.
    transitivity (withUserFavorites db (userFavorites db));
      [|apply withUserFavorites_same].
    f_equal. apply filter_all. intros f Hf.
    rewrite (filter_nil_none _ _ f E Hf). reflexivity.
Qed.

(** Ayla adds the first shop, which she has, and the second, which she has
    not, twice each; Ben removes a favourite he never had. *)
Lemma addUserFavorite_idempotent_witness :
  addUserFavorite freiberg "u1" "s1" "f2" 6000
  = (Ok (mkUserFavorite "f1" "u1" "s1" (Some 1500)), freiberg)
  /\ (let db1 := snd (addUserFavorite freiberg "u1" "s2" "f2" 6000) in
      addUserFavorite db1 "u1" "s2" "f3" 7000
      = (Ok (mkUserFavorite "f2" "u1" "s2" (Some 6000)), db1)
      /\ List.length (favoritesOf db1 "u1" "s2") = 1%nat)
  /\ removeUserFavorite freiberg "u2" "s1" = (Ok tt, freiberg).
Proof.
  split; [|split].
  - apply (proj1 (addUserFavorite_idempotent freiberg "u1" "s1" "f2" "f3" 6000 7000)
             (mkUserFavorite "f1" "u1" "s1" (Some 1500)) []).
    reflexivity.
  - cbv zeta.
    apply (proj1 (proj2 (addUserFavorite_idempotent freiberg "u1" "s2" "f2" "f3" 6000 7000))
             (mkUserFavorite "f2" "u1" "s2" (Some 6000))
             (snd (addUserFavorite freiberg "u1" "s2" "f2" 6000))).
    reflexivity.
  - apply (proj2 (proj2 (proj2 (proj2 (addUserFavorite_idempotent freiberg "u2" "s1"
                                         "f2" "f3" 6000 7000))))).
    reflexivity.
Defined.

End FavoriteFacts.

(** ** Radius and distance order *)

Section DistanceOrderFacts.
Import Storage.

(** The spec's "filter monotonicity": a radius never adds a row to what is
    filtered and sorted. *)
Theorem radius_never_adds (db : DB) (filters : Filters) (r : number) :
  (List.length (fullResult db (withRadius filters (Some r)))
   <= List.length (fullResult db (withRadius filters None)))%nat.
Proof.
  unfold fullResult. rewrite !length_map.
  unfold queryResult. cbn [lat lng radius withRadius].
  destruct (lat filters) as [lat0|]; [|apply Nat.le_refl].
  destruct (lng filters) as [lng0|]; [|apply Nat.le_refl].
  rewrite !length_map.
  change (sortByIs (withRadius filters (Some r)) "distance")
    with (sortByIs filters "distance").
  change (sortByIs (withRadius filters None) "distance")
    with (sortByIs filters "distance").
  change (baseQuery db (withRadius filters (Some r))) with (baseQuery db filters).
  change (baseQuery db (withRadius filters None)) with (baseQuery db filters).
  destruct (sortByIs filters "distance").
  - unfold Array_sort. rewrite !stableSort_length. apply filter_length_le.
  - apply filter_length_le.
Qed.

Section SortedByKey.
Context {A : Type} (key : A -> number).

Let byKey (a b : A) : number := num_sub (key a) (key b).

Lemma insert_keeps_order (x : A) (l : list A) :
  isDouble (key x) ->
  Forall (fun a => isDouble (key a)) l ->
  nonDecreasing (map key l) ->
  nonDecreasing (map key (insertSorted (fun a b => negb (num_lt (Int 0) (byKey a b))) x l)).
Proof.
  intros Hx Hall. induction Hall as [|y l Hy Hall IH]; intros Hl.
  - cbn [insertSorted map nonDecreasing].
    destruct (key x); [destruct Hx|]. auto.
  - cbn [map nonDecreasing] in Hl. destruct Hl as (_ & Hhead & Hrest).
    specialize (IH Hrest).
    cbn [insertSorted]. unfold byKey at 1.
    destruct (key x) as [|kx] eqn:Ex; [destruct Hx|].
    destruct (key y) as [|ky] eqn:Ey; [destruct Hy|].
    cbn [isDouble] in Hx, Hy.
    rewrite (num_sub_positive kx ky Hx Hy).
    destruct (ky <? kx) eqn:E; cbn [negb].
    + cbn [map nonDecreasing]. rewrite Ey.
      split; [reflexivity|]. split; [|exact IH].
      destruct l as [|z l].
      * cbn [insertSorted map]. rewrite Ex.
        cbn [num_le]. apply Z.leb_le. apply Z.ltb_lt in E. lia.
      * cbn [insertSorted].
        match goal with |- context [if ?c then _ else _] => destruct c end; cbn [map].
        -- rewrite Ex. cbn [num_le]. apply Z.leb_le. apply Z.ltb_lt in E. lia.
        -- exact Hhead.
    + cbn [map nonDecreasing]. rewrite Ex, Ey.
      split; [reflexivity|]. split.
      * cbn [num_le]. apply Z.leb_le. apply Z.ltb_ge in E. lia.
      * split; [reflexivity|]. split; assumption.
Qed.

Lemma Array_sort_keeps_order (l : list A) :
  Forall (fun a => isDouble (key a)) l ->
  nonDecreasing (map key (Array_sort byKey l)).
Proof.
  unfold Array_sort, stableSort.
  induction 1 as [|x l Hx Hall IH]; [exact I|].
  cbn [fold_right]. apply insert_keeps_order; [exact Hx| |exact IH].
  apply Forall_forall. intros y Hy.
  apply (stableSort_In (fun a b => negb (num_lt (Int 0) (byKey a b))) y l) in Hy.
  revert y Hy. apply Forall_forall. exact Hall.
Qed.

End SortedByKey.

Lemma Forall_filter {A : Type} (P : A -> Prop) (f : A -> bool) (l : list A) :
  Forall P l -> Forall P (filter f l).
Proof.
  intros H. apply Forall_forall. intros x Hx.
  apply filter_In in Hx. destruct Hx as [Hx _].
  revert x Hx. apply Forall_forall. exact H.
Qed.

(** With a reference point and the distance sort, the rows before the page
    are in distance order as soon as no distance is [NaN]. *)
Lemma queryResult_by_distance (db : DB) (filters : Filters) (lat0 lng0 : real) :
  lat filters = Some lat0 ->
  lng filters = Some lng0 ->
  sortByIs filters "distance" = true ->
  Forall (fun item => isNaN (distanceFrom lat0 lng0 (item_shop item)) = false)
         (baseQuery db filters) ->
  nonDecreasing (distancesOf (queryResult db filters)).
Proof.
  intros Hlat Hlng Hsort Hfin.
  unfold queryResult, distancesOf. rewrite Hlat, Hlng, Hsort.
  rewrite map_map. cbn [item_distance].
  apply (Array_sort_keeps_order (@snd Item number)).
  assert (Hall : Forall (fun p : Item * number => isDouble (snd p))
                   (map (fun item =>
                           (item,
                            calculateDistance lat0 lng0
                              (parseFloat (shop_lat (item_shop item)))
                              (parseFloat (shop_lng (item_shop item)))))
                        (baseQuery db filters))).
  { apply Forall_forall. intros p Hp.
    apply in_map_iff in Hp. destruct Hp as (item & <- & Hi).
    cbn [snd]. apply calculateDistance_isDouble.
    revert item Hi. apply Forall_forall. exact Hfin. }
  destruct (radius filters); [apply Forall_filter|]; exact Hall.
Qed.

(** The spec's "distance-sort override": with a reference point and
    [sortBy = distance], the result is in non-decreasing order of distance,
    whatever prices and ratings are, as long as no distance is [NaN]. *)
Theorem distance_sort_orders_result (db : DB) (filters : Filters) (lat0 lng0 : real) :
  lat filters = Some lat0 ->
  lng filters = Some lng0 ->
  sortByIs filters "distance" = true ->
  Forall (fun item => isNaN (distanceFrom lat0 lng0 (item_shop item)) = false)
         (baseQuery db filters) ->
  nonDecreasing (distancesOf (queryResult db filters)).
Proof.
  intros Hlat Hlng Hsort Hfin.
  apply (queryResult_by_distance db filters lat0 lng0); assumption.
Qed.

(** The two shops on the equator come out nearest first, the reverse of
    their stored order, 0 m and more than a meter away. *)
Lemma distance_sort_orders_result_witness :
  nonDecreasing (distancesOf (queryResult equator fromNear))
  /\ map (fun item => shop_id (item_shop item)) (queryResult equator fromNear)
     = ["near"; "far"]
  /\ exists k, 0 < k /\ distancesOf (queryResult equator fromNear) = [Int 0; Int k].
Proof.
  destruct far_side_of_the_globe as (k & Hk & Hfar).
  pose proof (calculateDistance_range (Fin 0) (Fin 0) (Fin 0) (Fin 180)) as Hrange.
  rewrite Hfar in Hrange.
  assert (Hnear : calculateDistance (Fin 0) (Fin 0) (Fin 0) (Fin 0) = Int 0)
    by (rewrite calculateDistance_Fin; apply zero_meters_to_itself).
  assert (Hbase : baseQuery equator fromNear
                  = [ selectColumns (mkShop "far" "Fern" "fern" "0" "180" "Quito" (Some 2)
                                       (Some false) (Some false) (Some true) (Some false)
                                       (Some false), [None]);
                      selectColumns (mkShop "near" "Nah" "nah" "0" "0" "Quito" (Some 1)
                                       (Some false) (Some false) (Some true) (Some false)
                                       (Some false), [None]) ])
    by reflexivity.
  split.
  - apply (distance_sort_orders_result equator fromNear (parseFloat "0") (parseFloat "0"));
      try reflexivity.
    rewrite Hbase.
    constructor; [|constructor; [|constructor]]; unfold distanceFrom;
      cbn [item_shop selectColumns fst shop_lat shop_lng];
      rewrite ?parseFloat_zero, ?parseFloat_180, ?Hfar, ?Hnear; reflexivity.
  - assert (Hq : queryResult equator fromNear
                 = map (fun item : Item * number =>
                          {| item_shop := item_shop (fst item);
                             item_avgRating := item_avgRating (fst item);
                             item_reviewCount := item_reviewCount (fst item);
                             item_distance := Some (snd item) |})
                     (Array_sort (fun a b : Item * number => num_sub (snd a) (snd b))
                        (map (fun item =>
                                (item, distanceFrom (parseFloat "0") (parseFloat "0")
                                         (item_shop item)))
                           (baseQuery equator fromNear))))
      by reflexivity.
    rewrite Hq, Hbase. unfold distanceFrom.
    cbn [map item_shop selectColumns fst shop_lat shop_lng].
    rewrite parseFloat_zero, parseFloat_180, Hfar, Hnear.
    unfold Array_sort, stableSort. cbn [fold_right insertSorted snd].
    pose proof infinity_pos as Hinf.
    rewrite (num_sub_positive k 0) by lia.
    assert (E : (0 <? k) = true) by (apply Z.ltb_lt; exact Hk).
    rewrite E. cbn [negb map fst snd item_shop shop_id].
    split; [reflexivity|].
    exists k. split; [exact Hk|]. reflexivity.
Defined.

End DistanceOrderFacts.

(** ** Favourites: queries after changes *)

Section FavoriteQueryFacts.
Import Storage.

Lemma isShopFavorited_existsb (db : DB) (u s : string) :
  isShopFavorited db u s = existsb (isFavorite u s) (userFavorites db).
Proof.
  unfold isShopFavorited.
  induction (userFavorites db) as [|f l IH]; [reflexivity|].
  cbn [filter existsb]. destruct (isFavorite u s f); [reflexivity|exact IH].
Qed.

Lemma isFavorite_pair (u s u' s' : string) (f : UserFavorite) :
  isFavorite u s f = true ->
  isFavorite u' s' f = String.eqb u' u && String.eqb s' s.
Proof.
  unfold isFavorite. rewrite andb_true_iff, !String.eqb_eq.
  intros [-> ->].
  rewrite (String.eqb_sym u' u), (String.eqb_sym s' s). reflexivity.
Qed.

(** [removeUserFavorite] takes the pair it is given out of the favourites
    and no other: afterwards [isShopFavorited] is false for that pair and
    as before for every other user or shop. *)
Theorem removeUserFavorite_only_that_pair (db : DB) (u s u' s' : string) :
  isShopFavorited (snd (removeUserFavorite db u s)) u' s'
  = isShopFavorited db u' s' && negb (String.eqb u' u && String.eqb s' s).
Proof.
  rewrite !isShopFavorited_existsb. cbn [removeUserFavorite snd withUserFavorites userFavorites].
  induction (userFavorites db) as [|f l IH]; [reflexivity|].
  cbn [filter existsb].
  destruct (isFavorite u s f) eqn:E; cbn [negb existsb].
  - rewrite IH. rewrite (isFavorite_pair u s u' s' f E).
    destruct (String.eqb u' u && String.eqb s' s); cbn [negb orb andb];
      [rewrite andb_false_r|rewrite andb_true_r]; reflexivity.
  - rewrite IH.
    destruct (isFavorite u' s' f) eqn:E'; cbn [orb andb]; [|reflexivity].
    pose proof (isFavorite_pair u' s' u s f E') as Hp. rewrite E in Hp.
    rewrite (String.eqb_sym u' u), (String.eqb_sym s' s), <- Hp. reflexivity.
Qed.

(** [addUserFavorite] either fails and leaves the store as it is, or makes
    [isShopFavorited] true for its pair and changes it for no other. *)
Theorem addUserFavorite_only_that_pair (db : DB) (u s uuid : string) (now : timestamp)
  (u' s' : string) :
  match addUserFavorite db u s uuid now with
  | (Ok _, db') =>
      isShopFavorited db' u' s'
      = isShopFavorited db u' s' || (String.eqb u' u && String.eqb s' s)
  | (Throw _, db') => db' = db
  end.
Proof.
  unfold addUserFavorite.
  destruct (filter (isFavorite u s) (userFavorites db)) as [|first rest] eqn:Ef.
  - destruct (userExists db u); cbn [negb]; [|reflexivity].
    destruct (shopExists db s); cbn [negb]; [|reflexivity].
    rewrite !isShopFavorited_existsb. cbn [withUserFavorites userFavorites].
    rewrite existsb_app. cbn [existsb]. rewrite orb_false_r.
    f_equal. unfold isFavorite. cbn [fav_userId fav_shopId].
    rewrite (String.eqb_sym u u'), (String.eqb_sym s s'). reflexivity.
  - assert (Hin : In first (filter (isFavorite u s) (userFavorites db)))
      by (rewrite Ef; left; reflexivity).
    apply filter_In in Hin. destruct Hin as [Hin Hfav].
    rewrite !isShopFavorited_existsb.
    destruct (String.eqb u' u && String.eqb s' s) eqn:E.
    + rewrite orb_true_r. apply existsb_exists. exists first. split; [exact Hin|].
      rewrite (isFavorite_pair u s u' s' first Hfav). exact E.
    + rewrite orb_false_r. reflexivity.
Qed.

(** The two favourite queries agree: a shop id is in
    [getUserFavoriteShopIds] of a user exactly when [isShopFavorited] holds
    for the user and the shop. *)
Theorem getUserFavoriteShopIds_iff_favorited (db : DB) (u s : string) :
  In s (getUserFavoriteShopIds db u) <-> isShopFavorited db u s = true.
Proof.
  rewrite isShopFavorited_existsb. unfold getUserFavoriteShopIds.
  rewrite in_map_iff, existsb_exists. unfold isFavorite.
  split.
  - intros (f & Hs & Hf). apply filter_In in Hf. destruct Hf as [Hin Hu].
    exists f. split; [exact Hin|]. rewrite Hu, Hs. apply String.eqb_refl.
  - intros (f & Hin & Hf). apply andb_true_iff in Hf. destruct Hf as [Hu Hs].
    exists f. split; [apply String.eqb_eq; exact Hs|].
    apply filter_In. split; assumption.
Qed.

End FavoriteQueryFacts.

(** ** Foreign keys and the cascade of [deleteShop] *)

Section ForeignKeyFacts.
Import Storage.

Lemma foreignKeysHold_spec (db : DB) :
  foreignKeysHold db = true <->
  (forall h, In h (openingHours db) -> shopExists db (oh_shopId h) = true)
  /\ (forall r, In r (reviews db) ->
        shopExists db (review_shopId r) = true
        /\ forall u, review_userId r = Some u -> userExists db u = true)
  /\ (forall p, In p (photos db) -> shopExists db (photo_shopId p) = true)
  /\ (forall f, In f (userFavorites db) ->
        userExists db (fav_userId f) = true /\ shopExists db (fav_shopId f) = true).
Proof.
  unfold foreignKeysHold. rewrite !andb_true_iff, !forallb_forall.
  split.
  - intros [[[Hh Hr] Hp] Hf].
    split; [exact Hh|]. split; [|split; [exact Hp|]].
    + intros r Hin. specialize (Hr r Hin). apply andb_true_iff in Hr.
      destruct Hr as [H1 H2]. split; [exact H1|].
      intros u Hu. rewrite Hu in H2. exact H2.
    + intros f Hin. specialize (Hf f Hin). apply andb_true_iff in Hf. exact Hf.
  - intros (Hh & Hr & Hp & Hf).
    split; [split; [split; [exact Hh|]|exact Hp]|].
    + intros r Hin. destruct (Hr r Hin) as [H1 H2]. apply andb_true_iff.
      split; [exact H1|]. destruct (review_userId r) as [u|]; [|reflexivity].
      apply H2. reflexivity.
    + intros f Hin. apply andb_true_iff. apply Hf. exact Hin.
Qed.

(** A store with the same users and shops whose dependent rows all pass
    the checks keeps its foreign keys. *)
Lemma foreignKeys_same_parents (db db' : DB) :
  users db' = users db ->
  shops db' = shops db ->
  (forall h, In h (openingHours db') -> shopExists db (oh_shopId h) = true) ->
  (forall r, In r (reviews db') ->
     shopExists db (review_shopId r) = true
     /\ forall u, review_userId r = Some u -> userExists db u = true) ->
  (forall p, In p (photos db') -> shopExists db (photo_shopId p) = true) ->
  (forall f, In f (userFavorites db') ->
     userExists db (fav_userId f) = true /\ shopExists db (fav_shopId f) = true) ->
  foreignKeysHold db' = true.
Proof.
  intros Hu Hs Hh Hr Hp Hf. apply foreignKeysHold_spec.
  unfold shopExists, userExists in *. rewrite Hu, Hs.
  split; [exact Hh|]. split; [exact Hr|]. split; [exact Hp|exact Hf].
Qed.

Lemma existsb_filter_other {A : Type} (key : A -> string) (x id : string) (l : list A) :
  existsb (fun a => String.eqb (key a) x)
          (filter (fun a => negb (String.eqb (key a) id)) l)
  = existsb (fun a => String.eqb (key a) x) l && negb (String.eqb x id).
Proof.
  induction l as [|a l IH]; [reflexivity|].
  cbn [filter existsb].
  destruct (String.eqb (key a) id) eqn:Eid; cbn [negb existsb].
  - rewrite IH. apply String.eqb_eq in Eid. rewrite Eid.
    rewrite (String.eqb_sym id x).
    destruct (String.eqb x id); cbn [negb orb]; [|reflexivity].
    rewrite !andb_false_r. reflexivity.
  - rewrite IH.
    destruct (String.eqb (key a) x) eqn:Ex; cbn [orb]; [|reflexivity].
    apply String.eqb_eq in Ex. rewrite <- Ex, Eid. reflexivity.
Qed.

Lemma filter_of_others {A : Type} (key : A -> string) (x id : string) (l : list A) :
  filter (fun a => String.eqb (key a) x)
         (filter (fun a => negb (String.eqb (key a) id)) l)
  = if String.eqb x id then [] else filter (fun a => String.eqb (key a) x) l.
Proof.
  induction l as [|a l IH]; [destruct (String.eqb x id); reflexivity|].
  cbn [filter].
  destruct (String.eqb (key a) id) eqn:Eid; cbn [negb filter].
  - rewrite IH. destruct (String.eqb x id) eqn:Ex; [reflexivity|].
    apply String.eqb_eq in Eid. rewrite Eid, (String.eqb_sym id x), Ex. reflexivity.
  - rewrite IH. destruct (String.eqb x id) eqn:Ex; [|reflexivity].
    apply String.eqb_eq in Ex. rewrite Ex, Eid. reflexivity.
Qed.

(** With the foreign keys in place, [deleteShop] is the filter of every
    table, whether the shop exists or not. *)
Lemma deleteShop_tables (db : DB) (id : string) :
  foreignKeysHold db = true ->
  deleteShop db id
  = {| users := users db;
       shops := filter (fun s => negb (String.eqb (shop_id s) id)) (shops db);
       openingHours :=
         filter (fun h => negb (String.eqb (oh_shopId h) id)) (openingHours db);
       reviews := filter (fun r => negb (String.eqb (review_shopId r) id)) (reviews db);
       photos := filter (fun p => negb (String.eqb (photo_shopId p) id)) (photos db);
       userFavorites :=
         filter (fun f => negb (String.eqb (fav_shopId f) id)) (userFavorites db) |}.
Proof.
  intros Hfk. unfold deleteShop.
  destruct (filter (fun s => String.eqb (shop_id s) id) (shops db)) eqn:E; [|reflexivity].
  apply foreignKeysHold_spec in Hfk. destruct Hfk as (Hh & Hr & Hp & Hf).
  assert (Hno : forall x, shopExists db x = true -> negb (String.eqb x id) = true).
  { intros x Hx. unfold shopExists in Hx. apply existsb_exists in Hx.
    destruct Hx as (s & Hin & Hs). apply String.eqb_eq in Hs. subst x.
    rewrite (filter_nil_none _ _ s E Hin). reflexivity. }
  rewrite (filter_all (fun s => negb (String.eqb (shop_id s) id)) (shops db)).
  2:{ intros s Hin. rewrite (filter_nil_none _ _ s E Hin). reflexivity. }
  rewrite (filter_all _ (openingHours db)) by (intros h Hin; apply Hno, Hh, Hin).
  rewrite (filter_all _ (reviews db)) by (intros r Hin; apply Hno, Hr, Hin).
  rewrite (filter_all _ (photos db)) by (intros p Hin; apply Hno, Hp, Hin).
  rewrite (filter_all _ (userFavorites db)) by (intros f Hin; apply Hno, Hf, Hin).
  destruct db; reflexivity.
Qed.

Lemma isShopFavorited_filter (db : DB) (u s : string) :
  isShopFavorited db u s
  = existsb (fun f => String.eqb (fav_userId f) u)
            (filter (fun f => String.eqb (fav_shopId f) s) (userFavorites db)).
Proof.
  unfold isShopFavorited, isFavorite.
  induction (userFavorites db) as [|f l IH]; [reflexivity|].
  cbn [filter].
  destruct (String.eqb (fav_shopId f) s); cbn [existsb];
    destruct (String.eqb (fav_userId f) u); cbn [andb orb]; try exact IH; reflexivity.
Qed.

(** [deleteShop], in a store whose foreign keys hold, leaves nothing of the
    shop behind (no row, no opening hours, review, photo or favourite) and
    touches nothing of any other shop. *)
Theorem deleteShop_cascades (db : DB) (id other : string) :
  foreignKeysHold db = true ->
  let db' := deleteShop db id in
  (shopExists db' id = false
   /\ hoursOfShop db' id = [] /\ reviewsOfShop db' id = [] /\ photosOfShop db' id = []
   /\ forall u, isShopFavorited db' u id = false)
  /\ (other <> id ->
      shopExists db' other = shopExists db other
      /\ hoursOfShop db' other = hoursOfShop db other
      /\ reviewsOfShop db' other = reviewsOfShop db other
      /\ photosOfShop db' other = photosOfShop db other
      /\ forall u, isShopFavorited db' u other = isShopFavorited db u other).
Proof.
  intros Hfk db'. subst db'. rewrite (deleteShop_tables db id Hfk).
  unfold shopExists, hoursOfShop, reviewsOfShop, photosOfShop.
  cbn [shops openingHours reviews photos].
  split.
  - rewrite existsb_filter_other, !filter_of_others, String.eqb_refl.
    split; [apply andb_false_r|]. split; [reflexivity|]. split; [reflexivity|].
    split; [reflexivity|].
    intros u. rewrite isShopFavorited_filter. cbn [userFavorites].
    rewrite filter_of_others, String.eqb_refl. reflexivity.
  - intros Hne. apply String.eqb_neq in Hne.
    rewrite existsb_filter_other, !filter_of_others, Hne.
    split; [apply andb_true_r|]. split; [reflexivity|]. split; [reflexivity|].
    split; [reflexivity|].
    intros u. rewrite !isShopFavorited_filter. cbn [userFavorites].
    rewrite filter_of_others, Hne. reflexivity.
Qed.

Lemma deleteShop_cascades_witness :
  reviewsOfShop (deleteShop freiberg "s1") "s1" = []
  /\ reviewsOfShop (deleteShop freiberg "s1") "s2" = reviewsOfShop freiberg "s2".
Proof.
  destruct (deleteShop_cascades freiberg "s1" "s2" eq_refl) as [Hgone Hkept].
  split.
  - apply Hgone.
  - apply Hkept. discriminate.
Defined.

Lemma createReview_keeps_keys (db : DB) (review : CreateReview) (uuid : string)
  (now : timestamp) :
  foreignKeysHold db = true ->
  foreignKeysHold (snd (createReview db review uuid now)) = true.
Proof.
  intros Hfk. pose proof Hfk as H0. apply foreignKeysHold_spec in H0.
  destruct H0 as (Hh & Hr & Hp & Hf).
  unfold createReview. cbv zeta. cbn [review_shopId review_userId].
  destruct (shopExists db (ir_shopId (cr_data review))) eqn:Es; cbn [negb snd];
    [|exact Hfk].
  match goal with |- context [if ?c then _ else _] => destruct c eqn:Eu end; cbn [snd];
    [exact Hfk|].
  apply (foreignKeys_same_parents db); try reflexivity;
    cbn [withReviews openingHours reviews photos userFavorites]; try assumption.
  intros r Hin. apply in_app_or in Hin. destruct Hin as [Hin|[<-|[]]]; [apply Hr, Hin|].
  cbn [review_shopId review_userId]. split; [exact Es|].
  intros u Hu. rewrite Hu in Eu. apply negb_false_iff in Eu. exact Eu.
Qed.

Lemma updateReview_keeps_keys (db : DB) (reviewId userId : string) (updates : UpdateReview)
  (now : timestamp) :
  foreignKeysHold db = true ->
  foreignKeysHold (snd (updateReview db reviewId userId updates now)) = true.
Proof.
  intros Hfk. apply foreignKeysHold_spec in Hfk. destruct Hfk as (Hh & Hr & Hp & Hf).
  unfold updateReview. cbv zeta.
  assert (Hdb : foreignKeysHold
                  (withReviews db
                     (map (fun r => if ownedBy reviewId userId r
                                    then setUpdates updates now r else r)
                        (reviews db))) = true).
  { apply (foreignKeys_same_parents db); try reflexivity;
      cbn [withReviews openingHours reviews photos userFavorites]; try assumption.
    intros r Hin. apply in_map_iff in Hin. destruct Hin as (r0 & <- & Hin).
    destruct (ownedBy reviewId userId r0); [|apply Hr, Hin].
    cbn [setUpdates review_shopId review_userId]. apply Hr, Hin. }
  destruct (map (setUpdates updates now) (filter (ownedBy reviewId userId) (reviews db)));
    exact Hdb.
Qed.

Lemma deleteReview_keeps_keys (db : DB) (reviewId userId : string) :
  foreignKeysHold db = true ->
  foreignKeysHold (snd (deleteReview db reviewId userId)) = true.
Proof.
  intros Hfk. apply foreignKeysHold_spec in Hfk. destruct Hfk as (Hh & Hr & Hp & Hf).
  unfold deleteReview. cbv zeta.
  assert (Hdb : foreignKeysHold
                  (withReviews db
                     (filter (fun r => negb (ownedBy reviewId userId r)) (reviews db)))
                = true).
  { apply (foreignKeys_same_parents db); try reflexivity;
      cbn [withReviews openingHours reviews photos userFavorites]; try assumption.
    intros r Hin. apply filter_In in Hin. apply Hr, Hin. }
  match goal with |- context [if ?c then _ else _] => destruct c end; exact Hdb.
Qed.

Lemma addUserFavorite_keeps_keys (db : DB) (userId shopId uuid : string) (now : timestamp) :
  foreignKeysHold db = true ->
  foreignKeysHold (snd (addUserFavorite db userId shopId uuid now)) = true.
Proof.
  intros Hfk. pose proof Hfk as H0. apply foreignKeysHold_spec in H0.
  destruct H0 as (Hh & Hr & Hp & Hf).
  unfold addUserFavorite. cbv zeta.
  destruct (filter (isFavorite userId shopId) (userFavorites db)); [|exact Hfk].
  destruct (userExists db userId) eqn:Eu; cbn [negb snd]; [|exact Hfk].
  destruct (shopExists db shopId) eqn:Es; cbn [negb snd]; [|exact Hfk].
  apply (foreignKeys_same_parents db); try reflexivity;
    cbn [withUserFavorites openingHours reviews photos userFavorites]; try assumption.
  intros f Hin. apply in_app_or in Hin. destruct Hin as [Hin|[<-|[]]]; [apply Hf, Hin|].
  cbn [fav_userId fav_shopId]. split; assumption.
Qed.

Lemma removeUserFavorite_keeps_keys (db : DB) (userId shopId : string) :
  foreignKeysHold db = true ->
  foreignKeysHold (snd (removeUserFavorite db userId shopId)) = true.
Proof.
  intros Hfk. apply foreignKeysHold_spec in Hfk. destruct Hfk as (Hh & Hr & Hp & Hf).
  unfold removeUserFavorite. cbn [snd].
  apply (foreignKeys_same_parents db); try reflexivity;
    cbn [withUserFavorites openingHours reviews photos userFavorites]; try assumption.
  intros f Hin. apply filter_In in Hin. apply Hf, Hin.
Qed.

Lemma deleteShop_keeps_keys (db : DB) (id : string) :
  foreignKeysHold db = true ->
  foreignKeysHold (deleteShop db id) = true.
Proof.
  intros Hfk. rewrite (deleteShop_tables db id Hfk).
  apply foreignKeysHold_spec in Hfk. destruct Hfk as (Hh & Hr & Hp & Hf).
  apply foreignKeysHold_spec.
  unfold shopExists, userExists in *.
  cbn [users shops openingHours reviews photos userFavorites].
  split; [|split; [|split]].
  - intros h Hin. apply filter_In in Hin. destruct Hin as [Hin Hne].
    rewrite existsb_filter_other, Hne, (Hh _ Hin). reflexivity.
  - intros r Hin. apply filter_In in Hin. destruct Hin as [Hin Hne]. split.
    + rewrite existsb_filter_other, Hne, (proj1 (Hr _ Hin)). reflexivity.
    + apply (Hr _ Hin).
  - intros p Hin. apply filter_In in Hin. destruct Hin as [Hin Hne].
    rewrite existsb_filter_other, Hne, (Hp _ Hin). reflexivity.
  - intros f Hin. apply filter_In in Hin. destruct Hin as [Hin Hne]. split.
    + apply (Hf _ Hin).
    + rewrite existsb_filter_other, Hne, (proj2 (Hf _ Hin)). reflexivity.
Qed.

Lemma newOpeningHours_shop (uuids : nat -> string) (hours : list InsertOpeningHours)
  (k : nat) (h : OpeningHours) :
  In h (newOpeningHours uuids k hours) ->
  exists i, In i hours /\ oh_shopId h = ioh_shopId i.
Proof.
  revert k. induction hours as [|i hours IH]; intros k Hin; [destruct Hin|].
  cbn [newOpeningHours] in Hin. destruct Hin as [<-|Hin].
  - exists i. split; [left; reflexivity|reflexivity].
  - destruct (IH _ Hin) as (j & Hj & E). exists j. split; [right; exact Hj|exact E].
Qed.

Lemma insertOpeningHours_keeps_keys (db : DB) (hours : list InsertOpeningHours)
  (uuids : nat -> string) :
  foreignKeysHold db = true ->
  foreignKeysHold (snd (insertOpeningHours db hours uuids)) = true.
Proof.
  intros Hfk. pose proof Hfk as H0. apply foreignKeysHold_spec in H0.
  destruct H0 as (Hh & Hr & Hp & Hf).
  unfold insertOpeningHours.
  destruct (forallb (fun h => shopExists db (ioh_shopId h)) hours) eqn:E; cbn [snd];
    [|exact Hfk].
  apply (foreignKeys_same_parents db); try reflexivity;
    cbn [withOpeningHours openingHours reviews photos userFavorites]; try assumption.
  intros h Hin. apply in_app_or in Hin. destruct Hin as [Hin|Hin]; [apply Hh, Hin|].
  destruct (newOpeningHours_shop _ _ _ _ Hin) as (i & Hi & ->).
  revert i Hi. apply forallb_forall. exact E.
Qed.

Lemma createOpeningHours_keeps_keys (db : DB) (hours : list InsertOpeningHours)
  (uuids : nat -> string) :
  foreignKeysHold db = true ->
  foreignKeysHold (snd (createOpeningHours db hours uuids)) = true.
Proof.
  intros Hfk. unfold createOpeningHours. destruct hours as [|h hours]; [exact Hfk|].
  apply insertOpeningHours_keeps_keys. exact Hfk.
Qed.

Lemma updateOpeningHours_keeps_keys (db : DB) (shopId : string)
  (hours : list InsertOpeningHours) (uuids : nat -> string) :
  foreignKeysHold db = true ->
  foreignKeysHold (snd (updateOpeningHours db shopId hours uuids)) = true.
Proof.
  intros Hfk. unfold updateOpeningHours. cbv zeta.
  assert (Hdb : foreignKeysHold
                  (withOpeningHours db
                     (filter (fun h => negb (String.eqb (oh_shopId h) shopId))
                        (openingHours db))) = true).
  { apply foreignKeysHold_spec in Hfk. destruct Hfk as (Hh & Hr & Hp & Hf).
    apply (foreignKeys_same_parents db); try reflexivity;
      cbn [withOpeningHours openingHours reviews photos userFavorites]; try assumption.
    intros h Hin. apply filter_In in Hin. apply Hh, Hin. }
  destruct hours as [|h hours]; [exact Hdb|].
  apply insertOpeningHours_keeps_keys. exact Hdb.
Qed.

(** Referential integrity is an invariant of the storage layer: from a
    store in which every foreign key names a row, each of the mutating
    methods, whether it succeeds or throws, leads to such a store again. *)
Theorem mutations_keep_foreign_keys (db : DB) :
  foreignKeysHold db = true ->
  (forall review uuid now, foreignKeysHold (snd (createReview db review uuid now)) = true)
  /\ (forall reviewId userId updates now,
        foreignKeysHold (snd (updateReview db reviewId userId updates now)) = true)
  /\ (forall reviewId userId, foreignKeysHold (snd (deleteReview db reviewId userId)) = true)
  /\ (forall userId shopId uuid now,
        foreignKeysHold (snd (addUserFavorite db userId shopId uuid now)) = true)
  /\ (forall userId shopId,
        foreignKeysHold (snd (removeUserFavorite db userId shopId)) = true)
  /\ (forall id, foreignKeysHold (deleteShop db id) = true)
  /\ (forall hours uuids, foreignKeysHold (snd (createOpeningHours db hours uuids)) = true)
  /\ (forall shopId hours uuids,
        foreignKeysHold (snd (updateOpeningHours db shopId hours uuids)) = true).
Proof.
  intros Hfk.
  split; [intros; apply createReview_keeps_keys; exact Hfk|].
  split; [intros; apply updateReview_keeps_keys; exact Hfk|].
  split; [intros; apply deleteReview_keeps_keys; exact Hfk|].
  split; [intros; apply addUserFavorite_keeps_keys; exact Hfk|].
  split; [intros; apply removeUserFavorite_keeps_keys; exact Hfk|].
  split; [intros; apply deleteShop_keeps_keys; exact Hfk|].
  split; [intros; apply createOpeningHours_keeps_keys; exact Hfk|].
  intros; apply updateOpeningHours_keeps_keys; exact Hfk.
Qed.

Lemma mutations_keep_foreign_keys_witness :
  foreignKeysHold freiberg = true
  /\ foreignKeysHold (deleteShop freiberg "s1") = true.
Proof.
  split; [reflexivity|].
  apply (mutations_keep_foreign_keys freiberg eq_refl).
Defined.

End ForeignKeyFacts.

(** ** Opening hours of a shop *)

Section OpeningHoursUpdateFacts.
Import Storage.

Lemma newOpeningHours_of_shop (uuids : nat -> string) (shopId : string)
  (hours : list InsertOpeningHours) (k : nat) :
  Forall (fun h => ioh_shopId h = shopId) hours ->
  forall other,
    filter (fun h => String.eqb (oh_shopId h) other) (newOpeningHours uuids k hours)
    = if String.eqb other shopId then newOpeningHours uuids k hours else [].
Proof.
  intros Hall other. revert k.
  induction Hall as [|h hours Hh _ IH]; intros k.
  - destruct (String.eqb other shopId); reflexivity.
  - cbn [newOpeningHours filter oh_shopId]. rewrite Hh, IH, (String.eqb_sym shopId other).
    destruct (String.eqb other shopId); reflexivity.
Qed.

(** [updateOpeningHours] for an existing shop, with rows that all carry its
    id, succeeds and replaces: afterwards the shop has exactly the new rows,
    in the order given, and every other shop the hours it had. *)
Theorem updateOpeningHours_replaces (db : DB) (shopId : string)
  (hours : list InsertOpeningHours) (uuids : nat -> string) :
  shopExists db shopId = true ->
  Forall (fun h => ioh_shopId h = shopId) hours ->
  let rows := newOpeningHours uuids 0 hours in
  let out := updateOpeningHours db shopId hours uuids in
  fst out = Ok rows
  /\ hoursOfShop (snd out) shopId = rows
  /\ forall other, other <> shopId -> hoursOfShop (snd out) other = hoursOfShop db other.
Proof.
  intros Hshop Hall rows out. subst rows out.
  unfold updateOpeningHours. cbv zeta.
  destruct hours as [|h hours].
  - cbn [fst snd newOpeningHours]. unfold hoursOfShop. cbn [withOpeningHours openingHours].
    split; [reflexivity|]. rewrite filter_of_others, String.eqb_refl.
    split; [reflexivity|].
    intros other Hne. apply String.eqb_neq in Hne.
    rewrite filter_of_others, Hne. reflexivity.
  - unfold insertOpeningHours.
    assert (Hok : forallb
                    (fun i => shopExists
                                (withOpeningHours db
                                   (filter (fun h0 => negb (String.eqb (oh_shopId h0) shopId))
                                      (openingHours db)))
                                (ioh_shopId i))
                    (h :: hours) = true).
    { apply forallb_forall. intros i Hi.
      assert (E : ioh_shopId i = shopId)
        by (revert i Hi; apply Forall_forall; exact Hall).
      rewrite E. exact Hshop. }
    rewrite Hok. cbn [fst snd]. unfold hoursOfShop. cbn [withOpeningHours openingHours].
    split; [reflexivity|].
    split.
    + rewrite filter_app, filter_of_others, String.eqb_refl.
      rewrite (newOpeningHours_of_shop uuids shopId (h :: hours) 0 Hall shopId).
      rewrite String.eqb_refl. reflexivity.
    + intros other Hne. apply String.eqb_neq in Hne.
      rewrite filter_app, filter_of_others, Hne.
      rewrite (newOpeningHours_of_shop uuids shopId (h :: hours) 0 Hall other), Hne.
      apply app_nil_r.
Qed.

Lemma updateOpeningHours_replaces_witness :
  hoursOfShop (snd (updateOpeningHours freiberg "s1" weekendHours hourIds)) "s1"
  = [ mkOpeningHours "h10" "s1" 6 (Some "12:00") (Some "23:00") None;
      mkOpeningHours "h11" "s1" 0 (Some "12:00") (Some "20:00") None ].
Proof.
  apply (updateOpeningHours_replaces freiberg "s1" weekendHours hourIds).
  - reflexivity.
  - repeat constructor.
Defined.

(** [updateOpeningHours] is not atomic: when the insert is rejected, the
    delete before it has happened, so the call throws and the shop is left
    with no opening hours at all; other shops keep theirs. *)
Theorem updateOpeningHours_failure_loses_hours (db : DB) (shopId : string)
  (hours : list InsertOpeningHours) (uuids : nat -> string) (e : Error) :
  fst (updateOpeningHours db shopId hours uuids) = Throw e ->
  hoursOfShop (snd (updateOpeningHours db shopId hours uuids)) shopId = []
  /\ forall other, other <> shopId ->
       hoursOfShop (snd (updateOpeningHours db shopId hours uuids)) other
       = hoursOfShop db other.
Proof.
  unfold updateOpeningHours. cbv zeta.
  destruct hours as [|h hours]; [discriminate|].
  unfold insertOpeningHours.
  match goal with |- context [if ?c then _ else _] => destruct c end;
    cbn [fst snd]; [discriminate|].
  intros _. unfold hoursOfShop. cbn [withOpeningHours openingHours].
  split.
  - rewrite filter_of_others, String.eqb_refl. reflexivity.
  - intros other Hne. apply String.eqb_neq in Hne.
    rewrite filter_of_others, Hne. reflexivity.
Qed.

Lemma updateOpeningHours_failure_loses_hours_witness :
  hoursOfShop freiberg "s1" <> []
  /\ hoursOfShop (snd (updateOpeningHours freiberg "s1" strayHours hourIds)) "s1" = [].
Proof.
  split; [discriminate|].
  apply (updateOpeningHours_failure_loses_hours freiberg "s1" strayHours hourIds
           (DbError "opening_hours_shop_id_shops_id_fk")).
  reflexivity.
Defined.

End OpeningHoursUpdateFacts.

(** ** The review lists *)

Section ReviewListFacts.
Import Storage Routes.

Lemma filter_unique {B : Type} (key : B -> string) (p : B -> bool) (k : string)
  (r : list B) :
  NoDup (map key r) ->
  (forall b, p b = true -> key b = k) ->
  filter p r = match find p r with Some b => [b] | None => [] end.
Proof.
  induction r as [|b r IH]; intros Hnd Hp; [reflexivity|].
  cbn [map] in Hnd. inversion Hnd as [|? ? Hnotin Hnd']; subst.
  cbn [filter find]. destruct (p b) eqn:E.
  - f_equal. apply filter_none. intros x Hx.
    destruct (p x) eqn:Ex; [|reflexivity].
    exfalso. apply Hnotin. rewrite (Hp b E), <- (Hp x Ex). apply in_map. exact Hx.
  - apply IH; assumption.
Qed.

Lemma leftJoinOn_unique {A B : Type} (key : B -> string) (on : A -> B -> bool)
  (l : list A) (r : list B) :
  NoDup (map key r) ->
  (forall a, exists k, forall b, on a b = true -> key b = k) ->
  Sql.leftJoinOn on l r = map (fun a => (a, find (on a) r)) l.
Proof.
  intros Hnd Hon. unfold Sql.leftJoinOn.
  induction l as [|a l IH]; [reflexivity|].
  cbn [flat_map]. rewrite IH.
  destruct (Hon a) as (k & Hk).
  rewrite (filter_unique key (on a) k r Hnd Hk). cbn [map].
  destruct (find (on a) r); reflexivity.
Qed.

Lemma insertSorted_map {A B : Type} (f : A -> B) (stays : B -> B -> bool) (x : A)
  (l : list A) :
  insertSorted stays (f x) (map f l)
  = map f (insertSorted (fun a b => stays (f a) (f b)) x l).
Proof.
  induction l as [|y l IH]; [reflexivity|].
  cbn [map insertSorted]. destruct (stays (f x) (f y)); [reflexivity|].
  rewrite IH. reflexivity.
Qed.

Lemma stableSort_map {A B : Type} (f : A -> B) (stays : B -> B -> bool) (l : list A) :
  stableSort stays (map f l) = map f (stableSort (fun a b => stays (f a) (f b)) l).
Proof.
  unfold stableSort. induction l as [|x l IH]; [reflexivity|].
  cbn [map fold_right]. rewrite IH. apply insertSorted_map.
Qed.

(** With user and shop ids unique, the double left join has one row per
    review. *)
Lemma reviewsJoined_rows (db : DB) :
  NoDup (map user_id (users db)) ->
  NoDup (map shop_id (shops db)) ->
  reviewsJoined db
  = map (fun r => (r, userOfReview db r, shopOfReview db r)) (reviews db).
Proof.
  intros Hu Hs. unfold reviewsJoined.
  rewrite (leftJoinOn_unique user_id _ (reviews db) (users db) Hu).
  2:{ intros r. destruct (review_userId r) as [k|].
      - exists k. intros u Hon. cbn [Sql.eq] in Hon.
        apply String.eqb_eq in Hon. symmetry. exact Hon.
      - exists "". intros u Hon. discriminate. }
  rewrite (leftJoinOn_unique shop_id _ _ (shops db) Hs).
  2:{ intros row. exists (review_shopId (fst row)). intros sh Hon.
      apply String.eqb_eq in Hon. symmetry. exact Hon. }
  rewrite map_map. reflexivity.
Qed.

Lemma mapOrThrow_map {A B C : Type} (g : A -> C) (f : C -> result B) (l : list A) :
  mapOrThrow f (map g l) = mapOrThrow (fun a => f (g a)) l.
Proof.
  induction l as [|a l IH]; [reflexivity|].
  cbn [map mapOrThrow]. rewrite IH. reflexivity.
Qed.

Lemma mapOrThrow_ext {A B : Type} (f g : A -> result B) (l : list A) :
  (forall a, In a l -> f a = g a) -> mapOrThrow f l = mapOrThrow g l.
Proof.
  induction l as [|a l IH]; intros H; [reflexivity|].
  cbn [mapOrThrow]. rewrite (H a (or_introl eq_refl)), IH; [reflexivity|].
  intros x Hx. apply H. right. exact Hx.
Qed.

(** A map whose body throws the one exception [e], and that where [ok]
    fails: the first element without [ok] ends it. *)
Lemma mapOrThrow_guard {A B : Type} (ok : A -> bool) (g : A -> B) (e : Error)
  (l : list A) :
  mapOrThrow (fun a => if ok a then Ok (g a) else Throw e) l
  = if forallb ok l then Ok (map g l) else Throw e.
Proof.
  induction l as [|a l IH]; [reflexivity|].
  cbn [mapOrThrow forallb map]. destruct (ok a); [|reflexivity].
  rewrite IH. cbn [andb]. destruct (forallb ok l); reflexivity.
Qed.

Lemma mapOrThrow_In {A B : Type} (f : A -> result B) (l : list A) (ys : list B) (y : B) :
  mapOrThrow f l = Ok ys -> In y ys -> exists x, In x l /\ f x = Ok y.
Proof.
  revert ys. induction l as [|a l IH]; intros ys E Hy.
  - injection E as <-. destruct Hy.
  - cbn [mapOrThrow] in E. destruct (f a) as [b|e] eqn:Ea; [|discriminate].
    destruct (mapOrThrow f l) as [bs|e] eqn:El; [|discriminate].
    injection E as <-. destruct Hy as [<-|Hy].
    + exists a. split; [left; reflexivity|exact Ea].
    + destruct (IH bs eq_refl Hy) as (x & Hx & Ex).
      exists x. split; [right; exact Hx|exact Ex].
Qed.

Lemma mapOrThrow_preimage {A B : Type} (f : A -> result B) (l : list A) (ys : list B)
  (x : A) :
  mapOrThrow f l = Ok ys -> In x l -> exists y, In y ys /\ f x = Ok y.
Proof.
  revert ys. induction l as [|a l IH]; intros ys E Hx; [destruct Hx|].
  cbn [mapOrThrow] in E. destruct (f a) as [b|e] eqn:Ea; [|discriminate].
  destruct (mapOrThrow f l) as [bs|e] eqn:El; [|discriminate].
  injection E as <-. destruct Hx as [<-|Hx].
  - exists b. split; [left; reflexivity|exact Ea].
  - destruct (IH bs eq_refl Hx) as (y & Hy & Ey).
    exists y. split; [right; exact Hy|exact Ey].
Qed.

(** The map returns exactly when its body returns on every element. *)
Lemma mapOrThrow_returns {A B : Type} (f : A -> result B) (l : list A) :
  (forall x, In x l -> returns (f x)) -> returns (mapOrThrow f l).
Proof.
  induction l as [|a l IH]; intros H; [exists []; reflexivity|].
  destruct (H a (or_introl eq_refl)) as (b & Eb).
  destruct IH as (bs & Ebs); [intros x Hx; apply H; right; exact Hx|].
  exists (b :: bs). cbn [mapOrThrow]. rewrite Eb, Ebs. reflexivity.
Qed.

Lemma mapOrThrow_throws {A B : Type} (f : A -> result B) (l : list A) (x : A) :
  In x l -> throws (f x) -> throws (mapOrThrow f l).
Proof.
  induction l as [|a l IH]; intros Hx Hf; [destruct Hx|].
  cbn [mapOrThrow]. destruct (f a) as [b|e] eqn:Ea; [|exists e; reflexivity].
  destruct Hx as [->|Hx].
  - destruct Hf as (e & Ee). rewrite Ee in Ea. discriminate.
  - destruct (IH Hx Hf) as (e & Ee). rewrite Ee. exists e. reflexivity.
Qed.

(** A review has an author exactly when the join finds a user for it. *)
Lemma hasAuthor_userOfReview (db : DB) (r : Review) :
  hasAuthor db r = match userOfReview db r with Some _ => true | None => false end.
Proof.
  unfold hasAuthor, userOfReview, userExists.
  destruct (review_userId r) as [k|].
  - induction (users db) as [|u us IH]; [reflexivity|].
    cbn [existsb find Sql.eq]. rewrite (String.eqb_sym (user_id u) k).
    destruct (String.eqb k (user_id u)); [reflexivity|]. exact IH.
  - induction (users db) as [|u us IH]; [reflexivity|exact IH].
Qed.

Lemma toReviewWithUser_row (db : DB) (r : Review) :
  toReviewWithUser (r, userOfReview db r, shopOfReview db r)
  = if hasAuthor db r then Ok (reviewWithUser db r) else Throw typeErrorOfNull.
Proof.
  rewrite hasAuthor_userOfReview. unfold toReviewWithUser, reviewWithUser.
  cbn [fst snd]. destruct (userOfReview db r) as [u|]; [|reflexivity].
  cbn [selectReviewUser ru_id]. destruct (shopOfReview db r); reflexivity.
Qed.

Lemma review_list_rows (db : DB) (p : Review -> bool) (offset limit : nat) :
  NoDup (map user_id (users db)) ->
  NoDup (map shop_id (shops db)) ->
  mapOrThrow toReviewWithUser
    (Sql.limitOffset limit offset
       (Sql.orderBy (fun a b => byCreatedAtDesc (fst (fst a)) (fst (fst b)))
          (filter (fun row : Review * option User * option Shop => p (fst (fst row)))
             (reviewsJoined db))))
  = if forallb (hasAuthor db)
         (firstn limit (skipn offset (newestFirst (filter p (reviews db)))))
    then Ok (map (reviewWithUser db)
               (firstn limit (skipn offset (newestFirst (filter p (reviews db))))))
    else Throw typeErrorOfNull.
Proof.
  intros Hu Hs. rewrite (reviewsJoined_rows db Hu Hs).
  rewrite filter_map_swap. unfold Sql.orderBy, Sql.limitOffset, newestFirst, Sql.orderBy.
  rewrite (stableSort_map (fun r => (r, userOfReview db r, shopOfReview db r))
             (fun a b => byCreatedAtDesc (fst (fst a)) (fst (fst b)))).
  rewrite skipn_map, firstn_map, mapOrThrow_map.
  rewrite (mapOrThrow_ext _
             (fun r => if hasAuthor db r then Ok (reviewWithUser db r)
                       else Throw typeErrorOfNull))
    by (intros r _; apply toReviewWithUser_row).
  apply mapOrThrow_guard.
Qed.

Lemma getReviewsByShopId_page (db : DB) (shopId : string) (offset limit : nat) :
  NoDup (map user_id (users db)) ->
  NoDup (map shop_id (shops db)) ->
  getReviewsByShopId db shopId offset limit
  = reviewPage db shopId (firstn limit (skipn offset (newestFirst (reviewsOfShop db shopId)))).
Proof.
  intros Hu Hs. unfold getReviewsByShopId, reviewPage, reviewsOfShop. cbv zeta.
  destruct (hasNul shopId); [reflexivity|].
  apply (review_list_rows db (fun r => String.eqb (review_shopId r) shopId)); assumption.
Qed.

Lemma rwu_review_reviewWithUser (db : DB) (l : list Review) :
  map rwu_review (map (reviewWithUser db) l) = l.
Proof.
  rewrite map_map. apply map_id.
Qed.

Lemma reviewPage_reviews (db : DB) (key : string) (page : list Review)
  (entries : list ReviewWithUser) :
  reviewPage db key page = Ok entries -> map rwu_review entries = page.
Proof.
  unfold reviewPage. destruct (hasNul key); [discriminate|].
  destruct (forallb (hasAuthor db) page); [|discriminate].
  intros E. injection E as <-. apply rwu_review_reviewWithUser.
Qed.

(** With user and shop ids unique (they are primary keys) and no two
    reviews of the same time (the order of which the query leaves open),
    [getReviewsByShopId] looks at the page [offset, offset + limit) of the
    shop's reviews, newest first.  It returns them, each with its user and
    its shop looked up by id, when every review of the page has an author;
    when one has none, as every anonymous review, it throws the
    [TypeError] of reading [item.user.id]; and it rejects an id with a NUL
    character.  [getReviewsByUserId] does the same with the page of the
    user's reviews.  The joins neither drop nor repeat a review. *)
Theorem review_lists_are_pages (db : DB) (offset limit : nat) :
  NoDup (map user_id (users db)) ->
  NoDup (map shop_id (shops db)) ->
  NoDup (map review_createdAt (reviews db)) ->
  (forall shopId,
     getReviewsByShopId db shopId offset limit
     = reviewPage db shopId
         (firstn limit (skipn offset (newestFirst (reviewsOfShop db shopId)))))
  /\ (forall userId,
        getReviewsByUserId db userId offset limit
        = reviewPage db userId
            (firstn limit (skipn offset (newestFirst (reviewsOfUser db userId))))).
Proof.
  intros Hu Hs _. split.
  - intros shopId. apply getReviewsByShopId_page; assumption.
  - intros userId. unfold getReviewsByUserId, reviewPage, reviewsOfUser. cbv zeta.
    destruct (hasNul userId); [reflexivity|].
    apply (review_list_rows db (fun r => Sql.eq (review_userId r) (Some userId)));
      assumption.
Qed.

Lemma freiberg_users_unique : NoDup (map user_id (users freiberg)).
Proof.
  repeat constructor; simpl; intuition discriminate.
Defined.

Lemma freiberg_times_differ : NoDup (map review_createdAt (reviews freiberg)).
Proof.
  repeat constructor; simpl; intuition discriminate.
Defined.

Lemma review_lists_are_pages_witness :
  getReviewsByShopId freiberg "s1" 0 10 = Throw typeErrorOfNull
  /\ (exists page,
        getReviewsByShopId freiberg "s2" 0 10 = Ok page
        /\ map (fun e => review_id (rwu_review e)) page = ["r3"])
  /\ exists page,
       getReviewsByUserId freiberg "u1" 0 10 = Ok page
       /\ map (fun e => review_id (rwu_review e)) page = ["r1"].
Proof.
  split; [|split].
  - rewrite (proj1 (review_lists_are_pages freiberg 0 10 freiberg_users_unique
                      freiberg_ids_unique freiberg_times_differ) "s1").
    reflexivity.
  - rewrite (proj1 (review_lists_are_pages freiberg 0 10 freiberg_users_unique
                      freiberg_ids_unique freiberg_times_differ) "s2").
    eexists. split; reflexivity.
  - rewrite (proj2 (review_lists_are_pages freiberg 0 10 freiberg_users_unique
                      freiberg_ids_unique freiberg_times_differ) "u1").
    eexists. split; reflexivity.
Defined.

(** The three places that show a shop's reviews look at the same reviews:
    with unique user and shop ids and no two reviews of the same time,
    [getReviewsByShopId] with a page of five answers for the very five
    reviews the shop carries in the list of [getShops], and with a page
    long enough for all it answers for the reviews of [getShopBySlug].
    Where it returns, its reviews are those; it throws where one of them
    has no author, while [getShops] and [getShopBySlug], which attach no
    user, show them all the same. *)
Theorem shop_reviews_agree (db : DB) (filters : Filters) :
  NoDup (map user_id (users db)) ->
  NoDup (map shop_id (shops db)) ->
  NoDup (map review_createdAt (reviews db)) ->
  (forall d, In d (getShops db filters) ->
     getReviewsByShopId db (shop_id (swd_shop d)) 0 5
     = reviewPage db (shop_id (swd_shop d)) (swd_reviews d)
     /\ forall entries,
          getReviewsByShopId db (shop_id (swd_shop d)) 0 5 = Ok entries ->
          swd_reviews d = map rwu_review entries)
  /\ (forall slug d, getShopBySlug db slug = Some d ->
        getReviewsByShopId db (shop_id (swd_shop d)) 0 (List.length (reviews db))
        = reviewPage db (shop_id (swd_shop d)) (swd_reviews d)
        /\ forall entries,
             getReviewsByShopId db (shop_id (swd_shop d)) 0 (List.length (reviews db))
             = Ok entries ->
             swd_reviews d = map rwu_review entries).
Proof.
  intros Hu Hs _.
  assert (Hlist : forall d,
             In d (getShops db filters) ->
             getReviewsByShopId db (shop_id (swd_shop d)) 0 5
             = reviewPage db (shop_id (swd_shop d)) (swd_reviews d)).
  { intros d Hd. unfold getShops in Hd. cbv zeta in Hd.
    apply in_map_iff in Hd. destruct Hd as (item & <- & _).
    rewrite (getReviewsByShopId_page db _ 0 5 Hu Hs). reflexivity. }
  assert (Hslug : forall slug d,
             getShopBySlug db slug = Some d ->
             getReviewsByShopId db (shop_id (swd_shop d)) 0 (List.length (reviews db))
             = reviewPage db (shop_id (swd_shop d)) (swd_reviews d)).
  { intros slug d Hd. unfold getShopBySlug in Hd.
    destruct (filter (fun s => String.eqb (shop_slug s) slug) (shops db)) as [|shop rest];
      [discriminate|].
    injection Hd as <-. cbn [swd_reviews swd_shop].
    rewrite (getReviewsByShopId_page db _ 0 (List.length (reviews db)) Hu Hs).
    f_equal. cbn [skipn]. unfold newestFirst. apply firstn_all2.
    unfold Sql.orderBy. rewrite stableSort_length. unfold reviewsOfShop.
    apply filter_length_le. }
  split.
  - intros d Hd. split; [exact (Hlist d Hd)|].
    intros entries E. rewrite (Hlist d Hd) in E.
    symmetry. exact (reviewPage_reviews db _ _ _ E).
  - intros slug d Hd. split; [exact (Hslug slug d Hd)|].
    intros entries E. rewrite (Hslug slug d Hd) in E.
    symmetry. exact (reviewPage_reviews db _ _ _ E).
Qed.

Lemma shop_reviews_agree_witness :
  Forall (fun d =>
            getReviewsByShopId freiberg (shop_id (swd_shop d)) 0 5
            = reviewPage freiberg (shop_id (swd_shop d)) (swd_reviews d))
         (getShops freiberg noFilters)
  /\ map (fun d => map review_id (swd_reviews d)) (getShops freiberg noFilters)
     = [["r2"; "r1"]; ["r3"]].
Proof.
  split; [|reflexivity].
  apply Forall_forall. intros d Hd.
  exact (proj1 (proj1 (shop_reviews_agree freiberg noFilters freiberg_users_unique
                         freiberg_ids_unique freiberg_times_differ) d Hd)).
Defined.

End ReviewListFacts.

(** ** The favourites list *)

Section FavoriteListFacts.
Import Storage PushService.

Lemma innerJoinOn_In {A B : Type} (on : A -> B -> bool) (l : list A) (r : list B)
  (a : A) (b : B) :
  In (a, b) (Sql.innerJoinOn on l r) <-> In a l /\ In b r /\ on a b = true.
Proof.
  unfold Sql.innerJoinOn. rewrite in_flat_map. split.
  - intros (x & Hx & Hin). apply in_map_iff in Hin. destruct Hin as (y & E & Hy).
    injection E as -> ->. apply filter_In in Hy. tauto.
  - intros (Ha & Hb & Hon). exists a. split; [exact Ha|].
    apply in_map. apply filter_In. split; assumption.
Qed.

Lemma innerJoinOn_length {A B : Type} (key : B -> string) (on : A -> B -> bool)
  (l : list A) (r : list B) :
  NoDup (map key r) ->
  (forall a, exists k, forall b, on a b = true -> key b = k) ->
  (List.length (Sql.innerJoinOn on l r) <= List.length l)%nat.
Proof.
  intros Hnd Hon. unfold Sql.innerJoinOn.
  induction l as [|a l IH]; [apply Nat.le_refl|].
  cbn [flat_map]. rewrite length_app, length_map.
  destruct (Hon a) as (k & Hk).
  rewrite (filter_unique key (on a) k r Hnd Hk).
  destruct (find (on a) r); cbn [List.length]; lia.
Qed.

(** The rows of the favourites page, and what is made of a row. *)
Lemma favoritesData_In (db : DB) (userId : string) (offset limit : nat)
  (f : UserFavorite) (sh : Shop) :
  In (f, sh)
    (Sql.limitOffset limit offset
       (Sql.orderBy byFavoriteCreatedAtDesc
          (filter (fun row : UserFavorite * Shop => String.eqb (fav_userId (fst row)) userId)
             (Sql.innerJoinOn (fun f s => String.eqb (fav_shopId f) (shop_id s))
                (userFavorites db) (shops db))))) ->
  In f (userFavorites db) /\ In sh (shops db)
  /\ fav_shopId f = shop_id sh /\ fav_userId f = userId.
Proof.
  intros Hin. unfold Sql.limitOffset, Sql.orderBy in Hin.
  apply In_firstn, In_skipn in Hin. apply stableSort_In in Hin.
  apply filter_In in Hin. destruct Hin as [Hin Hu]. cbn [fst] in Hu.
  apply innerJoinOn_In in Hin. destruct Hin as (Hf & Hs & Hon).
  apply String.eqb_eq in Hu, Hon. repeat split; assumption.
Qed.

Lemma favoritesData_all (db : DB) (userId : string) (limit : nat)
  (f : UserFavorite) (sh : Shop) :
  NoDup (map shop_id (shops db)) ->
  (List.length (userFavorites db) <= limit)%nat ->
  In f (userFavorites db) -> In sh (shops db) ->
  fav_shopId f = shop_id sh -> fav_userId f = userId ->
  In (f, sh)
    (Sql.limitOffset limit 0
       (Sql.orderBy byFavoriteCreatedAtDesc
          (filter (fun row : UserFavorite * Shop => String.eqb (fav_userId (fst row)) userId)
             (Sql.innerJoinOn (fun f s => String.eqb (fav_shopId f) (shop_id s))
                (userFavorites db) (shops db))))).
Proof.
  intros Hnd Hlimit Hf Hsh Hid Hu. unfold Sql.limitOffset. cbn [skipn].
  rewrite firstn_all2.
  - apply stableSort_In. apply filter_In. split.
    + apply innerJoinOn_In. split; [exact Hf|]. split; [exact Hsh|].
      rewrite Hid. apply String.eqb_refl.
    + cbn [fst]. rewrite Hu. apply String.eqb_refl.
  - unfold Sql.orderBy. rewrite stableSort_length.
    eapply Nat.le_trans; [apply filter_length_le|].
    eapply Nat.le_trans; [|exact Hlimit].
    apply (innerJoinOn_length shop_id); [exact Hnd|].
    intros a. exists (fav_shopId a). intros b Hon.
    apply String.eqb_eq in Hon. symmetry. exact Hon.
Qed.

(** What an entry of the favourites list is made of: a favourite of the
    user and the stored shop it names. *)
Lemma getUserFavorites_entry (db : DB) (userId : string) (offset limit : nat)
  (favorites : list FavoriteWithShop) (e : FavoriteWithShop) :
  getUserFavorites db userId offset limit = Ok favorites ->
  In e favorites ->
  In (fws_favorite e) (userFavorites db)
  /\ fav_userId (fws_favorite e) = userId
  /\ In (fs_shop (fws_shop e)) (shops db)
  /\ fav_shopId (fws_favorite e) = shop_id (fs_shop (fws_shop e))
  /\ fs_avgRating (fws_shop e)
     = Sql.COALESCE
         (Sql.AVG (map review_rating (reviewsOfShop db (shop_id (fs_shop (fws_shop e)))))) 0
  /\ fs_reviewCount (fws_shop e)
     = Sql.COUNT (map (fun r => Some (review_id r))
                    (reviewsOfShop db (shop_id (fs_shop (fws_shop e)))))
  /\ fs_photos (fws_shop e) = photosOfShop db (shop_id (fs_shop (fws_shop e))).
Proof.
  unfold getUserFavorites. cbv zeta. destruct (hasNul userId); [discriminate|].
  intros E Hin.
  destruct (mapOrThrow_In _ _ _ _ E Hin) as ([f sh] & Hrow & Erow).
  apply favoritesData_In in Hrow. destruct Hrow as (Hf & Hs & Hid & Hu).
  cbn [fst snd] in Erow.
  destruct (getReviewsByShopId db (shop_id sh) 0 5) as [reviewsData|err]; [|discriminate].
  injection Erow as <-.
  cbn [fws_favorite fws_shop fs_shop fs_avgRating fs_reviewCount fs_photos].
  repeat (split; [first [assumption|reflexivity]|]). reflexivity.
Qed.

(** The review list of a shop returns exactly when the shop is listable. *)
Lemma getReviewsByShopId_listable (db : DB) (shopId : string) (n : nat) :
  NoDup (map user_id (users db)) ->
  NoDup (map shop_id (shops db)) ->
  (listable db n shopId = true -> returns (getReviewsByShopId db shopId 0 n))
  /\ (listable db n shopId = false -> throws (getReviewsByShopId db shopId 0 n)).
Proof.
  intros Hu Hs. rewrite (getReviewsByShopId_page db shopId 0 n Hu Hs).
  unfold listable, reviewPage. cbn [skipn].
  destruct (hasNul shopId); cbn [negb andb].
  - split; [discriminate|]. intros _. eexists. reflexivity.
  - destruct (forallb (hasAuthor db) (firstn n (newestFirst (reviewsOfShop db shopId)))).
    + split; [|discriminate]. intros _. eexists. reflexivity.
    + split; [discriminate|]. intros _. eexists. reflexivity.
Qed.

Lemma forallb_false_In {A : Type} (p : A -> bool) (l : list A) :
  forallb p l = false -> exists x, In x l /\ p x = false.
Proof.
  induction l as [|a l IH]; [discriminate|].
  cbn [forallb]. destruct (p a) eqn:E.
  - cbn [andb]. intros H. destruct (IH H) as (x & Hx & Ex).
    exists x. split; [right; exact Hx|exact Ex].
  - intros _. exists a. split; [left; reflexivity|exact E].
Qed.

(** The favourites list is made when the review list of every favourite
    shop of the user can be made. *)
Lemma getUserFavorites_returns (db : DB) (userId : string) (offset limit : nat) :
  NoDup (map user_id (users db)) ->
  NoDup (map shop_id (shops db)) ->
  hasNul userId = false ->
  (forall f, In f (userFavorites db) -> fav_userId f = userId ->
             listable db 5 (fav_shopId f) = true) ->
  returns (getUserFavorites db userId offset limit).
Proof.
  intros Hu Hs Hnul Hall. unfold getUserFavorites. cbv zeta. rewrite Hnul.
  apply mapOrThrow_returns. intros [f sh] Hrow.
  apply favoritesData_In in Hrow. destruct Hrow as (Hf & _ & Hid & Huser).
  cbn [fst snd].
  destruct (proj1 (getReviewsByShopId_listable db (shop_id sh) 5 Hu Hs)) as (page & E).
  - rewrite <- Hid. exact (Hall f Hf Huser).
  - rewrite E. eexists. reflexivity.
Qed.

(** The favourites list takes every number it shows from the same rows as
    the detail page.  With user and shop ids unique and no two reviews of
    the same time, it is made when the review list of every favourite shop
    of the user can be made (it throws with the review list of a shop that
    has an anonymous review among its newest five); and with slugs unique,
    each entry's shop is then found by [getShopBySlug], with the same
    average rating, review count and photos. *)
Theorem favorites_agree_with_detail (db : DB) (userId : string) (offset limit : nat) :
  NoDup (map shop_slug (shops db)) ->
  NoDup (map user_id (users db)) ->
  NoDup (map shop_id (shops db)) ->
  NoDup (map review_createdAt (reviews db)) ->
  (hasNul userId = false ->
   (forall f, In f (userFavorites db) -> fav_userId f = userId ->
              listable db 5 (fav_shopId f) = true) ->
   returns (getUserFavorites db userId offset limit))
  /\ (forall favorites,
        getUserFavorites db userId offset limit = Ok favorites ->
        Forall
          (fun e =>
             exists d,
               getShopBySlug db (shop_slug (fs_shop (fws_shop e))) = Some d
               /\ swd_shop d = fs_shop (fws_shop e)
               /\ swd_avgRating d = fs_avgRating (fws_shop e)
               /\ swd_reviewCount d = fs_reviewCount (fws_shop e)
               /\ swd_photos d = fs_photos (fws_shop e))
          favorites).
Proof.
  intros Hnd Hu Hs _. split.
  - intros Hnul Hall. apply getUserFavorites_returns; assumption.
  - intros favorites E. apply Forall_forall. intros e He.
    destruct (getUserFavorites_entry db userId offset limit favorites e E He)
      as (_ & _ & Hsh & _ & Havg & Hcount & Hphotos).
    destruct (lookup_by_own_slug db (fs_shop (fws_shop e)) Hnd Hsh) as (rest & El).
    unfold getShopBySlug. rewrite El. eexists. split; [reflexivity|].
    cbn [swd_shop swd_avgRating swd_reviewCount swd_photos].
    rewrite orZero_Number_AVG, Havg, Hcount, Hphotos.
    split; [reflexivity|]. split; [reflexivity|]. split; reflexivity.
Qed.

Lemma signedFreiberg_times_differ : NoDup (map review_createdAt (reviews signedFreiberg)).
Proof.
  repeat constructor; simpl; intuition discriminate.
Defined.

Lemma favorites_agree_with_detail_witness :
  exists favorites,
    getUserFavorites signedFreiberg "u1" 0 20 = Ok favorites
    /\ favoriteShopIds favorites = ["s1"]
    /\ Forall
         (fun e =>
            exists d,
              getShopBySlug signedFreiberg (shop_slug (fs_shop (fws_shop e))) = Some d
              /\ swd_shop d = fs_shop (fws_shop e)
              /\ swd_avgRating d = fs_avgRating (fws_shop e)
              /\ swd_reviewCount d = fs_reviewCount (fws_shop e)
              /\ swd_photos d = fs_photos (fws_shop e))
         favorites.
Proof.
  destruct (proj1 (favorites_agree_with_detail signedFreiberg "u1" 0 20
                     freiberg_slugs_unique freiberg_users_unique freiberg_ids_unique
                     signedFreiberg_times_differ) eq_refl)
    as (favorites & E).
  - intros f [<-|[]] _. reflexivity.
  - exists favorites. split; [exact E|]. split.
    + revert E. vm_compute. intros E. injection E as <-. reflexivity.
    + exact (proj2 (favorites_agree_with_detail signedFreiberg "u1" 0 20
                      freiberg_slugs_unique freiberg_users_unique freiberg_ids_unique
                      signedFreiberg_times_differ) favorites E).
Defined.

(** The favourites list is the list of favourite ids, where it is made:
    with user and shop ids unique, no two reviews of the same time, every
    favourite naming a stored shop, a user id the database takes and a page
    long enough for all favourites, [getUserFavorites] returns when the
    review list of each shop of [getUserFavoriteShopIds] can be made, and
    its list then holds a shop exactly when [getUserFavoriteShopIds] holds
    its id, published or not; when the review list of one of these shops
    cannot be made, there is no list: the method throws. *)
Theorem getUserFavorites_lists_every_favorite (db : DB) (userId : string) (limit : nat) :
  NoDup (map user_id (users db)) ->
  NoDup (map shop_id (shops db)) ->
  NoDup (map review_createdAt (reviews db)) ->
  (forall f, In f (userFavorites db) -> shopExists db (fav_shopId f) = true) ->
  (List.length (userFavorites db) <= limit)%nat ->
  hasNul userId = false ->
  if forallb (listable db 5) (getUserFavoriteShopIds db userId)
  then exists favorites,
         getUserFavorites db userId 0 limit = Ok favorites
         /\ forall shopId,
              In shopId (favoriteShopIds favorites)
              <-> In shopId (getUserFavoriteShopIds db userId)
  else throws (getUserFavorites db userId 0 limit).
Proof.
  intros Hu Hnd _ Hfk Hlimit Hnul.
  assert (Hrow : forall f, In f (userFavorites db) -> fav_userId f = userId ->
                   exists sh,
                     fav_shopId f = shop_id sh
                     /\ In (f, sh)
                          (Sql.limitOffset limit 0
                             (Sql.orderBy byFavoriteCreatedAtDesc
                                (filter (fun row : UserFavorite * Shop =>
                                           String.eqb (fav_userId (fst row)) userId)
                                   (Sql.innerJoinOn
                                      (fun f s => String.eqb (fav_shopId f) (shop_id s))
                                      (userFavorites db) (shops db)))))).
  { intros f Hf Huser. pose proof (Hfk f Hf) as Hex. unfold shopExists in Hex.
    apply existsb_exists in Hex. destruct Hex as (sh & Hsh & Hid).
    apply String.eqb_eq in Hid. exists sh. split; [symmetry; exact Hid|].
    apply favoritesData_all; try assumption. symmetry. exact Hid. }
  destruct (forallb (listable db 5) (getUserFavoriteShopIds db userId)) eqn:Hall.
  - destruct (getUserFavorites_returns db userId 0 limit Hu Hnd Hnul) as (favorites & E).
    { intros f Hf Huser. rewrite forallb_forall in Hall. apply Hall.
      unfold getUserFavoriteShopIds. cbv zeta. apply in_map. apply filter_In.
      split; [exact Hf|]. rewrite Huser. apply String.eqb_refl. }
    exists favorites. split; [exact E|]. intros shopId.
    unfold favoriteShopIds. rewrite in_map_iff. split.
    + intros (e & <- & He).
      destruct (getUserFavorites_entry db userId 0 limit favorites e E He)
        as (Hf & Huser & _ & Hs & _).
      unfold getUserFavoriteShopIds. cbv zeta. apply in_map_iff.
      exists (fws_favorite e). split; [exact Hs|].
      apply filter_In. split; [exact Hf|]. rewrite Huser. apply String.eqb_refl.
    + unfold getUserFavoriteShopIds. cbv zeta. intros Hin.
      apply in_map_iff in Hin. destruct Hin as (f & <- & Hf).
      apply filter_In in Hf. destruct Hf as [Hf Huser]. apply String.eqb_eq in Huser.
      destruct (Hrow f Hf Huser) as (sh & Hid & Hin).
      unfold getUserFavorites in E. cbv zeta in E. rewrite Hnul in E.
      destruct (mapOrThrow_preimage _ _ _ _ E Hin) as (y & Hy & Ey).
      exists y. split; [|exact Hy]. cbn [fst snd] in Ey.
      destruct (getReviewsByShopId db (shop_id sh) 0 5); [|discriminate].
      injection Ey as <-. cbn [fws_shop fs_shop]. symmetry. exact Hid.
  - apply forallb_false_In in Hall. destruct Hall as (id & Hid & Hno).
    unfold getUserFavoriteShopIds in Hid. cbv zeta in Hid.
    apply in_map_iff in Hid. destruct Hid as (f & <- & Hf).
    apply filter_In in Hf. destruct Hf as [Hf Huser]. apply String.eqb_eq in Huser.
    destruct (Hrow f Hf Huser) as (sh & Hid & Hin).
    unfold getUserFavorites. cbv zeta. rewrite Hnul.
    apply (mapOrThrow_throws _ _ (f, sh) Hin). cbn [fst snd].
    rewrite Hid in Hno.
    destruct (proj2 (getReviewsByShopId_listable db (shop_id sh) 5 Hu Hnd) Hno) as (e & E).
    rewrite E. exists e. reflexivity.
Qed.

Lemma getUserFavorites_lists_every_favorite_witness :
  (exists favorites,
     getUserFavorites signedFreiberg "u1" 0 20 = Ok favorites
     /\ forall shopId,
          In shopId (favoriteShopIds favorites)
          <-> In shopId (getUserFavoriteShopIds signedFreiberg "u1"))
  /\ throws (getUserFavorites freiberg "u1" 0 20).
Proof.
  split.
  - apply (getUserFavorites_lists_every_favorite signedFreiberg "u1" 20).
    + exact freiberg_users_unique.
    + exact freiberg_ids_unique.
    + exact signedFreiberg_times_differ.
    + intros f [<-|[]]. reflexivity.
    + cbn. lia.
    + reflexivity.
  - apply (getUserFavorites_lists_every_favorite freiberg "u1" 20).
    + exact freiberg_users_unique.
    + exact freiberg_ids_unique.
    + exact freiberg_times_differ.
    + intros f [<-|[]]. reflexivity.
    + cbn. lia.
    + reflexivity.
Defined.

Lemma newSet_In (xs : list string) (x : string) :
  In x (newSet xs) -> In x xs.
Proof.
  induction xs as [|y xs IH]; [intros []|].
  cbn [newSet]. intros [->|Hin]; [left; reflexivity|].
  apply filter_In in Hin. right. apply IH, Hin.
Qed.

Lemma newSet_same (xs : list string) (x : string) :
  Forall (fun y => y = x) xs -> newSet xs = [] \/ newSet xs = [x].
Proof.
  intros H. destruct xs as [|y xs]; [left; reflexivity|]. right.
  inversion H as [|? ? Hy Hxs]; subst.
  cbn [newSet]. f_equal. apply filter_none. intros z Hz. apply newSet_In in Hz.
  rewrite Forall_forall in Hxs. rewrite (Hxs z Hz), String.eqb_refl. reflexivity.
Qed.

(** [getUsersWithShopFavorited] asks for the favourites of the user whose
    id is the empty string, so it can name no other user: its result is
    empty or the empty id alone, and it is empty whenever no favourite
    belongs to a user with the empty id, whoever has the shop as a
    favourite. *)
Theorem getUsersWithShopFavorited_finds_nobody (db : DB) (shopId : string) :
  (getUsersWithShopFavorited db shopId = []
   \/ getUsersWithShopFavorited db shopId = [EmptyString])
  /\ ((forall f, In f (userFavorites db) -> fav_userId f <> EmptyString) ->
      getUsersWithShopFavorited db shopId = []).
Proof.
  unfold getUsersWithShopFavorited.
  destruct (getUserFavorites db EmptyString 0 1000) as [favorites|err] eqn:Efav;
    [|split; [left; reflexivity|intros _; reflexivity]].
  cbv zeta.
  assert (Hall : Forall (fun y => y = EmptyString)
                   (map (fun fav => fav_userId (fws_favorite fav))
                      (filter (fun fav => String.eqb (shop_id (fs_shop (fws_shop fav))) shopId)
                         favorites))).
  { apply Forall_forall. intros y Hy. apply in_map_iff in Hy.
    destruct Hy as (e & <- & He). apply filter_In in He. destruct He as [He _].
    apply (getUserFavorites_entry db EmptyString 0 1000 favorites e Efav He). }
  split.
  - apply newSet_same. exact Hall.
  - intros Hno.
    destruct (filter (fun fav => String.eqb (shop_id (fs_shop (fws_shop fav))) shopId)
                favorites) as [|e rest] eqn:E;
      [reflexivity|].
    exfalso.
    assert (He : In e (filter
                         (fun fav => String.eqb (shop_id (fs_shop (fws_shop fav))) shopId)
                         favorites))
      by (rewrite E; left; reflexivity).
    apply filter_In in He. destruct He as [He _].
    destruct (getUserFavorites_entry db EmptyString 0 1000 favorites e Efav He)
      as (Hf & Hu & _).
    exact (Hno _ Hf Hu).
Qed.

End FavoriteListFacts.

(** ** The sort orders of the list *)

Section SortOrderFacts.
Import Storage Routes.

Lemma ordered_weaken {A : Type} (R R' : A -> A -> Prop) (l : list A) :
  (forall a b, R a b -> R' a b) -> ordered R l -> ordered R' l.
Proof.
  intros HR. induction l as [|x l IH]; [intros _; exact I|].
  cbn [ordered]. intros [Hx Hl]. split; [|exact (IH Hl)].
  revert Hx. apply Forall_impl. exact (HR x).
Qed.

Lemma ordered_map {A B : Type} (f : A -> B) (R : B -> B -> Prop) (l : list A) :
  ordered (fun a b => R (f a) (f b)) l -> ordered R (map f l).
Proof.
  induction l as [|x l IH]; [intros _; exact I|].
  cbn [ordered map]. intros [Hx Hl]. split; [|exact (IH Hl)].
  apply Forall_map. exact Hx.
Qed.

Lemma ordered_sub {A : Type} (R : A -> A -> Prop) (pick : list A -> list A) :
  (forall l x, In x (pick l) -> In x l) ->
  (forall x l, pick (x :: l) = x :: pick l \/ pick (x :: l) = pick l) ->
  forall l, ordered R l -> ordered R (pick l).
Proof.
  intros Hin Hstep. induction l as [|x l IH].
  - intros _. destruct (pick []) as [|y t] eqn:E; [exact I|].
    exfalso. apply (Hin [] y). rewrite E. left. reflexivity.
  - cbn [ordered]. intros [Hx Hl].
    destruct (Hstep x l) as [E|E]; rewrite E; [|exact (IH Hl)].
    cbn [ordered]. split; [|exact (IH Hl)].
    apply Forall_forall. intros y Hy. apply Hin in Hy.
    revert y Hy. apply Forall_forall. exact Hx.
Qed.

Lemma ordered_filter {A : Type} (R : A -> A -> Prop) (p : A -> bool) (l : list A) :
  ordered R l -> ordered R (filter p l).
Proof.
  apply (ordered_sub R (filter p)).
  - intros l0 x Hx. apply filter_In in Hx. apply Hx.
  - intros x l0. cbn [filter]. destruct (p x); [left|right]; reflexivity.
Qed.

Lemma ordered_skipn {A : Type} (R : A -> A -> Prop) (n : nat) (l : list A) :
  ordered R l -> ordered R (skipn n l).
Proof.
  revert l. induction n as [|n IH]; intros l Hl; [exact Hl|].
  destruct l as [|x l]; [exact I|]. cbn [skipn]. apply IH. apply Hl.
Qed.

Lemma ordered_firstn {A : Type} (R : A -> A -> Prop) (n : nat) (l : list A) :
  ordered R l -> ordered R (firstn n l).
Proof.
  revert l. induction n as [|n IH]; intros l Hl; [exact I|].
  destruct l as [|x l]; [exact I|]. cbn [firstn ordered]. destruct Hl as [Hx Hl].
  split; [|exact (IH l Hl)].
  apply Forall_forall. intros y Hy. apply In_firstn in Hy.
  revert y Hy. apply Forall_forall. exact Hx.
Qed.

Lemma ordered_slice {A : Type} (R : A -> A -> Prop) (a b : number) (l : list A) :
  ordered R l -> ordered R (slice a b l).
Proof.
  intros Hl. unfold slice. apply ordered_firstn, ordered_skipn, Hl.
Qed.

Section TotalPreorder.
Context {A : Type} (stays : A -> A -> bool).
Hypothesis total : forall a b, stays a b = false -> stays b a = true.
Hypothesis trans : forall a b c, stays a b = true -> stays b c = true -> stays a c = true.

Lemma insertSorted_ordered (x : A) (l : list A) :
  ordered (fun a b => stays a b = true) l ->
  ordered (fun a b => stays a b = true) (insertSorted stays x l).
Proof.
  induction l as [|y l IH]; [intros _; cbn; auto|].
  cbn [ordered insertSorted]. intros [Hy Hl].
  destruct (stays x y) eqn:E; cbn [ordered].
  - split; [|split; assumption].
    constructor; [exact E|].
    revert Hy. apply Forall_impl. intros z Hz. exact (trans x y z E Hz).
  - split; [|exact (IH Hl)].
    apply Forall_forall. intros z Hz. apply insertSorted_In in Hz.
    destruct Hz as [->|Hz]; [exact (total x y E)|].
    revert z Hz. apply Forall_forall. exact Hy.
Qed.

Lemma stableSort_ordered (l : list A) :
  ordered (fun a b => stays a b = true) (stableSort stays l).
Proof.
  unfold stableSort. induction l as [|x l IH]; [exact I|].
  cbn [fold_right]. apply insertSorted_ordered. exact IH.
Qed.

End TotalPreorder.

Lemma descQ_total (a b : option Q) : Sql.descQ a b = false -> Sql.descQ b a = true.
Proof.
  destruct a as [x|], b as [y|]; cbn [Sql.descQ]; try reflexivity; try discriminate.
  intros H. apply Qle_bool_iff. apply Qlt_le_weak. apply Qnot_le_lt.
  intros Hle. apply Qle_bool_iff in Hle. congruence.
Qed.

Lemma descQ_trans (a b c : option Q) :
  Sql.descQ a b = true -> Sql.descQ b c = true -> Sql.descQ a c = true.
Proof.
  destruct a as [x|], b as [y|], c as [z|]; cbn [Sql.descQ];
    try reflexivity; try discriminate.
  rewrite !Qle_bool_iff. intros H1 H2. exact (Qle_trans _ _ _ H2 H1).
Qed.

Lemma asc_total (a b : option Z) : Sql.asc a b = false -> Sql.asc b a = true.
Proof.
  destruct a as [x|], b as [y|]; cbn [Sql.asc]; try reflexivity; try discriminate.
  intros H. apply Z.leb_le. apply Z.leb_gt in H. lia.
Qed.

Lemma asc_trans (a b c : option Z) :
  Sql.asc a b = true -> Sql.asc b c = true -> Sql.asc a c = true.
Proof.
  destruct a as [x|], b as [y|], c as [z|]; cbn [Sql.asc];
    try reflexivity; try discriminate.
  rewrite !Z.leb_le. lia.
Qed.

Lemma byPriceThenRating_total (a b : Group) :
  byPriceThenRating a b = false -> byPriceThenRating b a = true.
Proof.
  unfold byPriceThenRating, byPrice, byRating.
  pose proof (asc_total (shop_priceLevel (fst a)) (shop_priceLevel (fst b))) as T1.
  pose proof (asc_total (shop_priceLevel (fst b)) (shop_priceLevel (fst a))) as T2.
  pose proof (descQ_total (Sql.AVG (groupRatings a)) (Sql.AVG (groupRatings b))) as T3.
  destruct (Sql.asc (shop_priceLevel (fst a)) (shop_priceLevel (fst b)));
    destruct (Sql.asc (shop_priceLevel (fst b)) (shop_priceLevel (fst a)));
    cbn [negb]; auto; discriminate.
Qed.

Lemma byPriceThenRating_trans (a b c : Group) :
  byPriceThenRating a b = true -> byPriceThenRating b c = true ->
  byPriceThenRating a c = true.
Proof.
  unfold byPriceThenRating, byPrice, byRating.
  pose proof (asc_total (shop_priceLevel (fst a)) (shop_priceLevel (fst b))) as Tab.
  pose proof (asc_total (shop_priceLevel (fst b)) (shop_priceLevel (fst c))) as Tbc.
  pose proof (asc_total (shop_priceLevel (fst a)) (shop_priceLevel (fst c))) as Tac.
  pose proof (asc_trans (shop_priceLevel (fst a)) (shop_priceLevel (fst b))
                (shop_priceLevel (fst c))) as Pabc.
  pose proof (asc_trans (shop_priceLevel (fst b)) (shop_priceLevel (fst c))
                (shop_priceLevel (fst a))) as Pbca.
  pose proof (asc_trans (shop_priceLevel (fst c)) (shop_priceLevel (fst a))
                (shop_priceLevel (fst b))) as Pcab.
  pose proof (descQ_trans (Sql.AVG (groupRatings a)) (Sql.AVG (groupRatings b))
                (Sql.AVG (groupRatings c))) as Rabc.
  destruct (Sql.asc (shop_priceLevel (fst a)) (shop_priceLevel (fst b)));
    destruct (Sql.asc (shop_priceLevel (fst b)) (shop_priceLevel (fst a)));
    destruct (Sql.asc (shop_priceLevel (fst b)) (shop_priceLevel (fst c)));
    destruct (Sql.asc (shop_priceLevel (fst c)) (shop_priceLevel (fst b)));
    destruct (Sql.asc (shop_priceLevel (fst a)) (shop_priceLevel (fst c)));
    destruct (Sql.asc (shop_priceLevel (fst c)) (shop_priceLevel (fst a)));
    cbn [negb]; intros H1 H2; auto; try discriminate;
    solve [ exfalso; (discriminate (Pabc eq_refl eq_refl)
                      || discriminate (Pbca eq_refl eq_refl)
                      || discriminate (Pcab eq_refl eq_refl)
                      || discriminate (Tab eq_refl)
                      || discriminate (Tbc eq_refl)
                      || discriminate (Tac eq_refl)) ].
Qed.

Lemma COUNT_groupReviewIds (g : Group) :
  Sql.COUNT (groupReviewIds g) = Z.of_nat (List.length (groupRatings g)).
Proof.
  unfold Sql.COUNT, groupReviewIds, groupRatings. f_equal.
  induction (snd g) as [|r l IH]; [reflexivity|].
  cbn [map filter flat_map]. destruct r; cbn [List.length app]; [f_equal|]; exact IH.
Qed.

(** [desc(AVG(rating))] on two groups, read on the columns selected from
    them. *)
Lemma byRating_selected (g1 g2 : Group) :
  byRating g1 g2 = true ->
  item_reviewCount (selectColumns g1) = 0
  \/ (item_reviewCount (selectColumns g2) <> 0
      /\ (item_avgRating (selectColumns g2) <= item_avgRating (selectColumns g1))%Q).
Proof.
  unfold byRating. cbn [selectColumns item_reviewCount item_avgRating].
  rewrite !COUNT_groupReviewIds. unfold Sql.AVG.
  destruct (groupRatings g1) as [|x xs]; [left; reflexivity|].
  destruct (groupRatings g2) as [|y ys]; cbn [Sql.descQ]; [discriminate|].
  intros H. right. split; [cbn [List.length]; lia|].
  cbn [Sql.COALESCE]. apply Qle_bool_iff. exact H.
Qed.

Lemma byPriceThenRating_selected (g1 g2 : Group) :
  byPriceThenRating g1 g2 = true ->
  byPrice g1 g2 = true /\ (byPrice g2 g1 = true -> byRating g1 g2 = true).
Proof.
  unfold byPriceThenRating.
  pose proof (asc_total (shop_priceLevel (fst g2)) (shop_priceLevel (fst g1))) as T.
  fold (byPrice g2 g1) in T. fold (byPrice g1 g2) in T.
  destruct (byPrice g2 g1); cbn [negb].
  - destruct (byPrice g1 g2); cbn [negb]; [|discriminate]. auto.
  - intros _. split; [apply T; reflexivity|discriminate].
Qed.

(** Distances, the radius filter and the page leave the order of the
    query as it is, unless the distance sort is asked for. *)
Lemma queryResult_keeps_order (db : DB) (filters : Filters) (R : Item -> Item -> Prop) :
  (forall i1 i2 d1 d2,
     R i1 i2 ->
     R (mkItem (item_shop i1) (item_avgRating i1) (item_reviewCount i1) (Some d1))
       (mkItem (item_shop i2) (item_avgRating i2) (item_reviewCount i2) (Some d2))) ->
  sortByIs filters "distance" = false ->
  ordered R (baseQuery db filters) ->
  ordered R (queryResult db filters).
Proof.
  intros Hext Hsort Hbase. unfold queryResult.
  destruct (lat filters) as [lat0|]; [|exact Hbase].
  destruct (lng filters) as [lng0|]; [|exact Hbase].
  rewrite Hsort. apply ordered_map.
  destruct (radius filters); [apply ordered_filter|]; apply ordered_map;
    cbn [fst snd]; (eapply ordered_weaken; [|exact Hbase]);
    intros a b Hab; apply Hext; exact Hab.
Qed.

Lemma getShops_keeps_order (db : DB) (filters : Filters)
  (stays : Group -> Group -> bool) (R : ShopWithDetails -> ShopWithDetails -> Prop) :
  orderByClause filters = Some stays ->
  sortByIs filters "distance" = false ->
  (forall a b, stays a b = false -> stays b a = true) ->
  (forall a b c, stays a b = true -> stays b c = true -> stays a c = true) ->
  (forall g1 g2 d1 d2,
     stays g1 g2 = true ->
     R (withDetails db (mkItem (fst g1) (item_avgRating (selectColumns g1))
                          (item_reviewCount (selectColumns g1)) d1))
       (withDetails db (mkItem (fst g2) (item_avgRating (selectColumns g2))
                          (item_reviewCount (selectColumns g2)) d2))) ->
  ordered R (getShops db filters).
Proof.
  intros Hclause Hsort Htotal Htrans HR.
  unfold getShops. cbv zeta. apply ordered_map, ordered_slice.
  set (RI := fun i1 i2 : Item =>
               exists g1 g2,
                 stays g1 g2 = true
                 /\ item_shop i1 = fst g1 /\ item_shop i2 = fst g2
                 /\ item_avgRating i1 = item_avgRating (selectColumns g1)
                 /\ item_avgRating i2 = item_avgRating (selectColumns g2)
                 /\ item_reviewCount i1 = item_reviewCount (selectColumns g1)
                 /\ item_reviewCount i2 = item_reviewCount (selectColumns g2)).
  apply (ordered_weaken RI).
  { intros [s1 a1 c1 d1] [s2 a2 c2 d2] (g1 & g2 & Hst & E1 & E2 & E3 & E4 & E5 & E6).
    cbn [item_shop item_avgRating item_reviewCount] in E1, E2, E3, E4, E5, E6.
    subst. apply HR. exact Hst. }
  apply queryResult_keeps_order; [|exact Hsort|].
  { intros i1 i2 d1 d2 (g1 & g2 & H). exists g1, g2. exact H. }
  unfold baseQuery. cbv zeta. rewrite Hclause. apply ordered_map.
  eapply ordered_weaken; [|apply (stableSort_ordered stays Htotal Htrans)].
  intros g1 g2 Hst. exists g1, g2. cbn [selectColumns item_shop].
  repeat (split; [first [exact Hst|reflexivity]|]). reflexivity.
Qed.

Lemma sortByIs_other (filters : Filters) (name other : string) :
  sortByIs filters name = true -> String.eqb name other = false ->
  sortByIs filters other = false.
Proof.
  unfold sortByIs. destruct (sortBy filters) as [s|]; [|discriminate].
  intros H. apply String.eqb_eq in H. subst s. intros E. exact E.
Qed.

Lemma rating_order (db : DB) (filters : Filters) :
  sortByIs filters "rating" = true -> ordered ratingBefore (getShops db filters).
Proof.
  intros H.
  apply (getShops_keeps_order db filters byRating).
  - unfold orderByClause. rewrite H. reflexivity.
  - apply (sortByIs_other filters "rating"); [exact H|reflexivity].
  - intros a b. apply descQ_total.
  - intros a b c. apply descQ_trans.
  - intros g1 g2 d1 d2 Hst. unfold ratingBefore.
    cbn [withDetails swd_reviewCount swd_avgRating item_avgRating item_reviewCount].
    apply (byRating_selected g1 g2 Hst).
Qed.

(** Each [sortBy] does what it names, on the whole path to the page:
    with [rating], shops nobody has reviewed come first and the reviewed
    ones follow by falling average; with [price], prices rise and shops
    without a price level come last; with none of the three names, shops
    are in price order and, within a price level, in rating order.  This
    holds with or without a reference point and a radius. *)
Theorem getShops_sort_orders (db : DB) (filters : Filters) :
  (sortByIs filters "rating" = true -> ordered ratingBefore (getShops db filters))
  /\ (sortByIs filters "price" = true -> ordered priceBefore (getShops db filters))
  /\ (sortByIs filters "rating" = false -> sortByIs filters "price" = false ->
      sortByIs filters "distance" = false ->
      ordered priceThenRatingBefore (getShops db filters)).
Proof.
  split; [|split].
  - apply rating_order.
  - intros H.
    apply (getShops_keeps_order db filters byPrice).
    + unfold orderByClause.
      rewrite (sortByIs_other filters "price" "rating" H eq_refl), H. reflexivity.
    + apply (sortByIs_other filters "price"); [exact H|reflexivity].
    + intros a b. apply asc_total.
    + intros a b c. apply asc_trans.
    + intros g1 g2 d1 d2 Hst. exact Hst.
  - intros Hr Hp Hd.
    apply (getShops_keeps_order db filters byPriceThenRating).
    + unfold orderByClause. rewrite Hr, Hp, Hd. reflexivity.
    + exact Hd.
    + apply byPriceThenRating_total.
    + apply byPriceThenRating_trans.
    + intros g1 g2 d1 d2 Hst.
      destruct (byPriceThenRating_selected g1 g2 Hst) as [Hprice Hrating].
      unfold priceThenRatingBefore, priceBefore, ratingBefore.
      cbn [withDetails swd_shop swd_reviewCount swd_avgRating item_shop item_avgRating
             item_reviewCount].
      split; [exact Hprice|].
      intros Hback. apply (byRating_selected g1 g2 (Hrating Hback)).
Qed.

Lemma getShops_sort_orders_witness :
  ordered ratingBefore (getShops freiberg byRatingFilters).
Proof.
  exact (proj1 (getShops_sort_orders freiberg byRatingFilters) eq_refl).
Defined.

Lemma listed_shop_is_published (db : DB) (filters : Filters) (d : ShopWithDetails) :
  In d (getShops db filters) ->
  In (swd_shop d) (shops db) /\ shop_isPublished (swd_shop d) = Some true.
Proof.
  intros Hd. apply getShops_In in Hd. destruct Hd as (item & Hi & ->).
  apply queryResult_In in Hi. destruct Hi as (item0 & H0 & Hs & _).
  apply baseQuery_where in H0. destruct H0 as [Hin Hw].
  cbn [withDetails swd_shop]. rewrite Hs. split; [exact Hin|].
  unfold whereClause in Hw.
  repeat (apply andb_prop in Hw; destruct Hw as [Hw _]).
  destruct (shop_isPublished (item_shop item0)) as [[|]|]; try discriminate.
  reflexivity.
Qed.

(** [GET /api/top] answers with published shops in rating order, which
    puts the shops nobody has reviewed at the top, before the best rated
    one; without a [limit] it answers with at most three. *)
Theorem getApiTop_leads_with_unreviewed (db : DB) (query : TopQuery) :
  ordered ratingBefore (bodyOf (getApiTop db query))
  /\ Forall (fun d => shop_isPublished (swd_shop d) = Some true) (bodyOf (getApiTop db query))
  /\ (t_limit query = None -> (List.length (bodyOf (getApiTop db query)) <= 3)%nat).
Proof.
  unfold getApiTop, awaitGetShops.
  match goal with |- context [existsb hasNul ?ps] => destruct (existsb hasNul ps) end;
    cbn [bodyOf].
  { split; [exact I|]. split; [constructor|]. intros _. cbn [List.length]. lia. }
  split; [|split].
  - apply rating_order. reflexivity.
  - apply Forall_forall. intros d Hd. apply (listed_shop_is_published _ _ _ Hd).
  - intros ->.
    match goal with
    | |- context [getShops db ?f] => rewrite (getShops_slice db f 0 3 eq_refl eq_refl eq_refl)
    end.
    apply firstn_le_length.
Qed.

End SortOrderFacts.

(** ** The review list of the administration *)

Section AdminReviewFacts.
Import Storage Routes PushService.

Lemma leftJoinOn_In_fst {A B : Type} (on : A -> B -> bool) (l : list A) (r : list B)
  (row : A * option B) :
  In row (Sql.leftJoinOn on l r) -> In (fst row) l.
Proof.
  unfold Sql.leftJoinOn. rewrite in_flat_map. intros (a & Ha & Hrow).
  destruct (filter (on a) r) as [|b matches].
  - destruct Hrow as [<-|[]]. exact Ha.
  - apply in_map_iff in Hrow. destruct Hrow as (x & <- & _). exact Ha.
Qed.

Lemma getReviewsByShopId_entry (db : DB) (shopId : string) (offset limit : nat)
  (entries : list ReviewWithUser) (e : ReviewWithUser) :
  getReviewsByShopId db shopId offset limit = Ok entries ->
  In e entries ->
  review_shopId (rwu_review e) = shopId /\ In (rwu_review e) (reviews db).
Proof.
  unfold getReviewsByShopId. cbv zeta. destruct (hasNul shopId); [discriminate|].
  intros E He. destruct (mapOrThrow_In _ _ _ _ E He) as (row & Hrow & Erow).
  unfold Sql.limitOffset, Sql.orderBy in Hrow.
  apply In_firstn, In_skipn in Hrow. apply stableSort_In in Hrow.
  apply filter_In in Hrow. destruct Hrow as [Hrow Hshop].
  apply String.eqb_eq in Hshop.
  unfold reviewsJoined in Hrow.
  apply leftJoinOn_In_fst, leftJoinOn_In_fst in Hrow.
  unfold toReviewWithUser in Erow.
  destruct (selectReviewUser (snd (fst row))); [|discriminate].
  injection Erow as <-. cbn [rwu_review]. split; assumption.
Qed.

Lemma insertSorted_ext_In {A : Type} (stays stays' : A -> A -> bool) (x : A) (l : list A) :
  (forall b, In b l -> stays x b = stays' x b) ->
  insertSorted stays x l = insertSorted stays' x l.
Proof.
  induction l as [|y l IH]; intros H; [reflexivity|].
  cbn [insertSorted]. rewrite (H y (or_introl eq_refl)).
  destruct (stays' x y); [reflexivity|]. rewrite IH; [reflexivity|].
  intros b Hb. apply H. right. exact Hb.
Qed.

(** Sorting looks at the order of the elements of the list only. *)
Lemma stableSort_ext_In {A : Type} (stays stays' : A -> A -> bool) (l : list A) :
  (forall a b, In a l -> In b l -> stays a b = stays' a b) ->
  stableSort stays l = stableSort stays' l.
Proof.
  unfold stableSort. induction l as [|x l IH]; intros H; [reflexivity|].
  cbn [fold_right]. rewrite IH by (intros a b Ha Hb; apply H; right; assumption).
  apply insertSorted_ext_In. intros b Hb.
  apply (stableSort_In stays' b l) in Hb.
  apply H; [left; reflexivity|right; exact Hb].
Qed.

Lemma ordered_weaken_In {A : Type} (R R' : A -> A -> Prop) (l : list A) :
  (forall a b, In a l -> In b l -> R a b -> R' a b) -> ordered R l -> ordered R' l.
Proof.
  induction l as [|x l IH]; intros HR; [intros _; exact I|].
  cbn [ordered]. intros [Hx Hl]. split.
  - apply Forall_forall. intros y Hy. apply HR; [left; reflexivity|right; exact Hy|].
    revert y Hy. apply Forall_forall. exact Hx.
  - apply IH; [|exact Hl]. intros a b Ha Hb. apply HR; right; assumption.
Qed.

(** The time of a stored date that a [Date] holds. *)
Lemma getTime_isDouble (c : option timestamp) :
  isDouble (getTime c) ->
  getTime c = Int (match c with Some t => t | None => 0 end)
  /\ Z.abs (match c with Some t => t | None => 0 end) <= infinity.
Proof.
  unfold getTime. destruct c as [t|].
  - destruct (Z.abs t <=? 8640000000000000); [|intros []].
    intros H. split; [reflexivity|exact H].
  - intros H. split; [reflexivity|exact H].
Qed.

(** [GET /api/admin/reviews] walks the shops of [getShops({})] and asks
    for the review list of each.  With user and shop ids unique and no two
    reviews of the same time: when the review list of every listed shop
    can be made, the answer is 200, every review in it is a stored review
    of a published shop (reviews of unpublished shops never reach the
    administration's list), and the list is newest first when every stored
    time is one a [Date] holds; when one listed shop has a review without
    an author among its newest thousand, as an anonymous review, the
    answer is 500 and no review is shown. *)
Theorem admin_reviews_only_of_published (db : DB) :
  NoDup (map user_id (users db)) ->
  NoDup (map shop_id (shops db)) ->
  NoDup (map review_createdAt (reviews db)) ->
  if forallb (fun d => listable db 1000 (shop_id (swd_shop d))) (getShops db noFilter)
  then exists body,
         getApiAdminReviews db = Json 200 body
         /\ Forall
              (fun e =>
                 In (rwu_review e) (reviews db)
                 /\ exists s,
                      In s (shops db)
                      /\ shop_id s = review_shopId (rwu_review e)
                      /\ shop_isPublished s = Some true)
              body
         /\ (Forall (fun r => isDouble (getTime (review_createdAt r))) (reviews db) ->
             ordered
               (fun a b => num_le (getTime (review_createdAt (rwu_review b)))
                                  (getTime (review_createdAt (rwu_review a))) = true)
               body)
  else getApiAdminReviews db = ErrorJson 500 "Failed to fetch reviews".
Proof.
  intros Hu Hs _. unfold getApiAdminReviews. cbv zeta.
  destruct (forallb (fun d => listable db 1000 (shop_id (swd_shop d)))
              (getShops db noFilter)) eqn:Hall.
  - destruct (mapOrThrow_returns
                (fun shop => getReviewsByShopId db (shop_id (swd_shop shop)) 0 1000)
                (getShops db noFilter)) as (shopReviews & E).
    { intros d Hd. rewrite forallb_forall in Hall.
      exact (proj1 (getReviewsByShopId_listable db _ 1000 Hu Hs) (Hall d Hd)). }
    rewrite E. eexists. split; [reflexivity|].
    assert (Hstored : forall e,
               In e (List.concat shopReviews) ->
               In (rwu_review e) (reviews db)
               /\ exists s,
                    In s (shops db)
                    /\ shop_id s = review_shopId (rwu_review e)
                    /\ shop_isPublished s = Some true).
    { intros e He. apply in_concat in He. destruct He as (entries & Hentries & He).
      destruct (mapOrThrow_In _ _ _ _ E Hentries) as (d & Hd & Ed).
      destruct (getReviewsByShopId_entry db _ 0 1000 entries e Ed He) as [Hshop Hin].
      split; [exact Hin|].
      destruct (listed_shop_is_published db noFilter d Hd) as [Hsh Hpub].
      exists (swd_shop d). split; [exact Hsh|]. split; [symmetry; exact Hshop|exact Hpub]. }
    split.
    + apply Forall_forall. intros e He.
      unfold Array_sort in He. apply stableSort_In in He. exact (Hstored e He).
    + intros Htimes. rewrite Forall_forall in Htimes.
      assert (Htime : forall e,
                 In e (List.concat shopReviews) ->
                 getTime (review_createdAt (rwu_review e))
                 = Int (match review_createdAt (rwu_review e) with
                        | Some t => t | None => 0 end)
                 /\ Z.abs (match review_createdAt (rwu_review e) with
                           | Some t => t | None => 0 end) <= infinity).
      { intros e He. apply getTime_isDouble. apply Htimes. apply (Hstored e He). }
      unfold Array_sort.
      rewrite (stableSort_ext_In _
                 (fun a b : ReviewWithUser =>
                    (match review_createdAt (rwu_review b) with Some t => t | None => 0 end)
                    <=? (match review_createdAt (rwu_review a) with
                         | Some t => t | None => 0 end))).
      * eapply ordered_weaken_In;
          [|apply (stableSort_ordered
                     (fun a b : ReviewWithUser =>
                        (match review_createdAt (rwu_review b) with
                         | Some t => t | None => 0 end)
                        <=? (match review_createdAt (rwu_review a) with
                             | Some t => t | None => 0 end)))].
        -- intros a b Ha Hb. apply stableSort_In in Ha, Hb.
           destruct (Htime a Ha) as [-> _]. destruct (Htime b Hb) as [-> _].
           cbn [num_le]. intros H; exact H.
        -- intros a b H. apply Z.leb_gt in H. apply Z.leb_le. lia.
        -- intros a b c H1 H2. apply Z.leb_le in H1, H2. apply Z.leb_le. lia.
      * intros a b Ha Hb.
        destruct (Htime a Ha) as [-> Ba]. destruct (Htime b Hb) as [-> Bb].
        rewrite (num_sub_positive _ _ Bb Ba).
        match goal with |- negb (?x <? ?y) = (?y <=? ?x) =>
          destruct (Z.ltb_spec x y), (Z.leb_spec y x); try reflexivity; exfalso; lia
        end.
  - apply forallb_false_In in Hall. destruct Hall as (d & Hd & Hno).
    destruct (mapOrThrow_throws
                (fun shop => getReviewsByShopId db (shop_id (swd_shop shop)) 0 1000)
                (getShops db noFilter) d Hd
                (proj2 (getReviewsByShopId_listable db _ 1000 Hu Hs) Hno)) as (e & E).
    rewrite E. reflexivity.
Qed.

Lemma admin_reviews_only_of_published_witness :
  getApiAdminReviews freiberg = ErrorJson 500 "Failed to fetch reviews"
  /\ exists body,
       getApiAdminReviews signedFreiberg = Json 200 body
       /\ map (fun e => review_id (rwu_review e)) body = ["r3"; "r1"].
Proof.
  split.
  - exact (admin_reviews_only_of_published freiberg freiberg_users_unique
             freiberg_ids_unique freiberg_times_differ).
  - destruct (admin_reviews_only_of_published signedFreiberg freiberg_users_unique
                freiberg_ids_unique signedFreiberg_times_differ)
      as (body & E & _).
    exists body. split; [exact E|].
    revert E. vm_compute. intros E. injection E as <-. reflexivity.
Defined.

Lemma getUsersWithShopFavorited_finds_nobody_witness :
  isShopFavorited freiberg "u1" "s1" = true
  /\ getUsersWithShopFavorited freiberg "s1" = [].
Proof.
  split; [reflexivity|].
  apply (proj2 (getUsersWithShopFavorited_finds_nobody freiberg "s1")).
  intros f [<-|[]]. discriminate.
Defined.

End AdminReviewFacts.

(** ** The status text of a shop *)

Section StatusTextFacts.
Import Utils.

(** What [getShopStatusText] says about today, for a weekday in 0..6 as
    [getDay()] gives it: an open shop is always shown with today's closing
    time (the text without a time is never reached), and a closed shop
    whose entry for today has an opening time is announced as opening
    today at that time, whether that time is still to come or the shop has
    already closed for the day. *)
Theorem getShopStatusText_today (hours : list OpeningHours) (now : Instant) :
  0 <= getDay now < 7 ->
  (isShopOpen hours now = true ->
   exists today c,
     todayHours hours now = Some today
     /\ oh_closeTime today = Some c
     /\ getShopStatusText hours now = ("Bis " ++ c ++ " geöffnet")%string)
  /\ (isShopOpen hours now = false ->
      forall today o,
        todayHours hours now = Some today ->
        oh_openTime today = Some o ->
        o <> "" ->
        getShopStatusText hours now = ("Öffnet heute um " ++ o)%string).
Proof.
  intros Hday. split.
  - intros Hopen. pose proof Hopen as H0. rewrite isShopOpen_unfold in H0.
    destruct (todayHours hours now) as [today|] eqn:Et; [|discriminate].
    destruct (oh_openTime today) as [o|]; [|discriminate].
    destruct (oh_closeTime today) as [c|] eqn:Ec; [|discriminate].
    exists today, c. split; [reflexivity|]. split; [exact Ec|].
    unfold getShopStatusText. rewrite Hopen.
    destruct hours as [|h hs]; [discriminate|].
    unfold todayHours in Et. rewrite Et, Ec.
    destruct c as [|c1 c']; [|reflexivity].
    rewrite toHHMM_empty in H0. destruct (toHHMM o); discriminate.
  - intros Hclosed today o Et Eo Hne.
    unfold getShopStatusText. rewrite Hclosed.
    destruct hours as [|h hs]; [discriminate|].
    cbn [nextOpening]. unfold jsMod.
    rewrite Z.add_0_r, (Z.rem_small (getDay now) 7 Hday).
    unfold todayHours in Et. rewrite Et, Eo.
    destruct o as [|o1 o']; [contradiction Hne; reflexivity|]. reflexivity.
Qed.

Lemma getShopStatusText_today_witness :
  isShopOpen mondayHours (mkInstant 1 23 0) = false
  /\ getShopStatusText mondayHours (mkInstant 1 23 0) = "Öffnet heute um 11:00".
Proof.
  split; [reflexivity|].
  refine (proj2 (getShopStatusText_today mondayHours (mkInstant 1 23 0) _) eq_refl
            (mkOpeningHours "h1" "s1" 1 (Some "11:00") (Some "22:00") None) "11:00"
            eq_refl eq_refl _).
  - cbn. lia.
  - discriminate.
Defined.

End StatusTextFacts.

(** ** Slugs *)

Section SlugFacts.
Import Routes.

Lemma dash_is_no_slug_char : isSlugChar dash = false.
Proof. reflexivity. Qed.

Lemma replaceRuns_head (c : Z) (rest : CodeUnits) :
  isSlugChar c = true -> replaceRuns (c :: rest) = c :: replaceRuns rest.
Proof.
  intros H. cbn [replaceRuns]. rewrite H. reflexivity.
Qed.

Lemma replaceRuns_separates (s : CodeUnits) : dashesSeparate (replaceRuns s).
Proof.
  induction s as [|c rest IH]; [exact I|].
  cbn [replaceRuns]. destruct (isSlugChar c) eqn:Ec.
  - cbn [dashesSeparate]. split; [left; exact Ec|exact IH].
  - destruct rest as [|c' rest']; [cbn; auto|].
    destruct (isSlugChar c') eqn:Ec'; [|exact IH].
    cbn [dashesSeparate]. split; [|exact IH].
    right. split; [reflexivity|].
    rewrite (replaceRuns_head c' rest' Ec'). exact Ec'.
Qed.

Lemma dashesSeparate_app_l (p q : CodeUnits) :
  dashesSeparate (p ++ q) -> dashesSeparate p.
Proof.
  induction p as [|c p IH]; [intros _; exact I|].
  cbn [app dashesSeparate]. intros [Hc Hrest]. split; [|exact (IH Hrest)].
  destruct Hc as [Hc|[Hc Hnext]]; [left; exact Hc|].
  right. split; [exact Hc|]. destruct p as [|c' p']; [exact I|exact Hnext].
Qed.

Lemma dropDashes_split (s : CodeUnits) :
  exists k, s = repeat dash k ++ dropDashes s.
Proof.
  induction s as [|c rest IH]; [exists O; reflexivity|].
  cbn [dropDashes]. destruct (c =? dash) eqn:E.
  - destruct IH as (k & Hk). exists (S k). apply Z.eqb_eq in E. subst c.
    cbn [repeat app]. f_equal. exact Hk.
  - exists O. reflexivity.
Qed.

Lemma dropDashes_head (s : CodeUnits) : hd_error (dropDashes s) <> Some dash.
Proof.
  induction s as [|c rest IH]; [discriminate|].
  cbn [dropDashes]. destruct (c =? dash) eqn:E; [exact IH|].
  cbn [hd_error]. intros H. injection H as ->. discriminate.
Qed.

Lemma dropDashes_separate (s : CodeUnits) :
  dashesSeparate s -> dashesSeparate (dropDashes s).
Proof.
  induction s as [|c rest IH]; [intros _; exact I|].
  intros H. cbn [dropDashes]. destruct (c =? dash); [|exact H].
  apply IH. apply H.
Qed.

Lemma dropDashes_fixed (s : CodeUnits) :
  hd_error s <> Some dash -> dropDashes s = s.
Proof.
  destruct s as [|c rest]; [reflexivity|].
  cbn [hd_error dropDashes]. intros H. destruct (c =? dash) eqn:E; [|reflexivity].
  apply Z.eqb_eq in E. subst c. contradiction H. reflexivity.
Qed.

(** What [trimDashes] leaves is what goes before the dashes at the end. *)
Lemma trimEnd_split (s : CodeUnits) :
  exists k, s = rev (dropDashes (rev s)) ++ repeat dash k.
Proof.
  destruct (dropDashes_split (rev s)) as (k & Hk). exists k.
  rewrite <- (rev_involutive s) at 1. rewrite Hk at 1.
  rewrite rev_app_distr. f_equal.
  clear Hk. induction k as [|k IH]; [reflexivity|].
  cbn [repeat rev]. rewrite IH.
  clear IH. induction k as [|k IH]; [reflexivity|].
  cbn [repeat app]. f_equal. exact IH.
Qed.

Lemma separate_is_slug (s : CodeUnits) :
  dashesSeparate s ->
  hd_error s <> Some dash ->
  hd_error (rev s) <> Some dash ->
  isSlug s.
Proof.
  intros Hsep Hhd Hlast. unfold isSlug.
  split; [|split; [exact Hhd|split; [exact Hlast|]]].
  - clear Hhd Hlast. induction s as [|c rest IH]; [constructor|].
    destruct Hsep as [Hc Hrest]. constructor; [|exact (IH Hrest)].
    destruct Hc as [Hc|[Hc _]]; [left|right]; exact Hc.
  - clear Hhd Hlast. induction s as [|c rest IH]; [exact I|].
    destruct Hsep as [Hc Hrest]. cbn [noDoubleDash]. split; [|exact (IH Hrest)].
    destruct rest as [|c' rest']; [exact I|].
    intros [E1 E2]. subst c c'.
    destruct Hc as [Hc|[_ Hc]]; discriminate.
Qed.

Lemma trimDashes_is_slug (s : CodeUnits) :
  dashesSeparate s -> isSlug (trimDashes s).
Proof.
  intros Hsep. unfold trimDashes.
  pose proof (dropDashes_separate s Hsep) as Hy.
  pose proof (dropDashes_head s) as Hhd.
  set (y := dropDashes s) in *.
  destruct (trimEnd_split y) as (k & Hk).
  apply separate_is_slug.
  - apply (dashesSeparate_app_l _ (repeat dash k)). rewrite <- Hk. exact Hy.
  - destruct (rev (dropDashes (rev y))) as [|c p] eqn:E; [discriminate|].
    rewrite Hk in Hhd. exact Hhd.
  - rewrite rev_involutive. apply dropDashes_head.
Qed.

Lemma replaceRuns_none (s : CodeUnits) :
  Forall (fun c => isSlugChar c = false) s -> s <> [] -> replaceRuns s = [dash].
Proof.
  induction 1 as [|c rest Hc Hrest IH]; [intros H; contradiction H; reflexivity|].
  intros _. cbn [replaceRuns]. rewrite Hc.
  destruct rest as [|c' rest']; [reflexivity|].
  inversion Hrest as [|? ? Hc' _]; subst. rewrite Hc'.
  apply IH. discriminate.
Qed.

Lemma replaceUmlaut_other (c : Z) : survives c = false -> replaceUmlaut c = [c].
Proof.
  unfold survives, replaceUmlaut. rewrite !orb_false_iff.
  intros [[[[_ H1] H2] H3] H4]. rewrite H1, H2, H3, H4. reflexivity.
Qed.

(** Whatever the name, [generateSlug] returns a slug: only a-z, 0-9 and
    dashes, no dash at either end and no two dashes in a row.  It returns
    the empty slug for every name whose lower-case form has no letter a-z,
    no digit and none of the letters ä, ö, ü, ß, so two such names cannot
    be told apart by their slugs. *)
Theorem generateSlug_is_slug (toLowerCase : CodeUnits -> CodeUnits) (name : CodeUnits) :
  isSlug (generateSlug toLowerCase name)
  /\ (Forall (fun c => survives c = false) (toLowerCase name) ->
      generateSlug toLowerCase name = []).
Proof.
  unfold generateSlug. split.
  - apply trimDashes_is_slug, replaceRuns_separates.
  - intros Hall.
    assert (E : flat_map replaceUmlaut (toLowerCase name) = toLowerCase name).
    { induction Hall as [|c rest Hc _ IH]; [reflexivity|].
      cbn [flat_map]. rewrite (replaceUmlaut_other c Hc), IH. reflexivity. }
    rewrite E. destruct (toLowerCase name) as [|c rest] eqn:El; [reflexivity|].
    rewrite replaceRuns_none; [reflexivity| |discriminate].
    revert Hall. apply Forall_impl. intros a Ha.
    unfold survives in Ha. rewrite !orb_false_iff in Ha. apply Ha.
Qed.

Lemma generateSlug_is_slug_witness :
  generateSlug lowerLatin1 doenerKoenig = doenerKoenigSlug
  /\ isSlug doenerKoenigSlug
  /\ generateSlug lowerLatin1 [28900; 32905; 33; 33] = [].
Proof.
  split; [reflexivity|]. split.
  - change doenerKoenigSlug with (generateSlug lowerLatin1 doenerKoenig).
    apply (generateSlug_is_slug lowerLatin1 doenerKoenig).
  - apply (generateSlug_is_slug lowerLatin1 [28900; 32905; 33; 33]).
    repeat constructor.
Defined.

Lemma slug_has_no_umlaut (s : CodeUnits) :
  Forall (fun c => isSlugChar c = true \/ c = dash) s -> flat_map replaceUmlaut s = s.
Proof.
  induction 1 as [|c rest Hc _ IH]; [reflexivity|].
  cbn [flat_map]. rewrite IH.
  assert (E : replaceUmlaut c = [c]).
  { unfold replaceUmlaut.
    destruct Hc as [Hc| ->]; [|reflexivity].
    unfold isSlugChar in Hc.
    destruct (c =? 228) eqn:E1; [apply Z.eqb_eq in E1; subst; discriminate|].
    destruct (c =? 246) eqn:E2; [apply Z.eqb_eq in E2; subst; discriminate|].
    destruct (c =? 252) eqn:E3; [apply Z.eqb_eq in E3; subst; discriminate|].
    destruct (c =? 223) eqn:E4; [apply Z.eqb_eq in E4; subst; discriminate|].
    reflexivity. }
  rewrite E. reflexivity.
Qed.

Lemma replaceRuns_fixed (s : CodeUnits) : dashesSeparate s -> replaceRuns s = s.
Proof.
  induction s as [|c rest IH]; [reflexivity|].
  intros [Hc Hrest]. cbn [replaceRuns]. rewrite (IH Hrest).
  destruct Hc as [Hc|[-> Hnext]]; [rewrite Hc; reflexivity|].
  rewrite dash_is_no_slug_char.
  destruct rest as [|c' rest']; [reflexivity|]. rewrite Hnext. reflexivity.
Qed.

Lemma slug_fixed (s : CodeUnits) :
  dashesSeparate s ->
  hd_error s <> Some dash ->
  hd_error (rev s) <> Some dash ->
  trimDashes (replaceRuns (flat_map replaceUmlaut s)) = s.
Proof.
  intros Hsep Hhd Hlast.
  rewrite slug_has_no_umlaut.
  2:{ apply (separate_is_slug s Hsep Hhd Hlast). }
  rewrite (replaceRuns_fixed s Hsep). unfold trimDashes.
  rewrite (dropDashes_fixed s Hhd), (dropDashes_fixed (rev s) Hlast).
  apply rev_involutive.
Qed.

(** [generateSlug] is idempotent: the slug of a slug is the slug itself,
    as [toLowerCase] changes no string of a-z, 0-9 and dashes. *)
Theorem generateSlug_idempotent (toLowerCase : CodeUnits -> CodeUnits) (name : CodeUnits) :
  (forall s, Forall (fun c => isSlugChar c = true \/ c = dash) s -> toLowerCase s = s) ->
  generateSlug toLowerCase (generateSlug toLowerCase name)
  = generateSlug toLowerCase name.
Proof.
  intros Hlower.
  assert (Hsep : dashesSeparate (generateSlug toLowerCase name)
                 /\ isSlug (generateSlug toLowerCase name)).
  { unfold generateSlug, trimDashes.
    set (t := replaceRuns (flat_map replaceUmlaut (toLowerCase name))).
    pose proof (replaceRuns_separates (flat_map replaceUmlaut (toLowerCase name))) as Ht.
    fold t in Ht. split; [|apply (trimDashes_is_slug t Ht)].
    destruct (trimEnd_split (dropDashes t)) as (k & Hk).
    apply (dashesSeparate_app_l _ (repeat dash k)). rewrite <- Hk.
    apply dropDashes_separate. exact Ht. }
  destruct Hsep as [Hsep (Hchars & Hhd & Hlast & _)].
  unfold generateSlug at 1. rewrite (Hlower _ Hchars).
  apply slug_fixed; assumption.
Qed.

Lemma lowerLatin1_keeps_slugs (s : CodeUnits) :
  Forall (fun c => isSlugChar c = true \/ c = dash) s -> lowerLatin1 s = s.
Proof.
  unfold lowerLatin1. induction 1 as [|c rest Hc _ IH]; [reflexivity|].
  cbn [map]. rewrite IH. f_equal.
  destruct Hc as [Hc| ->]; [|reflexivity].
  unfold isSlugChar in Hc.
  destruct ((65 <=? c) && (c <=? 90) || (192 <=? c) && (c <=? 222) && negb (c =? 215))
    eqn:E; [|reflexivity].
  exfalso.
  rewrite orb_true_iff, !andb_true_iff, !Z.leb_le in Hc.
  rewrite orb_true_iff, !andb_true_iff, !Z.leb_le in E. lia.
Qed.

Lemma generateSlug_idempotent_witness :
  generateSlug lowerLatin1 (generateSlug lowerLatin1 doenerKoenig)
  = generateSlug lowerLatin1 doenerKoenig.
Proof.
  exact (generateSlug_idempotent lowerLatin1 doenerKoenig lowerLatin1_keeps_slugs).
Defined.

End SlugFacts.

(** ** Quiet hours *)

Section QuietHoursFacts.
Import PushService.

(** For hours of the day, [isQuietHours] is the window from the start
    hour up to, not including, the end hour, around midnight when the end
    is not after the start, and all day when the two are equal.  The start
    and the end it uses are never 0: a start or end at midnight is read as
    missing and replaced by 22 and 8. *)
Theorem isQuietHours_window (q : QuietHours) (currentHour : Z) :
  0 <= currentHour < 24 ->
  (forall v, qh_start q = Some v -> 0 <= v < 24) ->
  (forall v, qh_end q = Some v -> 0 <= v < 24) ->
  let startHour := orDefault (qh_start q) 22 in
  let endHour := orDefault (qh_end q) 8 in
  (isQuietHours (Some q) currentHour = true <->
   startHour = endHour
   \/ (currentHour - startHour) mod 24 < (endHour - startHour) mod 24)
  /\ 0 < startHour < 24 /\ 0 < endHour < 24.
Proof.
  intros Hh Hs He startHour endHour.
  assert (HS : 0 < startHour < 24).
  { subst startHour. unfold orDefault. destruct (qh_start q) as [v|]; [|lia].
    specialize (Hs v eq_refl). destruct (v =? 0) eqn:E; [lia|].
    apply Z.eqb_neq in E. lia. }
  assert (HE : 0 < endHour < 24).
  { subst endHour. unfold orDefault. destruct (qh_end q) as [v|]; [|lia].
    specialize (He v eq_refl). destruct (v =? 0) eqn:E; [lia|].
    apply Z.eqb_neq in E. lia. }
  split; [|split; assumption].
  unfold isQuietHours. fold startHour endHour.
  destruct (startHour <? endHour) eqn:E.
  - apply Z.ltb_lt in E.
    rewrite andb_true_iff, Z.geb_le, Z.ltb_lt.
    rewrite (Z.mod_small (endHour - startHour) 24) by lia.
    destruct (Z_lt_le_dec currentHour startHour) as [Hlt|Hge].
    + replace ((currentHour - startHour) mod 24) with (currentHour - startHour + 24).
      * lia.
      * apply (Z.mod_unique _ _ (-1)); lia.
    + rewrite (Z.mod_small (currentHour - startHour) 24) by lia. lia.
  - apply Z.ltb_ge in E.
    rewrite orb_true_iff, Z.geb_le, Z.ltb_lt.
    destruct (Z.eq_dec startHour endHour) as [Heq|Hne]; [lia|].
    replace ((endHour - startHour) mod 24) with (endHour - startHour + 24).
    2:{ apply (Z.mod_unique _ _ (-1)); lia. }
    destruct (Z_lt_le_dec currentHour startHour) as [Hlt|Hge].
    + replace ((currentHour - startHour) mod 24) with (currentHour - startHour + 24).
      * lia.
      * apply (Z.mod_unique _ _ (-1)); lia.
    + rewrite (Z.mod_small (currentHour - startHour) 24) by lia. lia.
Qed.

Lemma isQuietHours_window_witness :
  isQuietHours (Some untilMidnight) 3 = true
  /\ orDefault (qh_end untilMidnight) 8 = 8.
Proof.
  split; [|reflexivity].
  apply (isQuietHours_window untilMidnight 3).
  - lia.
  - intros v E. injection E as <-. lia.
  - intros v E. injection E as <-. lia.
  - right. reflexivity.
Defined.

End QuietHoursFacts.

(** ** Opening hours from Google *)

Section GoogleHoursFacts.
Import Utils GooglePlaces.

Lemma removeFirst_formatTime (a b c d : ascii) :
  a <> ":"%char -> b <> ":"%char ->
  removeFirst ":"%char (formatTime (String a (String b (String c (String d EmptyString)))))
  = String a (String b (String c (String d EmptyString))).
Proof.
  intros Ha Hb. unfold formatTime. cbn [String.length Nat.eqb String.substring append].
  cbn [removeFirst].
  destruct (Ascii.eqb a ":"%char) eqn:Ea; [apply Ascii.eqb_eq in Ea; contradiction|].
  destruct (Ascii.eqb b ":"%char) eqn:Eb; [apply Ascii.eqb_eq in Eb; contradiction|].
  reflexivity.
Qed.

Lemma imported_today (shopId : string) (uuids : nat -> string) (d : Z)
  (ps : list Period) (k : nat) (today : OpeningHours) :
  find (fun h => oh_weekday h =? d)
       (Storage.newOpeningHours uuids k
          (withShopId shopId (convertOpeningHours (Some (mkGoogleHours (Some ps))))))
  = Some today ->
  exists p,
    find (fun p => day (open p) =? d) ps = Some p
    /\ oh_openTime today = Some (formatTime (time (open p)))
    /\ oh_closeTime today
       = match close p with Some c => Some (formatTime (time c)) | None => None end.
Proof.
  cbn [convertOpeningHours periods]. unfold withShopId. rewrite map_map.
  revert k. induction ps as [|p ps IH]; intros k; [discriminate|].
  cbn [map Storage.newOpeningHours find oh_weekday weekday Storage.ioh_weekday].
  destruct (day (open p) =? d).
  - intros H. injection H as <-. exists p. split; [reflexivity|].
    cbn. split; reflexivity.
  - apply IH.
Qed.

(** From Google's periods to the shop page: a four-digit time the import
    formats is read back by the open check as the same HHMM number; and on
    a day whose first period has no closing time the shop is shown as
    closed at every minute, so a place Google reports as always open (one
    period without [close]) is never shown as open. *)
Theorem google_hours_in_open_check (shopId : string) (uuids : nat -> string)
  (ps : list Period) (now : Instant) :
  (forall a b c d,
     a <> ":"%char -> b <> ":"%char ->
     toHHMM (formatTime (String a (String b (String c (String d EmptyString)))))
     = parseInt (String a (String b (String c (String d EmptyString)))))
  /\ ((forall p, find (fun p => day (open p) =? getDay now) ps = Some p -> close p = None) ->
      isShopOpen (importedHours shopId uuids ps) now = false).
Proof.
  split.
  - intros a b c d Ha Hb. unfold toHHMM. rewrite removeFirst_formatTime by assumption.
    reflexivity.
  - intros Hclose. rewrite isShopOpen_unfold. unfold todayHours.
    destruct (find (fun h => oh_weekday h =? getDay now) (importedHours shopId uuids ps))
      as [today|] eqn:E; [|reflexivity].
    unfold importedHours in E.
    destruct (imported_today shopId uuids (getDay now) ps 0 today E) as (p & Hp & _ & Hc).
    rewrite (Hclose p Hp) in Hc. rewrite Hc.
    destruct (oh_openTime today); reflexivity.
Qed.

Lemma google_hours_in_open_check_witness :
  isShopOpen (importedHours "s1" hourIds alwaysOpen) (mkInstant 0 12 0) = false.
Proof.
  apply (google_hours_in_open_check "s1" hourIds alwaysOpen (mkInstant 0 12 0)).
  intros p H. injection H as <-. reflexivity.
Defined.

End GoogleHoursFacts.

(** ** Deleting a review over the API *)

Section DeleteReviewRouteFacts.
Import Storage Routes.

(** [DELETE /api/reviews/:reviewId]: without a session the answer is 401.
    With one, an id (of the review or of the user) with a NUL character,
    which the database rejects, is answered by 500 and the store is as
    before.  Otherwise, for the owner of the review the answer is 200 and
    exactly the reviews with this id and this owner are gone; for anyone
    else, and for an id that names no review, it is 404 and the store is as
    before. *)
Theorem deleteApiReview_outcomes (db : DB) (session : option SessionUser)
  (reviewId : string) :
  match session with
  | None =>
      deleteApiReview db session reviewId
      = (ErrorJson 401 "Authentifizierung erforderlich", db)
  | Some currentUser =>
      if hasNul reviewId || hasNul (su_id currentUser)
      then deleteApiReview db session reviewId
           = (ErrorJson 500 "Bewertung konnte nicht gelöscht werden", db)
      else
        (ownsReview db reviewId (su_id currentUser)
         /\ exists db',
              deleteApiReview db session reviewId
              = (Json 200 "Bewertung erfolgreich gelöscht", db')
              /\ ~ ownsReview db' reviewId (su_id currentUser)
              /\ reviews db'
                 = filter (fun r => negb (ownedBy reviewId (su_id currentUser) r))
                     (reviews db))
        \/ (~ ownsReview db reviewId (su_id currentUser)
            /\ deleteApiReview db session reviewId
               = (ErrorJson 404 "Bewertung nicht gefunden oder nicht berechtigt", db))
  end.
Proof.
  destruct session as [u|]; [|reflexivity].
  unfold deleteApiReview, awaitDeleteReview. cbn [existsb].
  rewrite orb_false_r.
  destruct (hasNul reviewId || hasNul (su_id u)); [reflexivity|].
  unfold deleteReview. cbv zeta.
  destruct (filter (ownedBy reviewId (su_id u)) (reviews db)) as [|r rest] eqn:E.
  - right. split.
    + intros H. apply ownsReview_filter in H. contradiction.
    + cbn [List.length Nat.eqb]. rewrite (delete_no_match db reviewId (su_id u) E).
      reflexivity.
  - left. split.
    + apply ownsReview_filter. rewrite E. discriminate.
    + cbn [List.length Nat.eqb]. eexists. split; [reflexivity|]. split; [|reflexivity].
      intros H. apply ownsReview_filter in H. apply H.
      cbn [withReviews reviews]. apply filter_none.
      intros x Hx. apply filter_In in Hx. destruct Hx as [_ Hx].
      apply negb_true_iff in Hx. exact Hx.
Qed.

(** [DELETE /api/reviews/%00], by a user with a session. *)
Lemma deleteApiReview_rejected_id :
  deleteApiReview freiberg (Some (mkSessionUser "u1" "Ayla")) (String "000"%char EmptyString)
  = (ErrorJson 500 "Bewertung konnte nicht gelöscht werden", freiberg).
Proof. reflexivity. Qed.

End DeleteReviewRouteFacts.

(** ** The collection behind the pages *)

Section CollectionFacts.
Import Storage.
















End CollectionFacts.
